(** * Task registry (SistemaGestionEmpresarial-Demo): model and properties

    A shallow embedding of the task-management core:
    - [entities/enums/enums.py]   : [PrioridadEnum], [EstadoEnum];
    - [entities/models/tarea.py]  : the validated record [Tarea];
    - [infraestructure/services/tarea_service.py] : [TareaService], its
      snapshot load/save and its registry operations;
    - [infraestructure/services/log_service.py]   : [LogManager], [Timer].

    Conventions of the model.
    - A Python [str] is a [string] whose characters are code points 0..255;
      [len] is [String.length].
    - A naive [datetime] is the record of its seven components, compared
      lexicographically as Python does.
    - The [dict] [self.tareas] is an association list in insertion order,
      because [values()] is iterated in that order by the listings and by
      the snapshot writer.
    - Effects (the three log files, standard output, the snapshot file) are
      threaded explicitly through a world state [Mundo]; the timestamps and
      durations written into log lines are not represented.
    - The wall clock is an explicit argument wherever the source reads
      [datetime.now()] in a validator. *)

From Stdlib Require Import ZArith List String Ascii Bool Lia.
From Stdlib Require Import Permutation Sorted.
Import ListNotations.
Local Open Scope string_scope.
Local Open Scope list_scope.
Local Open Scope Z_scope.

(* ===================================================================== *)
(** ** Python strings: [str.lower], [str.strip] *)
(* ===================================================================== *)

Module PyStr.

(** Code point of a character. *)
Definition ord (c : ascii) : Z := Z.of_nat (nat_of_ascii c).

Definition chr (z : Z) : ascii := ascii_of_nat (Z.to_nat z).

(** [str.isspace] on one character, code points 0..255: TAB..CR,
    FS..US, SPACE, NEL (0x85) and NBSP (0xA0). *)
Definition isspace (c : ascii) : bool :=
  let n := ord c in
  ((9 <=? n) && (n <=? 13)) || ((28 <=? n) && (n <=? 32))
  || (n =? 133) || (n =? 160).

(** [str.lower] on one character, code points 0..255: A-Z and the
    Latin-1 capitals 0xC0..0xDE (the multiplication sign 0xD7 apart). *)
Definition lower_char (c : ascii) : ascii :=
  let n := ord c in
  if ((65 <=? n) && (n <=? 90))
     || ((192 <=? n) && (n <=? 222) && negb (n =? 215))
  then chr (n + 32) else c.

Fixpoint lower (s : string) : string :=
  match s with
  | EmptyString => EmptyString
  | String c s' => String (lower_char c) (lower s')
  end.

(** [str.lstrip()]: drop leading whitespace. *)
Fixpoint lstrip (s : string) : string :=
  match s with
  | EmptyString => EmptyString
  | String c s' => if isspace c then lstrip s' else s
  end.

(** Drop trailing whitespace: a character is kept when it is not
    whitespace or when something is kept after it. *)
Fixpoint rstrip (s : string) : string :=
  match s with
  | EmptyString => EmptyString
  | String c s' =>
      match rstrip s' with
      | EmptyString => if isspace c then EmptyString else String c EmptyString
      | r => String c r
      end
  end.

(** [str.strip()] with no argument. *)
Definition strip (s : string) : string := rstrip (lstrip s).

(** Every character of [s] is whitespace ([s] may be empty). *)
Fixpoint all_space (s : string) : bool :=
  match s with
  | EmptyString => true
  | String c s' => isspace c && all_space s'
  end.

(** [len(s)] *)
Definition len (s : string) : Z := Z.of_nat (String.length s).

End PyStr.

(* ===================================================================== *)
(** ** enums.py *)
(* ===================================================================== *)

(** [class PrioridadEnum(str, Enum)] *)
Inductive PrioridadEnum : Type := ALTA | MEDIA | BAJA.

(** [class EstadoEnum(str, Enum)] *)
Inductive EstadoEnum : Type := PENDIENTE | EN_PROGRESO | COMPLETADA.

(** The [.value] of a member. *)
Definition PrioridadEnum_value (p : PrioridadEnum) : string :=
  match p with
  | ALTA => "alta"
  | MEDIA => "media"
  | BAJA => "baja"
  end.

Definition EstadoEnum_value (e : EstadoEnum) : string :=
  match e with
  | PENDIENTE => "pendiente"
  | EN_PROGRESO => "en progreso"
  | COMPLETADA => "completada"
  end.

(** [PrioridadEnum(v)]: lookup of a member by value; [None] stands for the
    [ValueError] that the enum raises on an unknown value. *)
Definition PrioridadEnum_of (v : string) : option PrioridadEnum :=
  if String.eqb v "alta" then Some ALTA
  else if String.eqb v "media" then Some MEDIA
  else if String.eqb v "baja" then Some BAJA
  else None.

(** [EstadoEnum(v)] *)
Definition EstadoEnum_of (v : string) : option EstadoEnum :=
  if String.eqb v "pendiente" then Some PENDIENTE
  else if String.eqb v "en progreso" then Some EN_PROGRESO
  else if String.eqb v "completada" then Some COMPLETADA
  else None.

Definition PrioridadEnum_eqb (a b : PrioridadEnum) : bool :=
  match a, b with
  | ALTA, ALTA | MEDIA, MEDIA | BAJA, BAJA => true
  | _, _ => false
  end.

Definition EstadoEnum_eqb (a b : EstadoEnum) : bool :=
  match a, b with
  | PENDIENTE, PENDIENTE | EN_PROGRESO, EN_PROGRESO
  | COMPLETADA, COMPLETADA => true
  | _, _ => false
  end.

(* ===================================================================== *)
(** ** Naive [datetime] values *)
(* ===================================================================== *)

Record datetime : Type := mk_datetime {
  year : Z;
  month : Z;
  day : Z;
  hour : Z;
  minute : Z;
  second : Z;
  microsecond : Z
}.

Definition is_leap (y : Z) : bool :=
  ((y mod 4 =? 0) && negb (y mod 100 =? 0)) || (y mod 400 =? 0).

Definition days_in_month (y m : Z) : Z :=
  if m =? 2 then (if is_leap y then 29 else 28)
  else if (m =? 4) || (m =? 6) || (m =? 9) || (m =? 11) then 30
  else 31.

Definition entre (lo x hi : Z) : bool := (lo <=? x) && (x <=? hi).

(** The range checks of the [datetime] constructor. *)
Definition datetime_ok (d : datetime) : bool :=
  entre 1 (year d) 9999 && entre 1 (month d) 12
  && entre 1 (day d) (days_in_month (year d) (month d))
  && entre 0 (hour d) 23 && entre 0 (minute d) 59
  && entre 0 (second d) 59 && entre 0 (microsecond d) 999999.

Definition datetime_tuple (d : datetime) : list Z :=
  [year d; month d; day d; hour d; minute d; second d; microsecond d].

(** Lexicographic comparison of component lists. *)
Fixpoint lex_compare (a b : list Z) : comparison :=
  match a, b with
  | [], [] => Eq
  | [], _ :: _ => Lt
  | _ :: _, [] => Gt
  | x :: a', y :: b' =>
      match x ?= y with
      | Eq => lex_compare a' b'
      | c => c
      end
  end.

Definition datetime_compare (a b : datetime) : comparison :=
  lex_compare (datetime_tuple a) (datetime_tuple b).

(** [a < b] on naive datetimes. *)
Definition datetime_ltb (a b : datetime) : bool :=
  match datetime_compare a b with Lt => true | _ => false end.

(** [a <= b] *)
Definition datetime_leb (a b : datetime) : bool :=
  match datetime_compare a b with Gt => false | _ => true end.

Definition datetime_eqb (a b : datetime) : bool :=
  match datetime_compare a b with Eq => true | _ => false end.

(* ===================================================================== *)
(** ** [datetime.isoformat] and [datetime.fromisoformat] *)
(* ===================================================================== *)

Definition obind {A B : Type} (o : option A) (f : A -> option B) : option B :=
  match o with
  | Some a => f a
  | None => None
  end.

Notation "'let?' x ':=' e 'in' k" := (obind e (fun x => k))
  (at level 10, x pattern, e at level 100, k at level 200).

Definition digit_char (d : Z) : ascii := PyStr.chr (48 + d).

Definition digit_of (c : ascii) : option Z :=
  let n := PyStr.ord c in
  if entre 48 n 57 then Some (n - 48) else None.

(** ["%0wd" % n] for [0 <= n < 10^w]: exactly [w] decimal digits, most
    significant first. *)
Fixpoint zfill (w : nat) (n : Z) : string :=
  match w with
  | O => EmptyString
  | S w' => String (digit_char ((n / 10 ^ Z.of_nat w') mod 10)) (zfill w' n)
  end.

(** [d.isoformat()] of a naive datetime: [YYYY-MM-DDTHH:MM:SS], followed by
    [.ffffff] when the microsecond component is not zero. *)
Definition isoformat (d : datetime) : string :=
  (zfill 4 (year d) ++ "-" ++ zfill 2 (month d) ++ "-" ++ zfill 2 (day d)
   ++ "T" ++ zfill 2 (hour d) ++ ":" ++ zfill 2 (minute d) ++ ":"
   ++ zfill 2 (second d)
   ++ (if (microsecond d =? 0)%Z then ""
       else "." ++ zfill 6 (microsecond d))
  )%string.

(** Read exactly [w] decimal digits. *)
Fixpoint read_int (w : nat) (acc : Z) (s : string) : option (Z * string) :=
  match w with
  | O => Some (acc, s)
  | S w' =>
      match s with
      | EmptyString => None
      | String c s' =>
          let? d := digit_of c in read_int w' (10 * acc + d) s'
      end
  end.

Definition read_char (c : ascii) (s : string) : option string :=
  match s with
  | EmptyString => None
  | String c' s' => if Ascii.eqb c c' then Some s' else None
  end.

(** The fraction after the decimal point: three or six digits. *)
Definition parse_fraction (s : string) : option Z :=
  match String.length s with
  | 3%nat =>
      let? (v, r) := read_int 3 0 s in
      match r with EmptyString => Some (v * 1000) | _ => None end
  | 6%nat =>
      let? (v, r) := read_int 6 0 s in
      match r with EmptyString => Some v | _ => None end
  | _ => None
  end.

(** [HH[:MM[:SS[.fff[fff]]]]] *)
Definition parse_time (s : string) : option (Z * Z * Z * Z) :=
  let? (hh, s1) := read_int 2 0 s in
  match s1 with
  | EmptyString => Some (hh, 0, 0, 0)
  | _ =>
      let? s2 := read_char ":" s1 in
      let? (mm, s3) := read_int 2 0 s2 in
      match s3 with
      | EmptyString => Some (hh, mm, 0, 0)
      | _ =>
          let? s4 := read_char ":" s3 in
          let? (ss, s5) := read_int 2 0 s4 in
          match s5 with
          | EmptyString => Some (hh, mm, ss, 0)
          | _ =>
              let? s6 := read_char "." s5 in
              let? us := parse_fraction s6 in
              Some (hh, mm, ss, us)
          end
      end
  end.

(** [datetime.fromisoformat(s)] for naive datetimes, as far as every
    version of the interpreter agrees: the date [YYYY-MM-DD] alone, or
    the date, one separator character and a time
    [HH[:MM[:SS[.fff[fff]]]]]; this covers every text written by
    [isoformat].  [None] stands for the [ValueError] raised otherwise: a
    text that does not begin with the digits of a year, a separator with
    no time after it, a date or time out of range.  The further forms
    that later versions of the library also read (dates without dashes,
    week dates, other widths of the fraction, UTC offsets) are not
    represented and are taken as not parsing; no property below is
    stated on such texts. *)
Definition fromisoformat (s : string) : option datetime :=
  let? (y, s1) := read_int 4 0 s in
  let? s2 := read_char "-" s1 in
  let? (m, s3) := read_int 2 0 s2 in
  let? s4 := read_char "-" s3 in
  let? (d, s5) := read_int 2 0 s4 in
  let? (hh, mm, ss, us) :=
    match s5 with
    | EmptyString => Some (0, 0, 0, 0)
    | String _ tstr => parse_time tstr
    end in
  let dt := mk_datetime y m d hh mm ss us in
  if datetime_ok dt then Some dt else None.

(* ===================================================================== *)
(** ** tarea.py: the validated record [Tarea] *)
(* ===================================================================== *)

(** Outcome of a computation that may raise. *)
Inductive res (E A : Type) : Type :=
| Ok (a : A)
| Err (e : E).
Arguments Ok {E A} a.
Arguments Err {E A} e.

(** [class Tarea(BaseModel)] *)
Record Tarea : Type := mkTarea {
  id : Z;
  titulo : string;
  descripcion : string;
  prioridad : PrioridadEnum;
  estado : EstadoEnum;
  fecha_vencimiento : datetime
}.

(** One line of a pydantic [ValidationError]. *)
Inductive error_campo : Type :=
| missing (campo : string)            (* a required field is absent *)
| string_too_long                     (* [titulo]: [max_length=70] *)
| titulo_vacio                        (* raised by [titulo_no_vacio] *)
| enum_prioridad (v : string)         (* not a value of [PrioridadEnum] *)
| enum_estado (v : string)            (* not a value of [EstadoEnum] *)
| fecha_pasada.                       (* raised by [fecha_valida] *)

(** pydantic validates every field and reports all failures together. *)
Definition ValidationError : Type := list error_campo.

(** The keyword arguments of [Tarea(...)], each possibly absent.  The
    type [F] of the due date is [datetime] for the constructor and
    [string] for a record of the snapshot file. *)
Record campos (F : Type) : Type := mkCampos {
  c_id : option Z;
  c_titulo : option string;
  c_descripcion : option string;
  c_prioridad : option string;
  c_estado : option string;
  c_fecha_vencimiento : option F
}.
Arguments mkCampos {F}.
Arguments c_id {F}.
Arguments c_titulo {F}.
Arguments c_descripcion {F}.
Arguments c_prioridad {F}.
Arguments c_estado {F}.
Arguments c_fecha_vencimiento {F}.

Definition kwargs : Type := campos datetime.

(** [@field_validator('titulo') titulo_no_vacio]:
    [if not v.strip(): raise ValueError(...)]. *)
Definition titulo_no_vacio (v : string) : res error_campo string :=
  match PyStr.strip v with
  | EmptyString => Err titulo_vacio
  | _ => Ok v
  end.

(** [@field_validator('fecha_vencimiento') fecha_valida]:
    [if v < datetime.now(): raise ValueError(...)]. *)
Definition fecha_valida (ahora : datetime) (v : datetime)
  : res error_campo datetime :=
  if datetime_ltb v ahora then Err fecha_pasada else Ok v.

Definition requerido {A : Type} (campo : string) (o : option A)
  : res error_campo A :=
  match o with
  | Some a => Ok a
  | None => Err (missing campo)
  end.

(** [titulo: str = Field(..., max_length=70)], then the field validator. *)
Definition validar_titulo (o : option string) : res error_campo string :=
  match requerido "titulo" o with
  | Err e => Err e
  | Ok v => if 70 <? PyStr.len v then Err string_too_long
            else titulo_no_vacio v
  end.

(** [prioridad: PrioridadEnum] *)
Definition validar_prioridad (o : option string)
  : res error_campo PrioridadEnum :=
  match requerido "prioridad" o with
  | Err e => Err e
  | Ok v => match PrioridadEnum_of v with
            | Some p => Ok p
            | None => Err (enum_prioridad v)
            end
  end.

(** [estado: EstadoEnum = EstadoEnum.PENDIENTE] *)
Definition validar_estado (o : option string) : res error_campo EstadoEnum :=
  match o with
  | None => Ok PENDIENTE
  | Some v => match EstadoEnum_of v with
              | Some e => Ok e
              | None => Err (enum_estado v)
              end
  end.

(** [fecha_vencimiento: datetime], then the field validator. *)
Definition validar_fecha (ahora : datetime) (o : option datetime)
  : res error_campo datetime :=
  match requerido "fecha_vencimiento" o with
  | Err e => Err e
  | Ok v => fecha_valida ahora v
  end.

Definition errores {A : Type} (r : res error_campo A) : list error_campo :=
  match r with
  | Ok _ => []
  | Err e => [e]
  end.

(** The constructor [Tarea] applied to the keyword arguments [kw], when
    the validators read the clock as [ahora]. *)
Definition Tarea_init (ahora : datetime) (kw : kwargs)
  : res ValidationError Tarea :=
  let r_id := requerido "id" (c_id kw) in
  let r_titulo := validar_titulo (c_titulo kw) in
  let r_descripcion := requerido "descripcion" (c_descripcion kw) in
  let r_prioridad := validar_prioridad (c_prioridad kw) in
  let r_estado := validar_estado (c_estado kw) in
  let r_fecha := validar_fecha ahora (c_fecha_vencimiento kw) in
  match r_id, r_titulo, r_descripcion, r_prioridad, r_estado, r_fecha with
  | Ok i, Ok t, Ok d, Ok p, Ok e, Ok f => Ok (mkTarea i t d p e f)
  | _, _, _, _, _, _ =>
      Err (errores r_id ++ errores r_titulo ++ errores r_descripcion
           ++ errores r_prioridad ++ errores r_estado ++ errores r_fecha)%list
  end.

(* ===================================================================== *)
(** ** Python built-ins: insertion-ordered [dict], [sorted] *)
(* ===================================================================== *)

(** A [dict] with integer keys, as the list of its items in insertion
    order. *)
Definition dict (V : Type) : Type := list (Z * V).

(** [d.get(k)] *)
Fixpoint dict_get {V : Type} (k : Z) (d : dict V) : option V :=
  match d with
  | [] => None
  | (k', v) :: d' => if k =? k' then Some v else dict_get k d'
  end.

(** [d[k] = v]: an existing key keeps its position, a new key goes last. *)
Fixpoint dict_set {V : Type} (k : Z) (v : V) (d : dict V) : dict V :=
  match d with
  | [] => [(k, v)]
  | (k', v') :: d' =>
      if k =? k' then (k', v) :: d' else (k', v') :: dict_set k v d'
  end.

(** [d.values()] *)
Definition dict_values {V : Type} (d : dict V) : list V := map snd d.

Definition dict_keys {V : Type} (d : dict V) : list Z := map fst d.

(** [len(d)] *)
Definition dict_len {V : Type} (d : dict V) : Z :=
  Z.of_nat (List.length d).

Section Sorted.

Variables (A K : Type).
(** [key] is the [key=] function and [lt] is [<] on keys, the only
    comparison the sort uses. *)
Variable key : A -> K.
Variable lt : K -> K -> bool.

(** Insert [x] before the first element whose key is not smaller. *)
Fixpoint insert_sorted (x : A) (l : list A) : list A :=
  match l with
  | [] => [x]
  | y :: l' =>
      if lt (key y) (key x) then y :: insert_sorted x l'
      else x :: y :: l'
  end.

(** A stable sort: elements with equal keys keep their order, which
    together with the order of the keys fixes the result. *)
Definition stable_sort (l : list A) : list A :=
  fold_right insert_sorted [] l.

(** [sorted(l, key=key, reverse=reverse)].  With [reverse=True] the list
    is reversed, sorted and reversed again, which keeps the sort stable. *)
Definition sorted (reverse : bool) (l : list A) : list A :=
  if reverse then rev (stable_sort (rev l)) else stable_sort l.

(** [x] may stand before [y]: the key of [y] is not smaller. *)
Definition no_mayor (x y : A) : Prop := lt (key y) (key x) = false.

End Sorted.
Arguments no_mayor {A K}.
Arguments insert_sorted {A K}.
Arguments stable_sort {A K}.
Arguments sorted {A K}.

(* ===================================================================== *)
(** ** The snapshot file, the logs and the world *)
(* ===================================================================== *)

(** One object of the ["tareas"] array of the snapshot: the fields of a
    record with the JSON types the writer gives them, each possibly
    absent, the due date as text. *)
Definition tarea_dict : Type := campos string.

(** The JSON object of the snapshot file, each key possibly absent. *)
Record datos : Type := mkDatos {
  d_siguiente_id : option Z;
  d_tareas : option (list tarea_dict)
}.

(** The file [tareas.json]: absent, present but rejected by [json.load],
    or holding an object. *)
Inductive archivo : Type :=
| NoExiste
| Ilegible
| Contenido (d : datos).

(** The exception behind a logged message. *)
Inductive causa : Type :=
| CausaEnum (v : string)          (* [ValueError] of an enum lookup *)
| CausaIsoformat (s : string)     (* [ValueError] of [fromisoformat] *)
| CausaJSON.                      (* [json.load] failed *)

(** The messages the service formats. *)
Inductive mensaje : Type :=
| ErrorAlCargarTarea (e : ValidationError)  (* "Error al cargar tarea: ..." *)
| ErrorAlCargarTareas (c : causa)           (* "Error al cargar tareas: ..." *)
| LimiteAlcanzado                 (* "Se ha alcanzado el limite maximo ..." *)
| ErrorDeValidacion (e : ValidationError)   (* "Error de validacion: ..." *)
| ErrorAlAgregarTarea (c : causa)           (* "Error al agregar tarea: ..." *)
| EstadoNoValido (nuevo_estado : string).   (* "Estado no valido: ..." *)

(** The only exception that leaves the service. *)
Inductive excepcion : Type :=
| ValueError (m : mensaje).

(** What the service does to the outside, in order of time. *)
Inductive evento : Type :=
| AccionLog (action : string)      (* a line of [logs/acciones.log] *)
| ErrorLog (m : mensaje)           (* a line of [logs/errores.log] *)
| DatosLog (operation : string) (tarea_id : Z) (info : string)
                                   (* a line of [logs/datos.log] *)
| Impreso (m : mensaje)            (* [print] *)
| Volcado (d : datos).             (* [tareas.json] rewritten in full *)

(** The fields of a [TareaService] object. *)
Record TareaService : Type := mkTareaService {
  tareas : dict Tarea;
  siguiente_id : Z
}.

(** The service together with what it reads and writes. *)
Record Mundo : Type := mkMundo {
  servicio : TareaService;
  tareas_json : archivo;
  traza : list evento
}.

Definition emitir (e : evento) (w : Mundo) : Mundo :=
  mkMundo (servicio w) (tareas_json w) (traza w ++ [e]).

Definition con_servicio (s : TareaService) (w : Mundo) : Mundo :=
  mkMundo s (tareas_json w) (traza w).

(** [LogManager.log_action] *)
Definition log_action (action : string) (w : Mundo) : Mundo :=
  emitir (AccionLog action) w.

(** [LogManager.log_error] *)
Definition log_error (m : mensaje) (w : Mundo) : Mundo :=
  emitir (ErrorLog m) w.

(** [LogManager.log_data_operation] *)
Definition log_data_operation (operation : string) (tarea_id : Z)
  (info : string) (w : Mundo) : Mundo :=
  emitir (DatosLog operation tarea_id info) w.

(** [with Timer(action, log_manager): cuerpo]: [__exit__] logs the action
    on every way out of the body and lets an exception through.  The
    warning printed for a duration above one second depends on real
    time and is not represented. *)
Definition Timer {A : Type} (action : string) (cuerpo : Mundo -> A * Mundo)
  (w : Mundo) : A * Mundo :=
  let (r, w') := cuerpo w in (r, log_action action w').

(* ===================================================================== *)
(** ** tarea_service.py *)
(* ===================================================================== *)

Definition MAX_TAREAS : Z := 50000.

(** [{**tarea.dict(), "fecha_vencimiento": tarea.fecha_vencimiento.isoformat()}];
    the enum members are written by [json.dump] as their string values. *)
Definition Tarea_dict (t : Tarea) : tarea_dict :=
  mkCampos (Some (id t)) (Some (titulo t)) (Some (descripcion t))
           (Some (PrioridadEnum_value (prioridad t)))
           (Some (EstadoEnum_value (estado t)))
           (Some (isoformat (fecha_vencimiento t))).

(** The object that [guardar_tareas] dumps. *)
Definition datos_de (s : TareaService) : datos :=
  mkDatos (Some (siguiente_id s))
          (Some (map Tarea_dict (dict_values (tareas s)))).

(** [TareaService.guardar_tareas].  The values dumped are always
    serializable and the write is taken to succeed, so the handler of
    the source is not entered. *)
Definition guardar_tareas (w : Mundo) : Mundo :=
  let d := datos_de (servicio w) in
  mkMundo (servicio w) (Contenido d) (traza w ++ [Volcado d]).

(** Lines 55-56 of [cargar_tareas]: the due date of a snapshot record, when
    present, is replaced by [datetime.fromisoformat] of it. *)
Definition convertir_fecha (td : tarea_dict) : res causa kwargs :=
  match c_fecha_vencimiento td with
  | None =>
      Ok (mkCampos (c_id td) (c_titulo td) (c_descripcion td)
                   (c_prioridad td) (c_estado td) None)
  | Some s =>
      match fromisoformat s with
      | Some f =>
          Ok (mkCampos (c_id td) (c_titulo td) (c_descripcion td)
                       (c_prioridad td) (c_estado td) (Some f))
      | None => Err (CausaIsoformat s)
      end
  end.

Definition guardar_en_dict (t : Tarea) (w : Mundo) : Mundo :=
  con_servicio
    (mkTareaService (dict_set (id t) t (tareas (servicio w)))
                    (siguiente_id (servicio w))) w.

(** One turn of the loop of [cargar_tareas] (lines 53-62).  The result
    [Some c] is an exception that the inner [try] does not catch. *)
Definition cargar_una (ahora : datetime) (td : tarea_dict) (w : Mundo)
  : option causa * Mundo :=
  match convertir_fecha td with
  | Err c => (Some c, w)
  | Ok kw =>
      match Tarea_init ahora kw with
      | Ok tarea => (None, guardar_en_dict tarea w)
      | Err e => (None, log_error (ErrorAlCargarTarea e) w)
      end
  end.

(** The loop over [datos["tareas"]]; [reloj k] is what [datetime.now()]
    returns while the record at position [k] of the array is validated. *)
Fixpoint cargar_bucle (reloj : nat -> datetime) (k : nat)
  (l : list tarea_dict) (w : Mundo) : option causa * Mundo :=
  match l with
  | [] => (None, w)
  | td :: l' =>
      match cargar_una (reloj k) td w with
      | (Some c, w') => (Some c, w')
      | (None, w') => cargar_bucle reloj (S k) l' w'
      end
  end.

(** The outer handler of [cargar_tareas] (lines 63-65). *)
Definition error_al_cargar (c : causa) (w : Mundo) : Mundo :=
  emitir (Impreso (ErrorAlCargarTareas c))
         (log_error (ErrorAlCargarTareas c) w).

(** [TareaService.cargar_tareas] *)
Definition cargar_tareas (reloj : nat -> datetime) (w : Mundo) : Mundo :=
  match tareas_json w with
  | NoExiste => w
  | Ilegible => error_al_cargar CausaJSON w
  | Contenido d =>
      let w1 :=
        match d_siguiente_id d with
        | Some n =>
            if n =? 0 then w
            else con_servicio (mkTareaService (tareas (servicio w)) n) w
        | None => w
        end in
      match d_tareas d with
      | None | Some [] => w1
      | Some l =>
          match cargar_bucle reloj 0 l w1 with
          | (Some c, w2) => error_al_cargar c w2
          | (None, w2) => w2
          end
      end
  end.

(** [TareaService.__init__] in a world whose snapshot file is [a] and
    whose past effects are [tr]. *)
Definition TareaService_init (reloj : nat -> datetime) (a : archivo)
  (tr : list evento) : Mundo :=
  cargar_tareas reloj (mkMundo (mkTareaService [] 1) a tr).

(** [TareaService.agregar_tarea]; [ahora] is the clock read by the
    validator of the new record. *)
Definition agregar_tarea (ahora : datetime) (titulo_ descripcion_ : string)
  (prioridad_ : string) (fecha_vencimiento_ : datetime) (w : Mundo)
  : res excepcion Tarea * Mundo :=
  Timer "Agregar tarea" (fun w =>
    if MAX_TAREAS <=? dict_len (tareas (servicio w)) then
      (Err (ValueError LimiteAlcanzado), log_error LimiteAlcanzado w)
    else
      match PrioridadEnum_of (PyStr.lower prioridad_) with
      | None =>
          let m := ErrorAlAgregarTarea (CausaEnum (PyStr.lower prioridad_)) in
          (Err (ValueError m), log_error m w)
      | Some p =>
          let s := servicio w in
          match Tarea_init ahora
                  (mkCampos (Some (siguiente_id s)) (Some titulo_)
                            (Some descripcion_)
                            (Some (PrioridadEnum_value p))
                            (Some (EstadoEnum_value PENDIENTE))
                            (Some fecha_vencimiento_)) with
          | Err e =>
              let m := ErrorDeValidacion e in
              (Err (ValueError m), log_error m w)
          | Ok nueva_tarea =>
              let w1 :=
                con_servicio
                  (mkTareaService
                     (dict_set (siguiente_id s) nueva_tarea (tareas s))
                     (siguiente_id s)) w in
              let w2 :=
                log_data_operation "Tarea agregada" (siguiente_id s)
                                   titulo_ w1 in
              let w3 :=
                con_servicio
                  (mkTareaService (tareas (servicio w2))
                                  (siguiente_id (servicio w2) + 1)) w2 in
              (Ok nueva_tarea, guardar_tareas w3)
          end
      end) w.

(** [TareaService.buscar_tarea_por_id] *)
Definition buscar_tarea_por_id (tarea_id : Z) (w : Mundo)
  : option Tarea * Mundo :=
  Timer "Buscar tarea por ID"
        (fun w => (dict_get tarea_id (tareas (servicio w)), w)) w.

(** The dictionary [prioridad_valor] of [listar_tareas_por_prioridad]. *)
Definition prioridad_valor (p : PrioridadEnum) : Z :=
  match p with
  | BAJA => 1
  | MEDIA => 2
  | ALTA => 3
  end.

(** [TareaService.listar_tareas_por_prioridad] *)
Definition listar_tareas_por_prioridad (ascendente : bool) (w : Mundo)
  : list Tarea * Mundo :=
  Timer "Listar tareas por prioridad" (fun w =>
    let tareas_lista := dict_values (tareas (servicio w)) in
    let tareas_ordenadas :=
      if ascendente
      then sorted (fun t => prioridad_valor (prioridad t)) Z.ltb false
                  tareas_lista
      else sorted (fun t => prioridad_valor (prioridad t)) Z.ltb true
                  tareas_lista in
    (tareas_ordenadas, w)) w.

(** [TareaService.listar_tareas_por_vencimiento] *)
Definition listar_tareas_por_vencimiento (w : Mundo) : list Tarea * Mundo :=
  Timer "Listar tareas por vencimiento" (fun w =>
    let tareas_pendientes :=
      filter (fun tarea => negb (EstadoEnum_eqb (estado tarea) COMPLETADA))
             (dict_values (tareas (servicio w))) in
    (sorted fecha_vencimiento datetime_ltb false tareas_pendientes, w)) w.

(** [tarea.estado = estado_enum] *)
Definition con_estado (e : EstadoEnum) (t : Tarea) : Tarea :=
  mkTarea (id t) (titulo t) (descripcion t) (prioridad t) e
          (fecha_vencimiento t).

(** [TareaService.actualizar_estado_tarea].  The record found is the
    object held by the dictionary, so the assignment to its [estado]
    changes the stored value in place. *)
Definition actualizar_estado_tarea (tarea_id : Z) (nuevo_estado : string)
  (w : Mundo) : res excepcion (option Tarea) * Mundo :=
  Timer "Actualizar estado de tarea" (fun w =>
    match dict_get tarea_id (tareas (servicio w)) with
    | None => (Ok None, w)
    | Some tarea =>
        match EstadoEnum_of (PyStr.lower nuevo_estado) with
        | None =>
            let m := EstadoNoValido nuevo_estado in
            (Err (ValueError m), log_error m w)
        | Some estado_enum =>
            let tarea' := con_estado estado_enum tarea in
            let w1 :=
              con_servicio
                (mkTareaService
                   (dict_set tarea_id tarea' (tareas (servicio w)))
                   (siguiente_id (servicio w))) w in
            let w2 :=
              log_data_operation "Estado de tarea actualizado" tarea_id
                                 nuevo_estado w1 in
            (Ok (Some tarea'), guardar_tareas w2)
        end
    end) w.

(* ===================================================================== *)
(** ** main.py: how the menu calls the service *)
(* ===================================================================== *)

(** [l[i]] on a Python list: a negative index counts from the end, and
    [None] stands for [IndexError]. *)
Definition py_index {A : Type} (l : list A) (i : Z) : option A :=
  let n := Z.of_nat (List.length l) in
  if 0 <=? i then nth_error l (Z.to_nat i)
  else if - n <=? i then nth_error l (Z.to_nat (n + i))
  else None.

(** The lists [prioridades] and [estados] of the menu. *)
Definition prioridades : list string := ["alta"; "media"; "baja"].

Definition estados : list string := ["pendiente"; "en progreso"; "completada"].

(** [SistemaTareas.agregar_tarea] from the point where the values were
    read: [titulo_] and [descripcion_] are the lines entered,
    [opcion_prioridad] and [fecha_vencimiento_] what [obtener_opcion] and
    [obtener_fecha] returned.  The terminal is not part of the world:
    what is printed, on success or in the handler of [ValueError], is
    not represented, and the result of the service stands for the branch
    taken.  [None] is an [IndexError], which the method does not
    catch. *)
Definition SistemaTareas_agregar_tarea (ahora : datetime)
  (titulo_ descripcion_ : string) (opcion_prioridad : Z)
  (fecha_vencimiento_ : datetime) (w : Mundo)
  : option (res excepcion Tarea * Mundo) :=
  match py_index prioridades (opcion_prioridad - 1) with
  | None => None
  | Some prioridad_ =>
      Some (Timer "Agregar tarea (interfaz)"
              (agregar_tarea ahora titulo_ descripcion_ prioridad_
                             fecha_vencimiento_) w)
  end.

(** [SistemaTareas.actualizar_estado_tarea] from the point where the id
    was read; [opcion_estado] is asked for, and the status updated, only
    when the lookup finds the record.  The terminal is not part of the
    world, as above. *)
Definition SistemaTareas_actualizar_estado_tarea (tarea_id : Z)
  (opcion_estado : Z) (w : Mundo)
  : option (res excepcion (option Tarea) * Mundo) :=
  match buscar_tarea_por_id tarea_id w with
  | (None, w1) => Some (Ok None, w1)
  | (Some _, w1) =>
      match py_index estados (opcion_estado - 1) with
      | None => None
      | Some nuevo_estado =>
          Some (Timer "Actualizar estado (interfaz)"
                  (actualizar_estado_tarea tarea_id nuevo_estado) w1)
      end
  end.

(* ===================================================================== *)
(** ** Vocabulary of the properties *)
(* ===================================================================== *)

(** The arguments of one call of [agregar_tarea], with the clock reading
    of its validator. *)
Record entrada : Type := mkEntrada {
  e_ahora : datetime;
  e_titulo : string;
  e_descripcion : string;
  e_prioridad : string;
  e_fecha_vencimiento : datetime
}.

(** Successive calls of [agregar_tarea]; the results are kept in order. *)
Fixpoint agregar_varias (es : list entrada) (w : Mundo)
  : list (res excepcion Tarea) * Mundo :=
  match es with
  | [] => ([], w)
  | e :: es' =>
      let (r, w1) :=
        agregar_tarea (e_ahora e) (e_titulo e) (e_descripcion e)
                      (e_prioridad e) (e_fecha_vencimiento e) w in
      let (rs, w2) := agregar_varias es' w1 in
      (r :: rs, w2)
  end.

(** The records returned by the calls that succeeded. *)
Fixpoint exitos {E A : Type} (rs : list (res E A)) : list A :=
  match rs with
  | [] => []
  | Ok a :: rs' => a :: exitos rs'
  | Err _ :: rs' => exitos rs'
  end.

(** [c, c+1, ..., c+n-1] *)
Definition ids_desde (c : Z) (n : nat) : list Z :=
  map (fun i => c + Z.of_nat i) (seq 0 n).

(** The registry after [n] successful creations from an empty mapping
    with counter [c]: keys [c..c+n-1] in this order, each record under
    its own id, counter [c+n]. *)
Definition secuencial (c : Z) (n : nat) (s : TareaService) : Prop :=
  dict_keys (tareas s) = ids_desde c n
  /\ Forall (fun kv => fst kv = id (snd kv)) (tareas s)
  /\ siguiente_id s = c + Z.of_nat n.

(** The input of a call passes every check of [agregar_tarea] but the
    ceiling: the priority text lowered is a value of the enum, the title
    is not blank and has at most 70 characters, the due date is not
    earlier than the clock. *)
Definition entrada_valida (e : entrada) : bool :=
  match PrioridadEnum_of (PyStr.lower (e_prioridad e)) with
  | Some _ => true
  | None => false
  end
  && match PyStr.strip (e_titulo e) with
     | EmptyString => false
     | _ => true
     end
  && (PyStr.len (e_titulo e) <=? 70)
  && negb (datetime_ltb (e_fecha_vencimiento e) (e_ahora e)).

(** The call returned. *)
Definition es_Ok {E A : Type} (r : res E A) : bool :=
  match r with
  | Ok _ => true
  | Err _ => false
  end.

(** Number of full rewrites of the snapshot file in a trace. *)
Fixpoint n_volcados (tr : list evento) : nat :=
  match tr with
  | [] => O
  | Volcado _ :: tr' => S (n_volcados tr')
  | _ :: tr' => n_volcados tr'
  end.

(** The messages written to the error log in a trace. *)
Fixpoint errores_log (tr : list evento) : list mensaje :=
  match tr with
  | [] => []
  | ErrorLog m :: tr' => m :: errores_log tr'
  | _ :: tr' => errores_log tr'
  end.

(** What the validators of [Tarea] establish about a record, and what
    every [datetime] object satisfies. *)
Definition Tarea_ok (t : Tarea) : Prop :=
  PyStr.strip (titulo t) <> EmptyString /\ PyStr.len (titulo t) <= 70
  /\ datetime_ok (fecha_vencimiento t) = true.

(** The invariant of [self.tareas]: every record is stored under its own
    id, no key is repeated, and every record was validated. *)
Definition registro_ok (d : dict Tarea) : Prop :=
  NoDup (dict_keys d)
  /\ Forall (fun kv => fst kv = id (snd kv) /\ Tarea_ok (snd kv)) d.

(** The worlds that the program can be in: a service is constructed from
    whatever the snapshot file holds, and then its operations are
    called; the due date passed to [agregar_tarea] is a [datetime]
    object. *)
Inductive alcanzable : Mundo -> Prop :=
| alc_init (reloj : nat -> datetime) (a : archivo) (tr : list evento) :
    alcanzable (TareaService_init reloj a tr)
| alc_agregar (w : Mundo) (ahora : datetime) (t d p : string)
    (f : datetime) :
    alcanzable w -> datetime_ok f = true ->
    alcanzable (snd (agregar_tarea ahora t d p f w))
| alc_actualizar (w : Mundo) (i : Z) (s : string) :
    alcanzable w -> alcanzable (snd (actualizar_estado_tarea i s w))
| alc_buscar (w : Mundo) (i : Z) :
    alcanzable w -> alcanzable (snd (buscar_tarea_por_id i w))
| alc_listar_prioridad (w : Mundo) (ascendente : bool) :
    alcanzable w ->
    alcanzable (snd (listar_tareas_por_prioridad ascendente w))
| alc_listar_vencimiento (w : Mundo) :
    alcanzable w -> alcanzable (snd (listar_tareas_por_vencimiento w)).

(** The records of [ts], met at positions [k], [k+1], ... of the snapshot,
    whose due date is not earlier than the clock when they are
    validated. *)
Fixpoint vigentes (reloj : nat -> datetime) (k : nat) (ts : list Tarea)
  : list Tarea :=
  match ts with
  | [] => []
  | t :: ts' =>
      if datetime_ltb (fecha_vencimiento t) (reloj k)
      then vigentes reloj (S k) ts'
      else t :: vigentes reloj (S k) ts'
  end.

(** The records of [ts] that [vigentes] leaves out. *)
Fixpoint vencidas (reloj : nat -> datetime) (k : nat) (ts : list Tarea)
  : list Tarea :=
  match ts with
  | [] => []
  | t :: ts' =>
      if datetime_ltb (fecha_vencimiento t) (reloj k)
      then t :: vencidas reloj (S k) ts'
      else vencidas reloj (S k) ts'
  end.

(** [d[t.id] = t] for each record of [ts] in turn. *)
Definition guardar_todas (ts : list Tarea) (d : dict Tarea) : dict Tarea :=
  fold_left (fun d t => dict_set (id t) t d) ts d.

(** When the record at position [j] of the registry is validated at
    load, the clock has not passed its due date. *)
Definition sin_vencer (reloj : nat -> datetime) (d : dict Tarea) : Prop :=
  forall (j : nat) (t : Tarea),
    nth_error (dict_values d) j = Some t ->
    datetime_ltb (fecha_vencimiento t) (reloj j) = false.

(** Saving the world [w] and constructing a new service, with [tr] the
    effects before the construction. *)
Definition recargar (reloj : nat -> datetime) (tr : list evento) (w : Mundo)
  : Mundo :=
  TareaService_init reloj (tareas_json (guardar_tareas w)) tr.

(** The records of a snapshot array that pass validation, the record at
    position [k] being validated when the clock reads [reloj k]. *)
Fixpoint validas (reloj : nat -> datetime) (k : nat) (l : list tarea_dict)
  : list Tarea :=
  match l with
  | [] => []
  | td :: l' =>
      match convertir_fecha td with
      | Ok kw =>
          match Tarea_init (reloj k) kw with
          | Ok t => t :: validas reloj (S k) l'
          | Err _ => validas reloj (S k) l'
          end
      | Err _ => validas reloj (S k) l'
      end
  end.

(** The due-date text of a snapshot record, when present, parses. *)
Definition fecha_legible (td : tarea_dict) : Prop :=
  forall s : string,
    c_fecha_vencimiento td = Some s -> fromisoformat s <> None.

(** The due-date text of a snapshot record, when present, is what
    [isoformat] writes for some datetime in range: the texts that
    [guardar_tareas] produces. *)
Definition fecha_canonica (td : tarea_dict) : Prop :=
  forall s : string,
    c_fecha_vencimiento td = Some s ->
    exists d : datetime, datetime_ok d = true /\ s = isoformat d.

(** A text that is empty or does not start with a decimal digit; no
    ISO 8601 date starts so. *)
Definition no_es_fecha (s : string) : Prop :=
  match s with
  | EmptyString => True
  | String c _ => digit_of c = None
  end.

(** Rank order of two records, ascending or descending. *)
Definition orden_prioridad (ascendente : bool) (a b : Tarea) : Prop :=
  if ascendente
  then prioridad_valor (prioridad a) <= prioridad_valor (prioridad b)
  else prioridad_valor (prioridad b) <= prioridad_valor (prioridad a).

(** [a] is due no later than [b]. *)
Definition orden_vencimiento (a b : Tarea) : Prop :=
  datetime_leb (fecha_vencimiento a) (fecha_vencimiento b) = true.

(** A freshly constructed service: no snapshot was found. *)
Definition mundo_inicial : Mundo :=
  TareaService_init (fun _ => mk_datetime 1 1 1 0 0 0 0) NoExiste [].

(** One call of a method of the service, with what it is given. *)
Inductive llamada : Type :=
| LlAgregar (e : entrada)
| LlBuscar (tarea_id : Z)
| LlListarPrioridad (ascendente : bool)
| LlListarVencimiento
| LlActualizar (tarea_id : Z) (nuevo_estado : string).

(** The world after a call, whatever it returned or raised. *)
Definition ejecutar (w : Mundo) (c : llamada) : Mundo :=
  match c with
  | LlAgregar e =>
      snd (agregar_tarea (e_ahora e) (e_titulo e) (e_descripcion e)
                         (e_prioridad e) (e_fecha_vencimiento e) w)
  | LlBuscar i => snd (buscar_tarea_por_id i w)
  | LlListarPrioridad a => snd (listar_tareas_por_prioridad a w)
  | LlListarVencimiento => snd (listar_tareas_por_vencimiento w)
  | LlActualizar i s => snd (actualizar_estado_tarea i s w)
  end.

Definition ejecutar_varias (cs : list llamada) (w : Mundo) : Mundo :=
  fold_left ejecutar cs w.

(** The snapshot file holds exactly the state of the service. *)
Definition sincronizado (w : Mundo) : Prop :=
  tareas_json w = Contenido (datos_de (servicio w)).

(** Every key of the registry is below the next-id counter, and the
    counter is at least 1. *)
Definition bajo_contador (s : TareaService) : Prop :=
  1 <= siguiente_id s
  /\ Forall (fun k => k < siguiente_id s) (dict_keys (tareas s)).

(** The worlds reached from a first start with no snapshot file, through
    calls of the service and restarts of the program; a restart
    constructs a new service from the file as it stands, the log files
    being kept. *)
Inductive desde_cero : Mundo -> Prop :=
| dc_inicio (reloj : nat -> datetime) (tr : list evento) :
    desde_cero (TareaService_init reloj NoExiste tr)
| dc_agregar (w : Mundo) (ahora : datetime) (t d p : string)
    (f : datetime) :
    desde_cero w -> datetime_ok f = true ->
    desde_cero (snd (agregar_tarea ahora t d p f w))
| dc_actualizar (w : Mundo) (i : Z) (s : string) :
    desde_cero w -> desde_cero (snd (actualizar_estado_tarea i s w))
| dc_buscar (w : Mundo) (i : Z) :
    desde_cero w -> desde_cero (snd (buscar_tarea_por_id i w))
| dc_listar_prioridad (w : Mundo) (ascendente : bool) :
    desde_cero w ->
    desde_cero (snd (listar_tareas_por_prioridad ascendente w))
| dc_listar_vencimiento (w : Mundo) :
    desde_cero w -> desde_cero (snd (listar_tareas_por_vencimiento w))
| dc_reinicio (w : Mundo) (reloj : nat -> datetime) :
    desde_cero w ->
    desde_cero (TareaService_init reloj (tareas_json w) (traza w)).

(** The last record of [ts] whose id is [k]. *)
Fixpoint ultima_con_id (k : Z) (ts : list Tarea) : option Tarea :=
  match ts with
  | [] => None
  | t :: ts' =>
      match ultima_con_id k ts' with
      | Some t' => Some t'
      | None => if k =? id t then Some t else None
      end
  end.

(** The error lines of a trace, counted. *)
Definition n_errores (tr : list evento) : nat :=
  List.length (errores_log tr).

(** [prefijo a b]: the trace [b] continues the trace [a]. *)
Definition prefijo (a b : list evento) : Prop :=
  exists c : list evento, b = a ++ c.

(** The state of the service after a successful creation. *)
Definition servicio_tras_agregar (r : Tarea) (s : TareaService)
  : TareaService :=
  mkTareaService (dict_set (siguiente_id s) r (tareas s))
                 (siguiente_id s + 1).

(** The first step of [cargar_tareas] on a file that holds an object. *)
Definition con_contador (d : datos) (w : Mundo) : Mundo :=
  match d_siguiente_id d with
  | Some n =>
      if n =? 0 then w
      else con_servicio (mkTareaService (tareas (servicio w)) n) w
  | None => w
  end.

(** What the snapshot file is in a world reached from a first start:
    absent while nothing was ever stored, or the snapshot of a state of
    the service with the counter of today. *)
Definition archivo_de_cero (w : Mundo) : Prop :=
  (tareas_json w = NoExiste /\ servicio w = mkTareaService [] 1)
  \/ (exists s0 : TareaService,
         tareas_json w = Contenido (datos_de s0)
         /\ registro_ok (tareas s0) /\ bajo_contador s0
         /\ siguiente_id s0 = siguiente_id (servicio w)).

Definition inv_de_cero (w : Mundo) : Prop :=
  registro_ok (tareas (servicio w)) /\ bajo_contador (servicio w)
  /\ archivo_de_cero w.

(* ===================================================================== *)
(** ** Sample worlds *)
(* ===================================================================== *)

(** A moment [T] and the moments [h] hours after it. *)
Definition ej_T : datetime := mk_datetime 2025 5 15 12 0 0 0.

Definition ej_T_mas (h : Z) : datetime := mk_datetime 2025 5 15 (12 + h) 0 0 0.

(** Three records created at [T]: priorities baja, alta, media; due at
    [T+1h], [T+2h], [T+3h]. *)
Definition ej_tres : Mundo :=
  snd (agregar_varias
         [mkEntrada ej_T "Informe" "Informe trimestral" "baja" (ej_T_mas 1);
          mkEntrada ej_T "Copia" "Copia de seguridad" "ALTA" (ej_T_mas 2);
          mkEntrada ej_T "Correo" "Responder al cliente" "Media"
                    (ej_T_mas 3)]
         mundo_inicial).

(** The second record completed, the third in progress. *)
Definition ej_estados : Mundo :=
  snd (actualizar_estado_tarea 3 "en progreso"
         (snd (actualizar_estado_tarea 2 "completada" ej_tres))).

(** A moment between [T+1h] and [T+2h]. *)
Definition ej_tarde : datetime := mk_datetime 2025 5 15 13 30 0 0.

(** Records of a snapshot file: a well-formed one with the given id, one
    with a blank title, one whose due date is not a date. *)
Definition ej_td (i : Z) : tarea_dict :=
  mkCampos (Some i) (Some "Tarea") (Some "") (Some "media")
           (Some "pendiente") (Some "2025-05-15T18:00:00").

Definition ej_td_titulo (i : Z) : tarea_dict :=
  mkCampos (Some i) (Some "   ") (Some "") (Some "media")
           (Some "pendiente") (Some "2025-05-15T18:00:00").

Definition ej_td_fecha (i : Z) : tarea_dict :=
  mkCampos (Some i) (Some "Tarea") (Some "") (Some "media")
           (Some "pendiente") (Some "pronto").

(** Two snapshot files of five records each, the second record
    malformed: by its title in the first file, by its date in the
    second. *)
Definition ej_archivo_titulo : archivo :=
  Contenido (mkDatos (Some 6)
               (Some [ej_td 1; ej_td_titulo 2; ej_td 3; ej_td 4; ej_td 5])).

Definition ej_archivo_fecha : archivo :=
  Contenido (mkDatos (Some 6)
               (Some [ej_td 1; ej_td_fecha 2; ej_td 3; ej_td 4; ej_td 5])).

(** The sample registry after a restart at [T+4h]: its three records
    are past due and were dropped, the mapping is empty and the counter
    is still 4. *)
Definition ej_vaciado : Mundo :=
  TareaService_init (fun _ => ej_T_mas 4) (tareas_json ej_tres)
                    (traza ej_tres).

(** Six calls made at [T+4h], three of them with an input that fails. *)
Definition ej_entradas : list entrada :=
  [mkEntrada (ej_T_mas 4) "Uno" "" "baja" (ej_T_mas 5);
   mkEntrada (ej_T_mas 4) "   " "" "baja" (ej_T_mas 5);
   mkEntrada (ej_T_mas 4) "Dos" "" "urgent" (ej_T_mas 5);
   mkEntrada (ej_T_mas 4) "Dos" "" "Alta" (ej_T_mas 5);
   mkEntrada (ej_T_mas 4) "Tres" "" "media" (ej_T_mas 3);
   mkEntrada (ej_T_mas 4) "Tres" "" "media" (ej_T_mas 6)].

(** A registry holding [MAX_TAREAS] records, with ids 1, 2, ... *)
Definition tarea_n (k : Z) : Tarea :=
  mkTarea k "Tarea" "" MEDIA PENDIENTE (ej_T_mas 1).

Fixpoint registro_desde (k : Z) (n : nat) : dict Tarea :=
  match n with
  | O => []
  | S n' => (k, tarea_n k) :: registro_desde (k + 1) n'
  end.

Definition mundo_lleno : Mundo :=
  mkMundo
    (mkTareaService (registro_desde 1 (Z.to_nat MAX_TAREAS))
                    (MAX_TAREAS + 1))
    NoExiste [].

(** The sample registry after a restart at [T+1h30]: the record due at
    [T+1h] was dropped, the counter was kept. *)
Definition ej_reiniciado : Mundo :=
  TareaService_init (fun _ => ej_tarde) (tareas_json ej_tres)
                    (traza ej_tres).

(** A snapshot file in which two records carry the id 1. *)
Definition ej_td_otra (i : Z) : tarea_dict :=
  mkCampos (Some i) (Some "Otra") (Some "segunda") (Some "alta")
           (Some "completada") (Some "2025-05-16T09:30:00").

Definition ej_archivo_repetido : archivo :=
  Contenido (mkDatos (Some 3)
               (Some [ej_td 1; ej_td_titulo 7; ej_td 2; ej_td_otra 1])).

(* ===================================================================== *)
(** ** Facts about strings *)
(* ===================================================================== *)

Lemma lstrip_empty_iff (s : string) :
  PyStr.lstrip s = EmptyString <-> PyStr.all_space s = true.
Proof.
  induction s as [|c s IH]; simpl.
  - tauto.
  - destruct (PyStr.isspace c); simpl.
    + exact IH.
    + split; discriminate.
Qed.

Lemma lstrip_head (s : string) c r :
  PyStr.lstrip s = String c r -> PyStr.isspace c = false.
Proof.
  induction s as [|a s IH]; simpl.
  - discriminate.
  - destruct (PyStr.isspace a) eqn:E.
    + exact IH.
    + intros H. inversion H. subst. exact E.
Qed.

Lemma rstrip_empty_head c s :
  PyStr.rstrip (String c s) = EmptyString -> PyStr.isspace c = true.
Proof.
  simpl. destruct (PyStr.rstrip s).
  - destruct (PyStr.isspace c); [reflexivity | discriminate].
  - discriminate.
Qed.

(** [not v.strip()] holds exactly for the texts made of whitespace only. *)
Lemma strip_empty_iff (s : string) :
  PyStr.strip s = EmptyString <-> PyStr.all_space s = true.
Proof.
  unfold PyStr.strip. rewrite <- lstrip_empty_iff.
  destruct (PyStr.lstrip s) as [|c r] eqn:E.
  - simpl. tauto.
  - split.
    + intros H. apply rstrip_empty_head in H.
      apply lstrip_head in E. congruence.
    + discriminate.
Qed.

Lemma PrioridadEnum_of_value (p : PrioridadEnum) :
  PrioridadEnum_of (PrioridadEnum_value p) = Some p.
Proof. destruct p; reflexivity. Qed.

Lemma EstadoEnum_of_value (e : EstadoEnum) :
  EstadoEnum_of (EstadoEnum_value e) = Some e.
Proof. destruct e; reflexivity. Qed.

Lemma PrioridadEnum_of_Some v p :
  PrioridadEnum_of v = Some p -> v = PrioridadEnum_value p.
Proof.
  unfold PrioridadEnum_of.
  destruct (String.eqb_spec v "alta");
    [intros H; inversion H; subst; reflexivity|].
  destruct (String.eqb_spec v "media");
    [intros H; inversion H; subst; reflexivity|].
  destruct (String.eqb_spec v "baja");
    [intros H; inversion H; subst; reflexivity|].
  discriminate.
Qed.

Lemma EstadoEnum_of_Some v e :
  EstadoEnum_of v = Some e -> v = EstadoEnum_value e.
Proof.
  unfold EstadoEnum_of.
  destruct (String.eqb_spec v "pendiente");
    [intros H; inversion H; subst; reflexivity|].
  destruct (String.eqb_spec v "en progreso");
    [intros H; inversion H; subst; reflexivity|].
  destruct (String.eqb_spec v "completada");
    [intros H; inversion H; subst; reflexivity|].
  discriminate.
Qed.

Lemma PrioridadEnum_of_None v :
  PrioridadEnum_of v = None <-> v <> "alta" /\ v <> "media" /\ v <> "baja".
Proof.
  unfold PrioridadEnum_of.
  destruct (String.eqb_spec v "alta");
    [split; [discriminate | tauto]|].
  destruct (String.eqb_spec v "media");
    [split; [discriminate | tauto]|].
  destruct (String.eqb_spec v "baja");
    [split; [discriminate | tauto]|].
  tauto.
Qed.

Lemma EstadoEnum_of_None v :
  EstadoEnum_of v = None
  <-> v <> "pendiente" /\ v <> "en progreso" /\ v <> "completada".
Proof.
  unfold EstadoEnum_of.
  destruct (String.eqb_spec v "pendiente");
    [split; [discriminate | tauto]|].
  destruct (String.eqb_spec v "en progreso");
    [split; [discriminate | tauto]|].
  destruct (String.eqb_spec v "completada");
    [split; [discriminate | tauto]|].
  tauto.
Qed.

(* ===================================================================== *)
(** ** Facts about the order of datetimes *)
(* ===================================================================== *)

Lemma lex_compare_refl (a : list Z) : lex_compare a a = Eq.
Proof.
  induction a as [|x a IH]; simpl; [reflexivity|].
  rewrite Z.compare_refl. exact IH.
Qed.

Lemma lex_compare_antisym (a b : list Z) :
  lex_compare b a = CompOpp (lex_compare a b).
Proof.
  revert b. induction a as [|x a IH]; intros [|y b]; simpl; try reflexivity.
  rewrite (Z.compare_antisym x y).
  destruct (x ?= y); simpl; auto.
Qed.

Lemma lex_compare_eq (a b : list Z) : lex_compare a b = Eq -> a = b.
Proof.
  revert b. induction a as [|x a IH]; intros [|y b]; simpl;
    try discriminate; try reflexivity.
  destruct (Z.compare_spec x y) as [Exy|Exy|Exy]; try discriminate.
  intros E. subst. f_equal. auto.
Qed.

(** Transitivity in its three useful forms at once: the composite of two
    steps, neither of which goes down, does not go down, and it goes up
    as soon as one of them does. *)
Lemma lex_compare_trans (a b c : list Z) :
  lex_compare a b <> Gt -> lex_compare b c <> Gt ->
  lex_compare a c <> Gt
  /\ (lex_compare a b = Lt -> lex_compare a c = Lt)
  /\ (lex_compare b c = Lt -> lex_compare a c = Lt).
Proof.
  revert b c.
  induction a as [|x a IH]; intros [|y b] [|z c]; simpl;
    try (intuition congruence).
  destruct (Z.compare_spec x y), (Z.compare_spec y z),
    (Z.compare_spec x z); try lia; try (intuition congruence).
  apply IH.
Qed.

Lemma datetime_ltb_irrefl (a : datetime) : datetime_ltb a a = false.
Proof.
  unfold datetime_ltb, datetime_compare. now rewrite lex_compare_refl.
Qed.

Lemma datetime_ltb_asym (a b : datetime) :
  datetime_ltb a b = true -> datetime_ltb b a = false.
Proof.
  unfold datetime_ltb, datetime_compare.
  rewrite (lex_compare_antisym (datetime_tuple a) (datetime_tuple b)).
  destruct (lex_compare (datetime_tuple a) (datetime_tuple b));
    simpl; congruence.
Qed.

(** [not (b < a)] is [a <= b]. *)
Lemma datetime_ltb_leb (a b : datetime) :
  datetime_ltb b a = false <-> datetime_leb a b = true.
Proof.
  unfold datetime_ltb, datetime_leb, datetime_compare.
  rewrite (lex_compare_antisym (datetime_tuple a) (datetime_tuple b)).
  destruct (lex_compare (datetime_tuple a) (datetime_tuple b));
    simpl; split; congruence.
Qed.

Lemma datetime_leb_trans (a b c : datetime) :
  datetime_leb a b = true -> datetime_leb b c = true ->
  datetime_leb a c = true.
Proof.
  unfold datetime_leb, datetime_compare. intros H1 H2.
  destruct (lex_compare_trans (datetime_tuple a) (datetime_tuple b)
              (datetime_tuple c)) as [H _].
  - destruct (lex_compare (datetime_tuple a) (datetime_tuple b));
      congruence.
  - destruct (lex_compare (datetime_tuple b) (datetime_tuple c));
      congruence.
  - destruct (lex_compare (datetime_tuple a) (datetime_tuple c));
      congruence.
Qed.

Lemma datetime_ltb_leb_trans (a b c : datetime) :
  datetime_ltb a b = true -> datetime_leb b c = true ->
  datetime_ltb a c = true.
Proof.
  unfold datetime_ltb, datetime_leb, datetime_compare. intros H1 H2.
  destruct (lex_compare_trans (datetime_tuple a) (datetime_tuple b)
              (datetime_tuple c)) as (_ & H & _).
  - destruct (lex_compare (datetime_tuple a) (datetime_tuple b));
      congruence.
  - destruct (lex_compare (datetime_tuple b) (datetime_tuple c));
      congruence.
  - rewrite H; [reflexivity|].
    destruct (lex_compare (datetime_tuple a) (datetime_tuple b));
      congruence.
Qed.

(** The comparison separates different datetimes. *)
Lemma datetime_compare_eq (a b : datetime) :
  datetime_compare a b = Eq -> a = b.
Proof.
  unfold datetime_compare. intros H. apply lex_compare_eq in H.
  destruct a, b. unfold datetime_tuple in H. simpl in H.
  inversion H. reflexivity.
Qed.

(* ===================================================================== *)
(** ** The textual form of a datetime reads back as the datetime *)
(* ===================================================================== *)

Lemma digit_of_digit_char (d : Z) :
  0 <= d <= 9 -> digit_of (digit_char d) = Some d.
Proof.
  intros H.
  assert (d = 0 \/ d = 1 \/ d = 2 \/ d = 3 \/ d = 4 \/ d = 5 \/ d = 6
          \/ d = 7 \/ d = 8 \/ d = 9) as C by lia.
  repeat (destruct C as [C|C]; [subst; reflexivity|]).
  subst. reflexivity.
Qed.

Lemma length_zfill (w : nat) (n : Z) : String.length (zfill w n) = w.
Proof. induction w; simpl; congruence. Qed.

Lemma read_int_zfill (w : nat) :
  forall (n acc : Z) (rest : string),
    read_int w acc (zfill w n ++ rest)
    = Some (acc * 10 ^ Z.of_nat w + n mod 10 ^ Z.of_nat w, rest).
Proof.
  induction w as [|w IH]; intros n acc rest.
  - simpl. rewrite Z.mod_1_r. f_equal. f_equal. lia.
  - cbn [zfill read_int String.append].
    rewrite digit_of_digit_char
      by (pose proof (Z.mod_pos_bound (n / 10 ^ Z.of_nat w) 10); lia).
    cbn [obind]. rewrite IH. f_equal. f_equal.
    rewrite Nat2Z.inj_succ, Z.pow_succ_r by lia.
    rewrite (Z.mul_comm 10 (10 ^ Z.of_nat w)).
    rewrite (Z.rem_mul_r n (10 ^ Z.of_nat w) 10) by lia.
    ring.
Qed.

(** Reading back a number printed on [w] digits. *)
Lemma read_int_zfill_small (w : nat) (n : Z) (rest : string) :
  0 <= n < 10 ^ Z.of_nat w ->
  read_int w 0 (zfill w n ++ rest) = Some (n, rest).
Proof.
  intros H. rewrite read_int_zfill. rewrite Z.mod_small by exact H.
  reflexivity.
Qed.

Lemma entre_spec (lo x hi : Z) : entre lo x hi = true <-> lo <= x <= hi.
Proof. unfold entre. rewrite andb_true_iff, !Z.leb_le. tauto. Qed.

Lemma days_in_month_le (y m : Z) : days_in_month y m <= 31.
Proof.
  unfold days_in_month.
  destruct (m =? 2); [destruct (is_leap y); lia|].
  destruct ((m =? 4) || (m =? 6) || (m =? 9) || (m =? 11)); lia.
Qed.

Lemma append_nil_r (s : string) : (s ++ "")%string = s.
Proof. induction s; simpl; congruence. Qed.

Lemma read_char_here (c : ascii) (rest : string) :
  read_char c (String c EmptyString ++ rest) = Some rest.
Proof. simpl. now rewrite Ascii.eqb_refl. Qed.

Lemma zfill_append_nonempty (w : nat) (n : Z) (rest : string) :
  (zfill (S w) n ++ rest)%string <> EmptyString.
Proof. simpl. discriminate. Qed.

Ltac leer :=
  first [ rewrite read_int_zfill_small by (simpl; lia)
        | rewrite read_char_here ];
  cbn [obind].

(** The time of day printed by [isoformat] reads back. *)
Lemma parse_time_format (h mi s us : Z) :
  0 <= h <= 23 -> 0 <= mi <= 59 -> 0 <= s <= 59 -> 0 <= us <= 999999 ->
  parse_time
    (zfill 2 h ++ ":" ++ zfill 2 mi ++ ":" ++ zfill 2 s
     ++ (if (us =? 0)%Z then "" else "." ++ zfill 6 us))%string
  = Some (h, mi, s, us).
Proof.
  intros Hh Hmi Hs Hus. unfold parse_time.
  leer.
  destruct (":" ++ zfill 2 mi ++ ":" ++ zfill 2 s
     ++ (if (us =? 0)%Z then "" else "." ++ zfill 6 us))%string eqn:E1;
    [discriminate E1 | rewrite <- E1; clear E1].
  leer. leer.
  destruct (":" ++ zfill 2 s
     ++ (if (us =? 0)%Z then "" else "." ++ zfill 6 us))%string eqn:E2;
    [discriminate E2 | rewrite <- E2; clear E2].
  leer. leer.
  destruct (Z.eqb_spec us 0) as [E|E].
  - subst us. reflexivity.
  - cbn [String.append]. cbn [read_char]. rewrite Ascii.eqb_refl.
    cbn [obind]. unfold parse_fraction. rewrite length_zfill.
    rewrite <- (append_nil_r (zfill 6 us)).
    leer. reflexivity.
Qed.

(** [datetime.fromisoformat(d.isoformat()) == d] *)
Lemma fromisoformat_isoformat (d : datetime) :
  datetime_ok d = true -> fromisoformat (isoformat d) = Some d.
Proof.
  intros Hok. pose proof Hok as Hok'.
  unfold datetime_ok in Hok'.
  rewrite !andb_true_iff, !entre_spec in Hok'.
  destruct Hok' as ((((((Hy & Hm) & Hd) & Hh) & Hmi) & Hs) & Hus).
  pose proof (days_in_month_le (year d) (month d)) as Hdm.
  unfold fromisoformat, isoformat.
  leer. leer. leer. leer. leer.
  change ("T" ++ ?x)%string with (String "T" x).
  pose proof (parse_time_format (hour d) (minute d) (second d)
                (microsecond d) Hh Hmi Hs Hus) as Ht.
  cbv iota. rewrite Ht. cbn [obind]. destruct d; simpl in *.
  rewrite Hok. reflexivity.
Qed.

(* ===================================================================== *)
(** ** Facts about [sorted] *)
(* ===================================================================== *)

Section SortedFacts.

Variables (A K : Type).
Variable key : A -> K.
Variable lt : K -> K -> bool.

Lemma insert_sorted_perm (x : A) (l : list A) :
  Permutation (x :: l) (insert_sorted key lt x l).
Proof.
  induction l as [|y l IH]; simpl.
  - apply Permutation_refl.
  - destruct (lt (key y) (key x)).
    + eapply perm_trans; [apply perm_swap|]. now apply perm_skip.
    + apply Permutation_refl.
Qed.

Lemma stable_sort_perm (l : list A) :
  Permutation l (stable_sort key lt l).
Proof.
  induction l as [|x l IH]; simpl.
  - apply perm_nil.
  - eapply perm_trans; [|apply insert_sorted_perm]. now apply perm_skip.
Qed.

(** [sorted] returns the elements it was given, each as many times. *)
Lemma sorted_perm (reverse : bool) (l : list A) :
  Permutation l (sorted key lt reverse l).
Proof.
  unfold sorted. destruct reverse.
  - eapply perm_trans; [apply Permutation_rev|].
    eapply perm_trans; [apply stable_sort_perm|].
    apply Permutation_rev.
  - apply stable_sort_perm.
Qed.

Lemma insert_sorted_Forall (P : A -> Prop) (x : A) (l : list A) :
  P x -> Forall P l -> Forall P (insert_sorted key lt x l).
Proof.
  intros Hx Hl. induction Hl as [|y l Hy Hl IH]; simpl.
  - constructor; [exact Hx | constructor].
  - destruct (lt (key y) (key x)); repeat constructor; auto.
Qed.

(** Stability: among elements none of which is smaller than another,
    such as those with one and the same key, the order is kept. *)
Lemma insert_sorted_filter (p : A -> bool) (x : A) (l : list A) :
  (forall y, p x = true -> p y = true -> lt (key y) (key x) = false) ->
  filter p (insert_sorted key lt x l) = filter p (x :: l).
Proof.
  intros Hp. induction l as [|y l IH]; [reflexivity|].
  cbn [insert_sorted]. destruct (lt (key y) (key x)) eqn:E; [|reflexivity].
  cbn [filter] in *. rewrite IH.
  destruct (p x) eqn:Ex, (p y) eqn:Ey; try reflexivity.
  rewrite (Hp y eq_refl Ey) in E. discriminate.
Qed.

Lemma filter_rev (p : A -> bool) (l : list A) :
  filter p (rev l) = rev (filter p l).
Proof.
  induction l as [|x l IH]; [reflexivity|].
  simpl. rewrite filter_app, IH. simpl.
  destruct (p x); simpl; [reflexivity | now rewrite app_nil_r].
Qed.

Lemma sorted_stable (p : A -> bool) (reverse : bool) (l : list A) :
  (forall x y, p x = true -> p y = true -> lt (key y) (key x) = false) ->
  filter p (sorted key lt reverse l) = filter p l.
Proof.
  intros Hp.
  assert (Hs : forall l', filter p (stable_sort key lt l') = filter p l').
  { induction l' as [|x l' IH]; [reflexivity|].
    cbn [stable_sort fold_right]. fold (stable_sort key lt l').
    rewrite insert_sorted_filter by (intros y; apply Hp).
    cbn [filter]. now rewrite IH. }
  unfold sorted. destruct reverse; [|apply Hs].
  now rewrite filter_rev, Hs, filter_rev, rev_involutive.
Qed.

Hypothesis lt_asym : forall a b : K, lt a b = true -> lt b a = false.
Hypothesis le_trans :
  forall a b c : K, lt b a = false -> lt c b = false -> lt c a = false.

Lemma insert_sorted_sorted (x : A) (l : list A) :
  StronglySorted (no_mayor key lt) l ->
  StronglySorted (no_mayor key lt) (insert_sorted key lt x l).
Proof.
  intros Hl. induction Hl as [|y l Hl IH Hy]; simpl.
  - repeat constructor.
  - destruct (lt (key y) (key x)) eqn:E.
    + constructor; [exact IH|].
      apply insert_sorted_Forall; [|exact Hy].
      unfold no_mayor. now apply lt_asym.
    + constructor; [now constructor|].
      constructor; [exact E|].
      eapply Forall_impl; [|exact Hy].
      intros z Hz. unfold no_mayor in *. now apply (le_trans _ (key y)).
Qed.

Lemma stable_sort_sorted (l : list A) :
  StronglySorted (no_mayor key lt) (stable_sort key lt l).
Proof.
  induction l as [|x l IH]; simpl.
  - constructor.
  - now apply insert_sorted_sorted.
Qed.

Lemma StronglySorted_app (R : A -> A -> Prop) (l1 l2 : list A) :
  StronglySorted R l1 -> StronglySorted R l2 ->
  (forall a b, In a l1 -> In b l2 -> R a b) ->
  StronglySorted R (l1 ++ l2).
Proof.
  intros H1 H2 H. induction H1 as [|x l1 H1 IH Hx]; simpl.
  - exact H2.
  - constructor.
    + apply IH. intros a b Ha Hb. apply H; [now right | exact Hb].
    + apply Forall_app. split; [exact Hx|].
      apply Forall_forall. intros b Hb. apply H; [now left | exact Hb].
Qed.

Lemma StronglySorted_rev (R : A -> A -> Prop) (l : list A) :
  StronglySorted R l -> StronglySorted (fun a b => R b a) (rev l).
Proof.
  intros H. induction H as [|x l H IH Hx]; simpl.
  - constructor.
  - apply StronglySorted_app.
    + exact IH.
    + repeat constructor.
    + intros a b Ha [Hb|[]]. subst b.
      apply in_rev in Ha. rewrite Forall_forall in Hx. now apply Hx.
Qed.

(** The result of [sorted] is in order: keys never decrease, or never
    increase when [reverse] is set. *)
Lemma sorted_sorted (reverse : bool) (l : list A) :
  StronglySorted
    (fun a b => if reverse then no_mayor key lt b a else no_mayor key lt a b)
    (sorted key lt reverse l).
Proof.
  unfold sorted. destruct reverse.
  - apply StronglySorted_rev. apply stable_sort_sorted.
  - apply stable_sort_sorted.
Qed.

End SortedFacts.

Lemma StronglySorted_impl {A : Type} (R S : A -> A -> Prop) (l : list A) :
  (forall a b, R a b -> S a b) -> StronglySorted R l -> StronglySorted S l.
Proof.
  intros H Hl. induction Hl as [|x l Hl IH Hx]; constructor.
  - exact IH.
  - eapply Forall_impl; [|exact Hx]. intros b. apply H.
Qed.

Lemma Zltb_asym (a b : Z) : (a <? b) = true -> (b <? a) = false.
Proof. rewrite Z.ltb_lt, Z.ltb_ge. lia. Qed.

Lemma Zltb_le_trans (a b c : Z) :
  (b <? a) = false -> (c <? b) = false -> (c <? a) = false.
Proof. rewrite !Z.ltb_ge. lia. Qed.

Lemma datetime_ltb_le_trans (a b c : datetime) :
  datetime_ltb b a = false -> datetime_ltb c b = false ->
  datetime_ltb c a = false.
Proof.
  rewrite !datetime_ltb_leb. apply datetime_leb_trans.
Qed.

(* ===================================================================== *)
(** ** Facts about the dictionary *)
(* ===================================================================== *)

Lemma dict_get_set_eq {V : Type} (k : Z) (v : V) (d : dict V) :
  dict_get k (dict_set k v d) = Some v.
Proof.
  induction d as [|[k' v'] d IH]; simpl.
  - now rewrite Z.eqb_refl.
  - destruct (Z.eqb_spec k k') as [E|E]; simpl.
    + subst. now rewrite Z.eqb_refl.
    + destruct (Z.eqb_spec k k'); [contradiction | exact IH].
Qed.

Lemma dict_get_set_ne {V : Type} (k k' : Z) (v : V) (d : dict V) :
  k' <> k -> dict_get k' (dict_set k v d) = dict_get k' d.
Proof.
  intros Hne. induction d as [|[k0 v0] d IH]; simpl.
  - destruct (Z.eqb_spec k' k); [contradiction | reflexivity].
  - destruct (Z.eqb_spec k k0) as [E|E]; simpl.
    + subst k0. destruct (Z.eqb_spec k' k); [contradiction | reflexivity].
    + destruct (k' =? k0); [reflexivity | exact IH].
Qed.

Lemma dict_get_None_iff {V : Type} (k : Z) (d : dict V) :
  dict_get k d = None <-> ~ In k (dict_keys d).
Proof.
  induction d as [|[k' v'] d IH]; simpl.
  - tauto.
  - destruct (Z.eqb_spec k k') as [E|E].
    + split; [discriminate | intros H; exfalso; apply H; now left].
    + rewrite IH. split; [intros H [H'|H']; congruence | tauto].
Qed.

Lemma dict_keys_set_present {V : Type} (k : Z) (v : V) (d : dict V) :
  In k (dict_keys d) -> dict_keys (dict_set k v d) = dict_keys d.
Proof.
  induction d as [|[k' v'] d IH]; simpl.
  - tauto.
  - destruct (Z.eqb_spec k k') as [E|E]; simpl.
    + reflexivity.
    + intros [H|H]; [congruence | now rewrite IH].
Qed.

Lemma dict_set_fresh {V : Type} (k : Z) (v : V) (d : dict V) :
  ~ In k (dict_keys d) -> dict_set k v d = d ++ [(k, v)].
Proof.
  induction d as [|[k' v'] d IH]; simpl.
  - reflexivity.
  - intros H. destruct (Z.eqb_spec k k') as [E|E].
    + exfalso. apply H. now left.
    + rewrite IH; [reflexivity | tauto].
Qed.

Lemma dict_get_Some_In {V : Type} (k : Z) (v : V) (d : dict V) :
  dict_get k d = Some v -> In k (dict_keys d).
Proof.
  intros H. destruct (in_dec Z.eq_dec k (dict_keys d)) as [Hin|Hin].
  - exact Hin.
  - apply dict_get_None_iff in Hin. congruence.
Qed.

Lemma dict_keys_set_NoDup {V : Type} (k : Z) (v : V) (d : dict V) :
  NoDup (dict_keys d) -> NoDup (dict_keys (dict_set k v d)).
Proof.
  intros H. destruct (in_dec Z.eq_dec k (dict_keys d)) as [Hin|Hin].
  - now rewrite dict_keys_set_present.
  - rewrite dict_set_fresh by exact Hin. unfold dict_keys.
    rewrite map_app. simpl.
    apply NoDup_rev in H. apply (NoDup_cons k) in H.
    + apply NoDup_rev in H. simpl in H. now rewrite rev_involutive in H.
    + now rewrite <- in_rev.
Qed.

Lemma dict_set_Forall {V : Type} (P : Z * V -> Prop) (k : Z) (v : V)
  (d : dict V) :
  Forall P d -> P (k, v) -> Forall P (dict_set k v d).
Proof.
  intros Hd Hv. induction Hd as [|[k' v'] d Hkv Hd IH]; simpl.
  - constructor; [exact Hv | constructor].
  - destruct (Z.eqb_spec k k') as [E|E]; constructor; auto.
    now subst k'.
Qed.

Lemma dict_get_In {V : Type} (k : Z) (v : V) (d : dict V) :
  dict_get k d = Some v -> In (k, v) d.
Proof.
  induction d as [|[k' v'] d IH]; simpl; [discriminate|].
  destruct (Z.eqb_spec k k') as [E|E].
  - intros H. inversion H. subst. now left.
  - intros H. right. auto.
Qed.

(** A dictionary that stores each value under the key computed from it
    is determined by its values. *)
Lemma dict_of_values {V : Type} (f : V -> Z) (d : dict V) :
  Forall (fun kv => fst kv = f (snd kv)) d ->
  d = map (fun v => (f v, v)) (dict_values d).
Proof.
  intros H. induction H as [|[k v] d Hkv H IH]; simpl.
  - reflexivity.
  - simpl in Hkv. subst k. f_equal. exact IH.
Qed.

(* ===================================================================== *)
(** ** Record validation and failed creation (C3) *)
(* ===================================================================== *)

(** Which calls of the constructor fail, all fields being given. *)
Lemma Tarea_init_Err_iff (ahora : datetime) (i : Z) (t d p e : string)
  (f : datetime) :
  (exists err,
      Tarea_init ahora
        (mkCampos (Some i) (Some t) (Some d) (Some p) (Some e) (Some f))
      = Err err)
  <-> (PyStr.strip t = EmptyString
       \/ 70 < PyStr.len t
       \/ (p <> "alta" /\ p <> "media" /\ p <> "baja")
       \/ (e <> "pendiente" /\ e <> "en progreso" /\ e <> "completada")
       \/ datetime_ltb f ahora = true).
Proof.
  rewrite <- PrioridadEnum_of_None, <- EstadoEnum_of_None.
  unfold Tarea_init, validar_titulo, validar_prioridad, validar_estado,
    validar_fecha, titulo_no_vacio, fecha_valida, requerido.
  cbn [c_id c_titulo c_descripcion c_prioridad c_estado
       c_fecha_vencimiento].
  destruct (Z.ltb_spec 70 (PyStr.len t)) as [Hl|Hl];
  destruct (PyStr.strip t) as [|c0 s0] eqn:Es;
  destruct (PrioridadEnum_of p) as [p'|] eqn:Ep;
  destruct (EstadoEnum_of e) as [e'|] eqn:Ee;
  destruct (datetime_ltb f ahora) eqn:Ef;
  (split;
   [ intros [err H]; try discriminate H; auto 6
   | intros H; try (eexists; reflexivity);
     exfalso; intuition (try discriminate; try lia) ]).
Qed.

(** What a successful call of the constructor returns. *)
Lemma Tarea_init_Ok (ahora : datetime) (i : Z) (t d : string)
  (p : PrioridadEnum) (e : EstadoEnum) (f : datetime) :
  PyStr.strip t <> EmptyString -> PyStr.len t <= 70 ->
  datetime_ltb f ahora = false ->
  Tarea_init ahora
    (mkCampos (Some i) (Some t) (Some d) (Some (PrioridadEnum_value p))
              (Some (EstadoEnum_value e)) (Some f))
  = Ok (mkTarea i t d p e f).
Proof.
  intros Hs Hl Hf.
  unfold Tarea_init, validar_titulo, validar_prioridad, validar_estado,
    validar_fecha, titulo_no_vacio, fecha_valida, requerido.
  cbn [c_id c_titulo c_descripcion c_prioridad c_estado
       c_fecha_vencimiento].
  rewrite PrioridadEnum_of_value, EstadoEnum_of_value, Hf.
  destruct (Z.ltb_spec 70 (PyStr.len t)) as [Hl'|Hl']; [lia|].
  destruct (PyStr.strip t); [congruence | reflexivity].
Qed.

(** A record built by the constructor carries the arguments and
    satisfies what the validators check. *)
Lemma Tarea_init_Ok_inv (ahora : datetime) (kw : kwargs) (r : Tarea) :
  Tarea_init ahora kw = Ok r ->
  c_id kw = Some (id r) /\ c_titulo kw = Some (titulo r)
  /\ c_descripcion kw = Some (descripcion r)
  /\ c_prioridad kw = Some (PrioridadEnum_value (prioridad r))
  /\ validar_estado (c_estado kw) = Ok (estado r)
  /\ c_fecha_vencimiento kw = Some (fecha_vencimiento r)
  /\ PyStr.strip (titulo r) <> EmptyString /\ PyStr.len (titulo r) <= 70
  /\ datetime_ltb (fecha_vencimiento r) ahora = false.
Proof.
  destruct kw as [oi ot od op oe of_].
  unfold Tarea_init, validar_titulo, validar_prioridad,
    validar_fecha, titulo_no_vacio, fecha_valida, requerido.
  cbn [c_id c_titulo c_descripcion c_prioridad c_estado
       c_fecha_vencimiento].
  destruct (validar_estado oe) as [e'|] eqn:Ee;
  destruct oi as [i|]; destruct ot as [t|]; destruct od as [d|];
    destruct op as [p|]; destruct of_ as [f|];
    try (destruct (PrioridadEnum_of p) as [p'|] eqn:Ep);
    try (destruct (Z.ltb_spec 70 (PyStr.len t)) as [Hl|Hl]);
    try (destruct (PyStr.strip t) eqn:Es);
    try (destruct (datetime_ltb f ahora) eqn:Ef);
    intros H; try discriminate H;
    inversion H; subst; simpl;
    apply PrioridadEnum_of_Some in Ep; subst;
    repeat split; try congruence; try lia.
Qed.

Lemma n_volcados_app (a b : list evento) :
  n_volcados (a ++ b) = (n_volcados a + n_volcados b)%nat.
Proof.
  induction a as [|e a IH]; simpl; [reflexivity|].
  destruct e; simpl; congruence.
Qed.

Lemma errores_log_app (a b : list evento) :
  errores_log (a ++ b) = errores_log a ++ errores_log b.
Proof.
  induction a as [|e a IH]; simpl; [reflexivity|].
  destruct e; simpl; congruence.
Qed.

(** A call of [agregar_tarea] that raises leaves the service and the
    snapshot file as they were. *)
Lemma agregar_tarea_Err (ahora : datetime) (t d p : string) (f : datetime)
  (w w' : Mundo) (ex : excepcion) :
  agregar_tarea ahora t d p f w = (Err ex, w') ->
  servicio w' = servicio w /\ tareas_json w' = tareas_json w
  /\ n_volcados (traza w') = n_volcados (traza w).
Proof.
  unfold agregar_tarea, Timer.
  destruct (MAX_TAREAS <=? dict_len (tareas (servicio w)));
    [|destruct (PrioridadEnum_of (PyStr.lower p));
      [destruct (Tarea_init _ _); [discriminate|]|]];
    intros H; inversion H; subst; simpl;
    rewrite !n_volcados_app; simpl; repeat split; lia.
Qed.

(** C3. The constructor of [Tarea], given all its fields, fails with a
    validation error exactly when the title is empty or blank after
    trimming, the title is longer than 70 characters, the priority is
    none of alta, media, baja, the status is none of pendiente, en
    progreso, completada, or the due date is earlier than the clock at
    construction; in every other case it returns the record with the
    fields given.  A call of [agregar_tarea] that fails leaves the
    mapping, the next-id counter and the snapshot file unchanged. *)
Theorem Tarea_validation_contract :
  forall (ahora : datetime) (i : Z) (t d p e : string) (f : datetime),
    let kw :=
      mkCampos (Some i) (Some t) (Some d) (Some p) (Some e) (Some f) in
    let rechazado :=
      PyStr.strip t = EmptyString
      \/ 70 < PyStr.len t
      \/ (p <> "alta" /\ p <> "media" /\ p <> "baja")
      \/ (e <> "pendiente" /\ e <> "en progreso" /\ e <> "completada")
      \/ datetime_ltb f ahora = true in
    ((exists err, Tarea_init ahora kw = Err err) <-> rechazado)
    /\ ((exists p' e',
            PrioridadEnum_value p' = p /\ EstadoEnum_value e' = e
            /\ Tarea_init ahora kw = Ok (mkTarea i t d p' e' f))
        <-> ~ rechazado)
    /\ (forall (w w' : Mundo) (ex : excepcion),
           agregar_tarea ahora t d p f w = (Err ex, w') ->
           tareas (servicio w') = tareas (servicio w)
           /\ siguiente_id (servicio w') = siguiente_id (servicio w)
           /\ tareas_json w' = tareas_json w).
Proof.
  intros ahora i t d p e f kw rechazado.
  pose proof (Tarea_init_Err_iff ahora i t d p e f) as Hiff.
  fold kw in Hiff. fold rechazado in Hiff.
  split; [exact Hiff|]. split.
  - split.
    + intros (p' & e' & _ & _ & Hok) Hr. apply Hiff in Hr.
      destruct Hr as [err Herr]. congruence.
    + intros Hn. destruct (Tarea_init ahora kw) as [r|err] eqn:E.
      * pose proof (Tarea_init_Ok_inv _ _ _ E) as Hinv.
        unfold kw, validar_estado in Hinv. simpl in Hinv.
        destruct Hinv as (Hi & Ht & Hd & Hp & He & Hf & _).
        destruct (EstadoEnum_of e) as [e'|] eqn:Ee; [|discriminate He].
        apply EstadoEnum_of_Some in Ee.
        exists (prioridad r), (estado r).
        destruct r as [ri rt rd rp re rf]. simpl in *.
        inversion Hi. inversion Ht. inversion Hd. inversion Hp.
        inversion He. inversion Hf. subst. auto.
      * exfalso. apply Hn. apply Hiff. now exists err.
  - intros w w' ex H. apply agregar_tarea_Err in H.
    destruct H as (Hs & Hj & _). rewrite Hs. auto.
Qed.

(* ===================================================================== *)
(** ** The ceiling on the number of records (C4) *)
(* ===================================================================== *)

(** C4. When the registry already holds [MAX_TAREAS] = 50000 records (or
    more), [agregar_tarea] raises the capacity error, inserts nothing,
    does not advance the next-id counter and does not rewrite the
    snapshot. *)
Theorem agregar_tarea_capacity :
  forall (ahora : datetime) (t d p : string) (f : datetime) (w : Mundo),
    MAX_TAREAS <= dict_len (tareas (servicio w)) ->
    MAX_TAREAS = 50000
    /\ fst (agregar_tarea ahora t d p f w) = Err (ValueError LimiteAlcanzado)
    /\ tareas (servicio (snd (agregar_tarea ahora t d p f w)))
       = tareas (servicio w)
    /\ siguiente_id (servicio (snd (agregar_tarea ahora t d p f w)))
       = siguiente_id (servicio w)
    /\ tareas_json (snd (agregar_tarea ahora t d p f w)) = tareas_json w
    /\ traza (snd (agregar_tarea ahora t d p f w))
       = traza w ++ [ErrorLog LimiteAlcanzado; AccionLog "Agregar tarea"].
Proof.
  intros ahora t d p f w H. apply Z.leb_le in H.
  unfold agregar_tarea, Timer. rewrite H. simpl.
  rewrite <- app_assoc. simpl. auto 6.
Qed.

Lemma agregar_tarea_capacity_witness :
  MAX_TAREAS = 50000
  /\ fst (agregar_tarea ej_T "Una mas" "" "alta" (ej_T_mas 1) mundo_lleno)
     = Err (ValueError LimiteAlcanzado)
  /\ tareas (servicio (snd (agregar_tarea ej_T "Una mas" "" "alta"
                              (ej_T_mas 1) mundo_lleno)))
     = tareas (servicio mundo_lleno)
  /\ siguiente_id (servicio (snd (agregar_tarea ej_T "Una mas" "" "alta"
                                    (ej_T_mas 1) mundo_lleno)))
     = siguiente_id (servicio mundo_lleno)
  /\ tareas_json (snd (agregar_tarea ej_T "Una mas" "" "alta" (ej_T_mas 1)
                         mundo_lleno))
     = tareas_json mundo_lleno
  /\ traza (snd (agregar_tarea ej_T "Una mas" "" "alta" (ej_T_mas 1)
                   mundo_lleno))
     = traza mundo_lleno
       ++ [ErrorLog LimiteAlcanzado; AccionLog "Agregar tarea"].
Proof.
  apply (agregar_tarea_capacity ej_T "Una mas" "" "alta" (ej_T_mas 1)
           mundo_lleno).
  apply Z.leb_le. vm_compute. reflexivity.
Defined.

(* ===================================================================== *)
(** ** Status update (C8, C9) *)
(* ===================================================================== *)

(** C8. When the id is in the registry and the status text is
    recognized, [actualizar_estado_tarea] returns the record with the
    new status and its other fields as they were, stores it under the
    same key at the same place, leaves every other record and the
    next-id counter unchanged, and rewrites the snapshot exactly once,
    with the new state. *)
Theorem actualizar_estado_tarea_frame :
  forall (tarea_id : Z) (nuevo_estado : string) (w : Mundo)
         (t : Tarea) (e : EstadoEnum),
    dict_get tarea_id (tareas (servicio w)) = Some t ->
    EstadoEnum_of (PyStr.lower nuevo_estado) = Some e ->
    let r := fst (actualizar_estado_tarea tarea_id nuevo_estado w) in
    let w' := snd (actualizar_estado_tarea tarea_id nuevo_estado w) in
    let t' := mkTarea (id t) (titulo t) (descripcion t) (prioridad t) e
                      (fecha_vencimiento t) in
    r = Ok (Some t')
    /\ dict_get tarea_id (tareas (servicio w')) = Some t'
    /\ (forall k, k <> tarea_id ->
                  dict_get k (tareas (servicio w'))
                  = dict_get k (tareas (servicio w)))
    /\ dict_keys (tareas (servicio w')) = dict_keys (tareas (servicio w))
    /\ siguiente_id (servicio w') = siguiente_id (servicio w)
    /\ n_volcados (traza w') = S (n_volcados (traza w))
    /\ traza w'
       = traza w
         ++ [DatosLog "Estado de tarea actualizado" tarea_id nuevo_estado;
             Volcado (datos_de (servicio w'));
             AccionLog "Actualizar estado de tarea"]
    /\ tareas_json w' = Contenido (datos_de (servicio w')).
Proof.
  intros tarea_id nuevo_estado w t e Hget He.
  unfold actualizar_estado_tarea, Timer.
  rewrite Hget, He. cbn -[dict_get dict_set datos_de n_volcados].
  unfold con_estado.
  split; [reflexivity|].
  split; [apply dict_get_set_eq|].
  split; [intros k Hk; now apply dict_get_set_ne|].
  split; [apply dict_keys_set_present; eapply dict_get_Some_In; eauto|].
  split; [reflexivity|].
  split.
  - rewrite !n_volcados_app. simpl. lia.
  - split; [|reflexivity].
    rewrite <- !app_assoc. reflexivity.
Qed.

Lemma actualizar_estado_tarea_frame_witness :
  let t := mkTarea 2 "Copia" "Copia de seguridad" ALTA PENDIENTE
                   (ej_T_mas 2) in
  let r := fst (actualizar_estado_tarea 2 "Completada" ej_tres) in
  let w' := snd (actualizar_estado_tarea 2 "Completada" ej_tres) in
  let t' := mkTarea (id t) (titulo t) (descripcion t) (prioridad t)
                    COMPLETADA (fecha_vencimiento t) in
  r = Ok (Some t')
  /\ dict_get 2 (tareas (servicio w')) = Some t'
  /\ (forall k, k <> 2 ->
                dict_get k (tareas (servicio w'))
                = dict_get k (tareas (servicio ej_tres)))
  /\ dict_keys (tareas (servicio w')) = dict_keys (tareas (servicio ej_tres))
  /\ siguiente_id (servicio w') = siguiente_id (servicio ej_tres)
  /\ n_volcados (traza w') = S (n_volcados (traza ej_tres))
  /\ traza w'
     = traza ej_tres
       ++ [DatosLog "Estado de tarea actualizado" 2 "Completada";
           Volcado (datos_de (servicio w'));
           AccionLog "Actualizar estado de tarea"]
  /\ tareas_json w' = Contenido (datos_de (servicio w')).
Proof.
  apply (actualizar_estado_tarea_frame 2 "Completada" ej_tres
           (mkTarea 2 "Copia" "Copia de seguridad" ALTA PENDIENTE
                    (ej_T_mas 2)) COMPLETADA);
    vm_compute; reflexivity.
Defined.

(** C9. For an id that is not in the registry, [actualizar_estado_tarea]
    returns [None] without raising, whatever the status text; the
    mapping, the next-id counter and the snapshot file are unchanged
    and no snapshot is written: the only effect is the line of the
    timer in the action log. *)
Theorem actualizar_estado_tarea_absent :
  forall (tarea_id : Z) (nuevo_estado : string) (w : Mundo),
    dict_get tarea_id (tareas (servicio w)) = None ->
    fst (actualizar_estado_tarea tarea_id nuevo_estado w) = Ok None
    /\ servicio (snd (actualizar_estado_tarea tarea_id nuevo_estado w))
       = servicio w
    /\ tareas_json (snd (actualizar_estado_tarea tarea_id nuevo_estado w))
       = tareas_json w
    /\ traza (snd (actualizar_estado_tarea tarea_id nuevo_estado w))
       = traza w ++ [AccionLog "Actualizar estado de tarea"]
    /\ n_volcados
         (traza (snd (actualizar_estado_tarea tarea_id nuevo_estado w)))
       = n_volcados (traza w).
Proof.
  intros tarea_id nuevo_estado w H.
  unfold actualizar_estado_tarea, Timer. rewrite H. simpl.
  rewrite n_volcados_app. simpl. repeat split. lia.
Qed.

Lemma actualizar_estado_tarea_absent_witness :
  fst (actualizar_estado_tarea 99 "no es un estado" ej_tres) = Ok None
  /\ servicio (snd (actualizar_estado_tarea 99 "no es un estado" ej_tres))
     = servicio ej_tres
  /\ tareas_json (snd (actualizar_estado_tarea 99 "no es un estado" ej_tres))
     = tareas_json ej_tres
  /\ traza (snd (actualizar_estado_tarea 99 "no es un estado" ej_tres))
     = traza ej_tres ++ [AccionLog "Actualizar estado de tarea"]
  /\ n_volcados
       (traza (snd (actualizar_estado_tarea 99 "no es un estado" ej_tres)))
     = n_volcados (traza ej_tres).
Proof.
  apply (actualizar_estado_tarea_absent 99 "no es un estado" ej_tres).
  vm_compute. reflexivity.
Defined.

(* ===================================================================== *)
(** ** The two listings (C6, C7) *)
(* ===================================================================== *)

(** The listings only add the line of their timer to the action log. *)
Lemma listar_tareas_por_prioridad_mundo (ascendente : bool) (w : Mundo) :
  snd (listar_tareas_por_prioridad ascendente w)
  = log_action "Listar tareas por prioridad" w.
Proof. reflexivity. Qed.

Lemma listar_tareas_por_vencimiento_mundo (w : Mundo) :
  snd (listar_tareas_por_vencimiento w)
  = log_action "Listar tareas por vencimiento" w.
Proof. reflexivity. Qed.

Lemma listar_tareas_por_prioridad_eq (ascendente : bool) (w : Mundo) :
  fst (listar_tareas_por_prioridad ascendente w)
  = sorted (fun t => prioridad_valor (prioridad t)) Z.ltb
           (negb ascendente) (dict_values (tareas (servicio w))).
Proof. destruct ascendente; reflexivity. Qed.

(** C6. [listar_tareas_por_prioridad] returns every stored record,
    completed ones included, each exactly once, ordered by the rank
    baja = 1, media = 2, alta = 3: ranks never decrease along the result
    when [ascendente] is true and never increase when it is false.
    Records stored with priorities baja, alta, media come back as first,
    third, second when ascending and second, third, first when
    descending. *)
Theorem listar_tareas_por_prioridad_sorted :
  forall (ascendente : bool) (w : Mundo),
    let r := fst (listar_tareas_por_prioridad ascendente w) in
    (prioridad_valor BAJA = 1 /\ prioridad_valor MEDIA = 2
     /\ prioridad_valor ALTA = 3)
    /\ Permutation (dict_values (tareas (servicio w))) r
    /\ StronglySorted (orden_prioridad ascendente) r
    /\ (forall t1 t2 t3 : Tarea,
           dict_values (tareas (servicio w)) = [t1; t2; t3] ->
           prioridad t1 = BAJA -> prioridad t2 = ALTA ->
           prioridad t3 = MEDIA ->
           r = if ascendente then [t1; t3; t2] else [t2; t3; t1]).
Proof.
  intros ascendente w r. subst r.
  rewrite listar_tareas_por_prioridad_eq.
  split; [repeat split|]. split; [apply sorted_perm|]. split.
  - eapply StronglySorted_impl;
      [|apply sorted_sorted; [exact Zltb_asym | exact Zltb_le_trans]].
    intros a b. unfold orden_prioridad, no_mayor.
    destruct ascendente; simpl; rewrite Z.ltb_ge; trivial.
  - intros t1 t2 t3 Hv H1 H2 H3. rewrite Hv.
    destruct ascendente; unfold sorted, stable_sort;
      cbn [negb rev app fold_right insert_sorted];
      rewrite ?H1, ?H2, ?H3; cbn; rewrite ?H1, ?H2, ?H3; reflexivity.
Qed.

(** The sample world holds priorities baja, alta, media in this order. *)
Example listar_tareas_por_prioridad_ejemplo :
  map prioridad (dict_values (tareas (servicio ej_tres)))
  = [BAJA; ALTA; MEDIA]
  /\ map prioridad (fst (listar_tareas_por_prioridad true ej_tres))
     = [BAJA; MEDIA; ALTA]
  /\ map prioridad (fst (listar_tareas_por_prioridad false ej_tres))
     = [ALTA; MEDIA; BAJA]
  /\ map prioridad (fst (listar_tareas_por_prioridad true ej_estados))
     = [BAJA; MEDIA; ALTA].
Proof. vm_compute. repeat split. Qed.

Lemma listar_tareas_por_vencimiento_eq (w : Mundo) :
  fst (listar_tareas_por_vencimiento w)
  = sorted fecha_vencimiento datetime_ltb false
      (filter (fun tarea => negb (EstadoEnum_eqb (estado tarea) COMPLETADA))
              (dict_values (tareas (servicio w)))).
Proof. reflexivity. Qed.

Lemma EstadoEnum_eqb_spec (a b : EstadoEnum) :
  EstadoEnum_eqb a b = true <-> a = b.
Proof. destruct a, b; simpl; split; congruence. Qed.

(** C7. [listar_tareas_por_vencimiento] returns exactly the stored
    records whose status is not completada, each as often as it is
    stored, ordered by due date, soonest first.  Three records stored as
    pendiente, completada, en progreso, the first due before the third,
    come back as the first and the third. *)
Theorem listar_tareas_por_vencimiento_sorted :
  forall (w : Mundo),
    let r := fst (listar_tareas_por_vencimiento w) in
    Permutation
      (filter (fun t => negb (EstadoEnum_eqb (estado t) COMPLETADA))
              (dict_values (tareas (servicio w)))) r
    /\ (forall t : Tarea,
           In t r <-> In t (dict_values (tareas (servicio w)))
                      /\ estado t <> COMPLETADA)
    /\ StronglySorted orden_vencimiento r
    /\ (forall t1 t2 t3 : Tarea,
           dict_values (tareas (servicio w)) = [t1; t2; t3] ->
           estado t1 = PENDIENTE -> estado t2 = COMPLETADA ->
           estado t3 = EN_PROGRESO ->
           datetime_ltb (fecha_vencimiento t1) (fecha_vencimiento t3) = true ->
           r = [t1; t3]).
Proof.
  intros w r. subst r. rewrite listar_tareas_por_vencimiento_eq.
  split; [apply sorted_perm|]. split; [|split].
  - intros t. split.
    + intros H. eapply Permutation_in in H;
        [|apply Permutation_sym; apply sorted_perm].
      apply filter_In in H. destruct H as [Hin Hb].
      split; [exact Hin|]. intros E.
      apply EstadoEnum_eqb_spec in E. rewrite E in Hb. discriminate.
    + intros [Hin Hne]. eapply Permutation_in; [apply sorted_perm|].
      apply filter_In. split; [exact Hin|].
      destruct (EstadoEnum_eqb (estado t) COMPLETADA) eqn:E;
        [|reflexivity].
      apply EstadoEnum_eqb_spec in E. contradiction.
  - eapply StronglySorted_impl;
      [|apply (sorted_sorted _ _ fecha_vencimiento datetime_ltb
                 datetime_ltb_asym datetime_ltb_le_trans false)].
    intros a b. unfold orden_vencimiento, no_mayor.
    apply datetime_ltb_leb.
  - intros t1 t2 t3 Hv H1 H2 H3 Hlt. rewrite Hv. simpl.
    rewrite H1, H2, H3. simpl.
    rewrite (datetime_ltb_asym _ _ Hlt). reflexivity.
Qed.

(** In the sample world the records are due at [T+1h] (pendiente),
    [T+2h] (completada) and [T+3h] (en progreso). *)
Example listar_tareas_por_vencimiento_ejemplo :
  map (fun t => (estado t, fecha_vencimiento t))
      (dict_values (tareas (servicio ej_estados)))
  = [(PENDIENTE, ej_T_mas 1); (COMPLETADA, ej_T_mas 2);
     (EN_PROGRESO, ej_T_mas 3)]
  /\ map fecha_vencimiento (fst (listar_tareas_por_vencimiento ej_estados))
     = [ej_T_mas 1; ej_T_mas 3].
Proof. vm_compute. split; reflexivity. Qed.

(* ===================================================================== *)
(** ** Construction with no snapshot file *)
(* ===================================================================== *)

Lemma TareaService_init_NoExiste (reloj : nat -> datetime)
  (tr : list evento) :
  TareaService_init reloj NoExiste tr
  = mkMundo (mkTareaService [] 1) NoExiste tr.
Proof. reflexivity. Qed.

(* ===================================================================== *)
(** ** Saving and loading (C1, C10, C2) *)
(* ===================================================================== *)

(** Validation of the record written for [t]: only the due date can
    fail, the other fields were validated when [t] was built. *)
Lemma Tarea_init_Tarea_dict (ahora : datetime) (t : Tarea) :
  Tarea_ok t ->
  convertir_fecha (Tarea_dict t)
  = Ok (mkCampos (Some (id t)) (Some (titulo t)) (Some (descripcion t))
                 (Some (PrioridadEnum_value (prioridad t)))
                 (Some (EstadoEnum_value (estado t)))
                 (Some (fecha_vencimiento t)))
  /\ Tarea_init ahora
       (mkCampos (Some (id t)) (Some (titulo t)) (Some (descripcion t))
                 (Some (PrioridadEnum_value (prioridad t)))
                 (Some (EstadoEnum_value (estado t)))
                 (Some (fecha_vencimiento t)))
     = if datetime_ltb (fecha_vencimiento t) ahora
       then Err [fecha_pasada] else Ok t.
Proof.
  intros (Hs & Hl & Hd). split.
  - unfold convertir_fecha, Tarea_dict. cbn [c_fecha_vencimiento].
    rewrite fromisoformat_isoformat by exact Hd. reflexivity.
  - destruct (datetime_ltb (fecha_vencimiento t) ahora) eqn:Ef.
    + unfold Tarea_init, validar_titulo, validar_prioridad, validar_estado,
        validar_fecha, titulo_no_vacio, fecha_valida, requerido.
      cbn [c_id c_titulo c_descripcion c_prioridad c_estado
           c_fecha_vencimiento].
      rewrite PrioridadEnum_of_value, EstadoEnum_of_value, Ef.
      destruct (Z.ltb_spec 70 (PyStr.len (titulo t))) as [Hl'|Hl']; [lia|].
      destruct (PyStr.strip (titulo t)); [congruence | reflexivity].
    + rewrite Tarea_init_Ok by assumption. destruct t. reflexivity.
Qed.

Lemma cargar_una_Tarea_dict (ahora : datetime) (t : Tarea) (w : Mundo) :
  Tarea_ok t ->
  cargar_una ahora (Tarea_dict t) w
  = if datetime_ltb (fecha_vencimiento t) ahora
    then (None, log_error (ErrorAlCargarTarea [fecha_pasada]) w)
    else (None, guardar_en_dict t w).
Proof.
  intros Hok. unfold cargar_una.
  destruct (Tarea_init_Tarea_dict ahora t Hok) as [Hc Hi].
  rewrite Hc, Hi.
  destruct (datetime_ltb (fecha_vencimiento t) ahora); reflexivity.
Qed.

(** The loop of [cargar_tareas] over records written by
    [guardar_tareas]: it runs to the end, stores the records that are
    not yet due and logs one error for each of the others. *)
Lemma cargar_bucle_Tarea_dict (reloj : nat -> datetime) (ts : list Tarea) :
  forall (k : nat) (w : Mundo),
    Forall Tarea_ok ts ->
    cargar_bucle reloj k (map Tarea_dict ts) w
    = (None,
       mkMundo
         (mkTareaService
            (guardar_todas (vigentes reloj k ts) (tareas (servicio w)))
            (siguiente_id (servicio w)))
         (tareas_json w)
         (traza w
          ++ map (fun _ => ErrorLog (ErrorAlCargarTarea [fecha_pasada]))
                 (vencidas reloj k ts))).
Proof.
  induction ts as [|t ts IH]; intros k w Hok.
  - simpl. rewrite app_nil_r. destruct w as [[d n] a tr]. reflexivity.
  - inversion Hok as [|? ? Ht Hts]. subst.
    cbn [map cargar_bucle vigentes vencidas].
    rewrite cargar_una_Tarea_dict by exact Ht.
    destruct (datetime_ltb (fecha_vencimiento t) (reloj k)).
    + rewrite IH by exact Hts. unfold log_error, emitir.
      cbn [servicio tareas_json traza map].
      rewrite <- app_assoc. reflexivity.
    + rewrite IH by exact Hts. unfold guardar_en_dict, con_servicio.
      cbn [servicio tareas_json traza tareas siguiente_id].
      reflexivity.
Qed.

Lemma guardar_todas_fresh (ts : list Tarea) :
  forall d : dict Tarea,
    NoDup (dict_keys d ++ map id ts) ->
    guardar_todas ts d = d ++ map (fun t => (id t, t)) ts.
Proof.
  induction ts as [|t ts IH]; intros d H; simpl.
  - now rewrite app_nil_r.
  - unfold guardar_todas in *. simpl.
    assert (Hf : ~ In (id t) (dict_keys d)).
    { intros Hin. apply NoDup_remove_2 in H. apply H.
      apply in_or_app. now left. }
    rewrite dict_set_fresh by exact Hf.
    rewrite IH.
    + rewrite <- app_assoc. reflexivity.
    + unfold dict_keys in *. rewrite map_app. simpl.
      rewrite <- app_assoc. exact H.
Qed.

Lemma vigentes_In (reloj : nat -> datetime) (ts : list Tarea) :
  forall (k : nat) (t : Tarea), In t (vigentes reloj k ts) -> In t ts.
Proof.
  induction ts as [|a ts IH]; intros k t; simpl; [tauto|].
  destruct (datetime_ltb (fecha_vencimiento a) (reloj k)); simpl.
  - intros H. right. eauto.
  - intros [H|H]; [now left | right; eauto].
Qed.

Lemma vencidas_In (reloj : nat -> datetime) (ts : list Tarea) :
  forall (k : nat) (t : Tarea), In t (vencidas reloj k ts) -> In t ts.
Proof.
  induction ts as [|a ts IH]; intros k t; simpl; [tauto|].
  destruct (datetime_ltb (fecha_vencimiento a) (reloj k)); simpl.
  - intros [H|H]; [now left | right; eauto].
  - intros H. right. eauto.
Qed.

Lemma vigentes_NoDup (reloj : nat -> datetime) (ts : list Tarea) :
  forall k : nat,
    NoDup (map id ts) -> NoDup (map id (vigentes reloj k ts)).
Proof.
  induction ts as [|a ts IH]; intros k H; simpl; [constructor|].
  inversion H as [|? ? Hn Hd]. subst.
  destruct (datetime_ltb (fecha_vencimiento a) (reloj k)); simpl.
  - now apply IH.
  - constructor; [|now apply IH].
    intros Hin. apply Hn. apply in_map_iff in Hin.
    destruct Hin as (t & Ht & Hin). apply in_map_iff.
    exists t. split; [exact Ht|]. eapply vigentes_In; eauto.
Qed.

(** A record whose due date is earlier than every reading of the clock
    is left out, wherever it stands. *)
Lemma vigentes_not_due (reloj : nat -> datetime) (ts : list Tarea) :
  forall (k : nat) (t : Tarea),
    (forall j : nat, datetime_ltb (fecha_vencimiento t) (reloj j) = true) ->
    ~ In t (vigentes reloj k ts).
Proof.
  induction ts as [|a ts IH]; intros k t Ht; simpl; [tauto|].
  destruct (datetime_ltb (fecha_vencimiento a) (reloj k)) eqn:E; simpl.
  - now apply IH.
  - intros [H|H]; [subst; rewrite Ht in E; discriminate|].
    revert H. now apply IH.
Qed.

(** ... and it is one of the records reported as failing. *)
Lemma vencidas_due (reloj : nat -> datetime) (ts : list Tarea) :
  forall (k : nat) (t : Tarea),
    (forall j : nat, datetime_ltb (fecha_vencimiento t) (reloj j) = true) ->
    In t ts -> In t (vencidas reloj k ts).
Proof.
  induction ts as [|a ts IH]; intros k t Ht; simpl; [tauto|].
  destruct (datetime_ltb (fecha_vencimiento a) (reloj k)) eqn:E; simpl.
  - intros [H|H]; [now left | right; now apply IH].
  - intros [H|H]; [subst; rewrite Ht in E; discriminate | now apply IH].
Qed.

Lemma vigentes_all (reloj : nat -> datetime) (ts : list Tarea) :
  forall k : nat,
    (forall (j : nat) (t : Tarea),
        nth_error ts j = Some t ->
        datetime_ltb (fecha_vencimiento t) (reloj (k + j)%nat) = false) ->
    vigentes reloj k ts = ts /\ vencidas reloj k ts = [].
Proof.
  induction ts as [|a ts IH]; intros k H; simpl; [auto|].
  pose proof (H O a eq_refl) as H0. rewrite Nat.add_0_r in H0.
  rewrite H0.
  destruct (IH (S k)) as [IH1 IH2].
  - intros j t Hj. specialize (H (S j) t Hj).
    now rewrite Nat.add_succ_r in H.
  - rewrite IH1, IH2. auto.
Qed.

Lemma registro_ok_values (d : dict Tarea) :
  registro_ok d ->
  NoDup (map id (dict_values d)) /\ Forall Tarea_ok (dict_values d)
  /\ d = map (fun t => (id t, t)) (dict_values d).
Proof.
  intros [Hn Hf].
  assert (Hk : Forall (fun kv : Z * Tarea => fst kv = id (snd kv)) d)
    by (eapply Forall_impl; [|exact Hf]; simpl; tauto).
  assert (Hkeys : map id (dict_values d) = dict_keys d).
  { unfold dict_values, dict_keys. rewrite map_map.
    apply map_ext_in. intros kv Hin. rewrite Forall_forall in Hk.
    symmetry. now apply Hk. }
  split; [now rewrite Hkeys|]. split.
  - unfold dict_values. apply Forall_map.
    eapply Forall_impl; [|exact Hf]. simpl. tauto.
  - now apply dict_of_values.
Qed.

(** The world after saving [w] and constructing a new service: the
    registry holds the records of [w] that are not yet due, in their
    order, and one error was logged for each of the others. *)
Lemma recargar_eq (reloj : nat -> datetime) (tr : list evento) (w : Mundo) :
  registro_ok (tareas (servicio w)) ->
  tareas (servicio (recargar reloj tr w))
  = map (fun t => (id t, t))
        (vigentes reloj 0 (dict_values (tareas (servicio w))))
  /\ siguiente_id (servicio (recargar reloj tr w))
     = (if siguiente_id (servicio w) =? 0 then 1
        else siguiente_id (servicio w))
  /\ traza (recargar reloj tr w)
     = tr ++ map (fun _ => ErrorLog (ErrorAlCargarTarea [fecha_pasada]))
                 (vencidas reloj 0 (dict_values (tareas (servicio w)))).
Proof.
  intros Hok. destruct (registro_ok_values _ Hok) as (Hn & Hf & _).
  unfold recargar, TareaService_init, cargar_tareas, guardar_tareas.
  cbn [tareas_json datos_de d_siguiente_id d_tareas].
  set (ts := dict_values (tareas (servicio w))) in *.
  assert (Hg : guardar_todas (vigentes reloj 0 ts) []
               = map (fun t => (id t, t)) (vigentes reloj 0 ts)).
  { rewrite guardar_todas_fresh; [reflexivity|].
    simpl. now apply vigentes_NoDup. }
  destruct ts as [|t ts'] eqn:Ets.
  - simpl. destruct (siguiente_id (servicio w) =? 0); simpl;
      rewrite app_nil_r; auto.
  - rewrite <- Ets in *. 
    assert (Hm : map Tarea_dict ts <> []) by (rewrite Ets; discriminate).
    destruct (map Tarea_dict ts) as [|td tds] eqn:Em; [congruence|].
    rewrite <- Em. rewrite cargar_bucle_Tarea_dict by exact Hf.
    destruct (siguiente_id (servicio w) =? 0);
      cbn [servicio tareas siguiente_id traza con_servicio];
      rewrite Hg; auto.
Qed.

Lemma NoDup_map_eq {A B : Type} (f : A -> B) (l : list A) (a b : A) :
  NoDup (map f l) -> In a l -> In b l -> f a = f b -> a = b.
Proof.
  induction l as [|x l IH]; simpl; [tauto|].
  intros H Ha Hb E. inversion H as [|? ? Hn Hd]. subst.
  destruct Ha as [Ha|Ha], Hb as [Hb|Hb]; subst; auto.
  - exfalso. apply Hn. rewrite E. now apply in_map.
  - exfalso. apply Hn. rewrite <- E. now apply in_map.
Qed.

Ltac registro_ok_concreto :=
  split;
  [ repeat constructor; simpl; intuition discriminate
  | repeat constructor; simpl;
    first [ discriminate | lia | reflexivity ] ].

(** C1, amended.  For a registry that satisfies the invariant of the
    service (records validated, each under its own id), saving it and
    constructing a new service from the snapshot gives back the same
    mapping (same size, same record under every id, every field equal,
    due dates equal down to the microsecond), and nothing is logged,
    provided that no record is validated at load after its due date. *)
Theorem guardar_cargar_roundtrip :
  forall (reloj : nat -> datetime) (tr : list evento) (w : Mundo),
    registro_ok (tareas (servicio w)) ->
    sin_vencer reloj (tareas (servicio w)) ->
    let w' := recargar reloj tr w in
    tareas (servicio w') = tareas (servicio w)
    /\ dict_len (tareas (servicio w')) = dict_len (tareas (servicio w))
    /\ (forall k : Z,
           dict_get k (tareas (servicio w'))
           = dict_get k (tareas (servicio w)))
    /\ traza w' = tr.
Proof.
  intros reloj tr w Hok Hsv w'.
  destruct (recargar_eq reloj tr w Hok) as (Ht & _ & Htr).
  destruct (vigentes_all reloj (dict_values (tareas (servicio w))) 0)
    as [Hv1 Hv2]; [exact Hsv|].
  rewrite Hv1 in Ht. rewrite Hv2 in Htr. simpl in Htr.
  rewrite app_nil_r in Htr.
  destruct (registro_ok_values _ Hok) as (_ & _ & Hd).
  rewrite <- Hd in Ht. fold w' in Ht, Htr.
  rewrite Ht. auto.
Qed.

Lemma guardar_cargar_roundtrip_witness :
  let w' := recargar (fun _ => ej_T_mas 1) [] ej_estados in
  tareas (servicio w') = tareas (servicio ej_estados)
  /\ dict_len (tareas (servicio w')) = dict_len (tareas (servicio ej_estados))
  /\ (forall k : Z,
         dict_get k (tareas (servicio w'))
         = dict_get k (tareas (servicio ej_estados)))
  /\ traza w' = [].
Proof.
  apply (guardar_cargar_roundtrip (fun _ => ej_T_mas 1) [] ej_estados).
  - registro_ok_concreto.
  - intros [|[|[|j]]] t; simpl; intros H;
      [inversion H; reflexivity .. | destruct j; discriminate H].
Defined.

(** C1 as stated fails: the sample registry of three records, saved at
    [T] and loaded when the clock reads [T+1h30], comes back with two
    records; the one that was due at [T+1h] is gone. *)
Lemma guardar_cargar_roundtrip_counterexample :
  dict_len (tareas (servicio ej_tres)) = 3
  /\ dict_len (tareas (servicio (recargar (fun _ => ej_tarde) [] ej_tres)))
     = 2
  /\ dict_get 1 (tareas (servicio ej_tres))
     = Some (mkTarea 1 "Informe" "Informe trimestral" BAJA PENDIENTE
                     (ej_T_mas 1))
  /\ dict_get 1 (tareas (servicio (recargar (fun _ => ej_tarde) [] ej_tres)))
     = None.
Proof. vm_compute. repeat split. Qed.

(** C10. A record of the registry whose due date is earlier than the
    moment the load starts is absent from the registry constructed from
    the saved snapshot: its validation at load fails on the due date,
    and the failure is written to the error log. *)
Theorem cargar_tareas_drops_past_due :
  forall (reloj : nat -> datetime) (tr : list evento) (w : Mundo)
         (t : Tarea) (inicio : datetime),
    registro_ok (tareas (servicio w)) ->
    In t (dict_values (tareas (servicio w))) ->
    datetime_ltb (fecha_vencimiento t) inicio = true ->
    (forall k : nat, datetime_leb inicio (reloj k) = true) ->
    let w' := recargar reloj tr w in
    dict_get (id t) (tareas (servicio w')) = None
    /\ ~ In t (dict_values (tareas (servicio w')))
    /\ In (ErrorLog (ErrorAlCargarTarea [fecha_pasada])) (traza w').
Proof.
  intros reloj tr w t inicio Hok Hin Hlt Hclock w'.
  assert (Hdue : forall j : nat,
             datetime_ltb (fecha_vencimiento t) (reloj j) = true)
    by (intros j; eapply datetime_ltb_leb_trans; eauto).
  destruct (recargar_eq reloj tr w Hok) as (Ht & _ & Htr).
  destruct (registro_ok_values _ Hok) as (Hn & _ & _).
  fold w' in Ht, Htr.
  set (ts := dict_values (tareas (servicio w))) in *.
  assert (Hv : dict_values (tareas (servicio w')) = vigentes reloj 0 ts).
  { rewrite Ht. unfold dict_values. rewrite map_map. simpl.
    apply map_id. }
  split; [|split].
  - apply dict_get_None_iff. rewrite Ht. unfold dict_keys.
    rewrite map_map. simpl. intros Hk. apply in_map_iff in Hk.
    destruct Hk as (t' & Hid & Hin').
    assert (t' = t).
    { apply (NoDup_map_eq id ts); auto. eapply vigentes_In; eauto. }
    subst t'. revert Hin'. now apply vigentes_not_due.
  - rewrite Hv. now apply vigentes_not_due.
  - rewrite Htr. apply in_or_app. right.
    apply in_map_iff. exists t. split; [reflexivity|].
    now apply vencidas_due.
Qed.

Lemma cargar_tareas_drops_past_due_witness :
  let t := mkTarea 1 "Informe" "Informe trimestral" BAJA PENDIENTE
                   (ej_T_mas 1) in
  let w' := recargar (fun _ => ej_tarde) [] ej_tres in
  dict_get (id t) (tareas (servicio w')) = None
  /\ ~ In t (dict_values (tareas (servicio w')))
  /\ In (ErrorLog (ErrorAlCargarTarea [fecha_pasada])) (traza w').
Proof.
  apply (cargar_tareas_drops_past_due (fun _ => ej_tarde) [] ej_tres
           (mkTarea 1 "Informe" "Informe trimestral" BAJA PENDIENTE
                    (ej_T_mas 1)) ej_tarde).
  - registro_ok_concreto.
  - simpl. auto.
  - reflexivity.
  - intros k. reflexivity.
Defined.

(** When the due-date text of every record parses, the loop of
    [cargar_tareas] reaches the end of the array: each record that
    fails validation is skipped and every record that passes it is
    stored. *)
Lemma cargar_bucle_validas (reloj : nat -> datetime) (l : list tarea_dict) :
  forall (k : nat) (w : Mundo),
    Forall fecha_legible l ->
    fst (cargar_bucle reloj k l w) = None
    /\ tareas (servicio (snd (cargar_bucle reloj k l w)))
       = guardar_todas (validas reloj k l) (tareas (servicio w))
    /\ siguiente_id (servicio (snd (cargar_bucle reloj k l w)))
       = siguiente_id (servicio w)
    /\ (List.length
          (errores_log (traza (snd (cargar_bucle reloj k l w))))
        + List.length (validas reloj k l)
        = List.length (errores_log (traza w)) + List.length l)%nat.
Proof.
  induction l as [|td l IH]; intros k w Hl.
  - simpl. auto.
  - inversion Hl as [|? ? Htd Hl']. subst.
    cbn [cargar_bucle validas]. unfold cargar_una.
    assert (Hc : exists kw, convertir_fecha td = Ok kw).
    { unfold convertir_fecha. unfold fecha_legible in Htd.
      destruct (c_fecha_vencimiento td) as [s|]; [|eauto].
      specialize (Htd s eq_refl).
      destruct (fromisoformat s); [eauto | congruence]. }
    destruct Hc as [kw Hc]. rewrite Hc.
    destruct (Tarea_init (reloj k) kw) as [t|err].
    + destruct (IH (S k) (guardar_en_dict t w) Hl') as (H1 & H2 & H3 & H4).
      rewrite H1, H2, H3. simpl in *. repeat split. lia.
    + destruct (IH (S k) (log_error (ErrorAlCargarTarea err) w) Hl')
        as (H1 & H2 & H3 & H4).
      rewrite H1, H2, H3. simpl in *. rewrite errores_log_app in H4.
      simpl in H4. rewrite length_app in H4. simpl in H4.
      repeat split. lia.
Qed.

(** A record whose due-date text does not parse ends the loop: the
    records after it are not looked at. *)
Lemma cargar_bucle_fecha_ilegible (reloj : nat -> datetime) (k : nat)
  (td : tarea_dict) (l : list tarea_dict) (s : string) (w : Mundo) :
  c_fecha_vencimiento td = Some s -> fromisoformat s = None ->
  cargar_bucle reloj k (td :: l) w = (Some (CausaIsoformat s), w).
Proof.
  intros Hs Hf. cbn [cargar_bucle]. unfold cargar_una, convertir_fecha.
  rewrite Hs, Hf. reflexivity.
Qed.

(** C2, on the code.  Of two snapshot files of five records whose second
    record is malformed, the one where the title is blank loads the four
    other records and logs the failure; the one where the due date is
    not a date loads the first record only: the conversion of the date
    is outside the handler of the record, so the three valid records
    after it are lost and the load ends in the outer handler. *)
Theorem cargar_tareas_malformed_date :
  let w_titulo := TareaService_init (fun _ => ej_T) ej_archivo_titulo [] in
  let w_fecha := TareaService_init (fun _ => ej_T) ej_archivo_fecha [] in
  dict_keys (tareas (servicio w_titulo)) = [1; 3; 4; 5]
  /\ traza w_titulo = [ErrorLog (ErrorAlCargarTarea [titulo_vacio])]
  /\ dict_keys (tareas (servicio w_fecha)) = [1]
  /\ traza w_fecha
     = [ErrorLog (ErrorAlCargarTareas (CausaIsoformat "pronto"));
        Impreso (ErrorAlCargarTareas (CausaIsoformat "pronto"))]
  /\ map id (validas (fun _ => ej_T) 0
               [ej_td 1; ej_td_fecha 2; ej_td 3; ej_td 4; ej_td 5])
     = [1; 3; 4; 5].
Proof. vm_compute. repeat split. Qed.

(* ===================================================================== *)
(** ** The invariant of the registry *)
(* ===================================================================== *)

Lemma registro_ok_set (k : Z) (t : Tarea) (d : dict Tarea) :
  registro_ok d -> k = id t -> Tarea_ok t -> registro_ok (dict_set k t d).
Proof.
  intros [Hn Hf] Hk Ht. split.
  - now apply dict_keys_set_NoDup.
  - apply dict_set_Forall; [exact Hf | simpl; auto].
Qed.

Lemma read_int_length (w : nat) :
  forall (acc v : Z) (s r : string),
    read_int w acc s = Some (v, r) ->
    String.length s = (w + String.length r)%nat.
Proof.
  induction w as [|w IH]; intros acc v s r; simpl.
  - intros H. inversion H. reflexivity.
  - destruct s as [|c s]; [discriminate|].
    destruct (digit_of c); [|discriminate]. simpl.
    intros H. apply IH in H. simpl. now rewrite H.
Qed.

(** What [fromisoformat] returns passed the range checks. *)
Lemma fromisoformat_ok (s : string) (d : datetime) :
  fromisoformat s = Some d -> datetime_ok d = true.
Proof.
  unfold fromisoformat.
  destruct (read_int 4 0 s) as [[y s1]|]; [|discriminate]. cbn [obind].
  destruct (read_char "-" s1) as [s2|]; [|discriminate]. cbn [obind].
  destruct (read_int 2 0 s2) as [[m s3]|]; [|discriminate]. cbn [obind].
  destruct (read_char "-" s3) as [s4|]; [|discriminate]. cbn [obind].
  destruct (read_int 2 0 s4) as [[dd s5]|]; [|discriminate]. cbn [obind].
  destruct (match s5 with
            | EmptyString => Some (0, 0, 0, 0)
            | String _ tstr => parse_time tstr
            end) as [[[[hh mm] ss] us]|]; [|discriminate].
  cbn [obind].
  destruct (datetime_ok (mk_datetime y m dd hh mm ss us)) eqn:E;
    [|discriminate].
  intros H. inversion H. subst. exact E.
Qed.

Lemma cargar_una_registro_ok (ahora : datetime) (td : tarea_dict)
  (w : Mundo) :
  registro_ok (tareas (servicio w)) ->
  registro_ok (tareas (servicio (snd (cargar_una ahora td w)))).
Proof.
  intros Hok. unfold cargar_una.
  destruct (convertir_fecha td) as [kw|c] eqn:Ec; [|exact Hok].
  destruct (Tarea_init ahora kw) as [t|err] eqn:Ei; [|exact Hok].
  simpl. apply registro_ok_set; [exact Hok | reflexivity |].
  apply Tarea_init_Ok_inv in Ei.
  destruct Ei as (_ & _ & _ & _ & _ & Hf & Hs & Hl & _).
  split; [exact Hs|]. split; [exact Hl|].
  unfold convertir_fecha in Ec.
  destruct (c_fecha_vencimiento td) as [s|].
  - destruct (fromisoformat s) as [f|] eqn:Ef; [|discriminate].
    inversion Ec. subst kw. simpl in Hf. inversion Hf. subst f.
    eapply fromisoformat_ok; eauto.
  - inversion Ec. subst kw. discriminate Hf.
Qed.

Lemma cargar_bucle_registro_ok (reloj : nat -> datetime)
  (l : list tarea_dict) :
  forall (k : nat) (w : Mundo),
    registro_ok (tareas (servicio w)) ->
    registro_ok (tareas (servicio (snd (cargar_bucle reloj k l w)))).
Proof.
  induction l as [|td l IH]; intros k w Hok; simpl; [exact Hok|].
  pose proof (cargar_una_registro_ok (reloj k) td w Hok) as H1.
  destruct (cargar_una (reloj k) td w) as [[c|] w1]; simpl in *.
  - exact H1.
  - now apply IH.
Qed.

Lemma cargar_tareas_registro_ok (reloj : nat -> datetime) (w : Mundo) :
  registro_ok (tareas (servicio w)) ->
  registro_ok (tareas (servicio (cargar_tareas reloj w))).
Proof.
  intros Hok. unfold cargar_tareas.
  destruct (tareas_json w) as [| |d]; try exact Hok.
  set (w1 := match d_siguiente_id d with
             | Some n =>
                 if n =? 0 then w
                 else con_servicio
                        (mkTareaService (tareas (servicio w)) n) w
             | None => w
             end).
  assert (H1 : registro_ok (tareas (servicio w1))).
  { unfold w1. destruct (d_siguiente_id d) as [n|]; [|exact Hok].
    destruct (n =? 0); exact Hok. }
  destruct (d_tareas d) as [[|td l]|]; try exact H1.
  pose proof (cargar_bucle_registro_ok reloj (td :: l) 0 w1 H1) as H2.
  destruct (cargar_bucle reloj 0 (td :: l) w1) as [[c|] w2]; exact H2.
Qed.

Lemma agregar_tarea_registro_ok (ahora : datetime) (t d p : string)
  (f : datetime) (w : Mundo) :
  registro_ok (tareas (servicio w)) -> datetime_ok f = true ->
  registro_ok (tareas (servicio (snd (agregar_tarea ahora t d p f w)))).
Proof.
  intros Hok Hf. unfold agregar_tarea, Timer.
  destruct (MAX_TAREAS <=? dict_len (tareas (servicio w))); [exact Hok|].
  destruct (PrioridadEnum_of (PyStr.lower p)); [|exact Hok].
  destruct (Tarea_init _ _) as [r|err] eqn:Ei; [|exact Hok].
  simpl. apply Tarea_init_Ok_inv in Ei. simpl in Ei.
  destruct Ei as (Hi & _ & _ & _ & _ & Hfe & Hs & Hl & _).
  inversion Hi as [Hi']. inversion Hfe as [Hfe'].
  apply registro_ok_set; [exact Hok | exact Hi' |].
  split; [exact Hs|]. split; [exact Hl | congruence].
Qed.

Lemma actualizar_estado_tarea_registro_ok (i : Z) (s : string) (w : Mundo) :
  registro_ok (tareas (servicio w)) ->
  registro_ok (tareas (servicio (snd (actualizar_estado_tarea i s w)))).
Proof.
  intros Hok. unfold actualizar_estado_tarea, Timer.
  destruct (dict_get i (tareas (servicio w))) as [t|] eqn:Eg; [|exact Hok].
  destruct (EstadoEnum_of (PyStr.lower s)); [|exact Hok].
  simpl. destruct Hok as [Hn Hf].
  apply dict_get_In in Eg. rewrite Forall_forall in Hf.
  destruct (Hf _ Eg) as [Hk Ht]. simpl in Hk.
  apply registro_ok_set;
    [split; [exact Hn | now apply Forall_forall] | exact Hk | exact Ht].
Qed.

(** X1. Every world the program can be in, whatever snapshot file it
    started from and whatever calls were made, satisfies the invariant
    of the registry: no key is repeated, every record is stored under
    its own id, and every record has a title that is not blank and has
    at most 70 characters and a due date that is a date. *)
Theorem alcanzable_registro_ok (w : Mundo) :
  alcanzable w -> registro_ok (tareas (servicio w)).
Proof.
  intros H. induction H.
  - apply cargar_tareas_registro_ok. simpl. split; constructor.
  - now apply agregar_tarea_registro_ok.
  - now apply actualizar_estado_tarea_registro_ok.
  - exact IHalcanzable.
  - exact IHalcanzable.
  - exact IHalcanzable.
Qed.

(* ===================================================================== *)
(** ** Further properties of the record validators *)
(* ===================================================================== *)

(** X2. [titulo_no_vacio] rejects exactly the titles made of whitespace
    only (the empty title among them) and returns every other title
    unchanged. *)
Theorem titulo_no_vacio_blank_iff :
  forall v : string,
    (titulo_no_vacio v = Err titulo_vacio <-> PyStr.all_space v = true)
    /\ (titulo_no_vacio v = Ok v <-> PyStr.all_space v = false).
Proof.
  intros v. unfold titulo_no_vacio.
  pose proof (strip_empty_iff v) as H.
  destruct (PyStr.strip v) as [|c r].
  - assert (E : PyStr.all_space v = true) by now apply H.
    rewrite E. split; split; try discriminate; auto.
  - destruct (PyStr.all_space v) eqn:E.
    + destruct H as [_ H]. specialize (H eq_refl). discriminate.
    + split; split; try discriminate; auto.
Qed.

(* ===================================================================== *)
(** ** Further properties of the dictionary *)
(* ===================================================================== *)

Lemma dict_set_set {V : Type} (k : Z) (v1 v2 : V) (d : dict V) :
  dict_set k v2 (dict_set k v1 d) = dict_set k v2 d.
Proof.
  induction d as [|[k' v'] d IH]; simpl.
  - now rewrite Z.eqb_refl.
  - destruct (Z.eqb_spec k k') as [E|E]; simpl.
    + subst. now rewrite Z.eqb_refl.
    + destruct (Z.eqb_spec k k'); [contradiction|]. now rewrite IH.
Qed.

Lemma In_dict_keys_set {V : Type} (k k' : Z) (v : V) (d : dict V) :
  In k' (dict_keys (dict_set k v d)) <-> k' = k \/ In k' (dict_keys d).
Proof.
  induction d as [|[k0 v0] d IH]; simpl.
  - intuition.
  - destruct (Z.eqb_spec k k0) as [E|E]; simpl.
    + subst. intuition.
    + rewrite IH. intuition.
Qed.

Lemma dict_len_set_present {V : Type} (k : Z) (v : V) (d : dict V) :
  In k (dict_keys d) -> dict_len (dict_set k v d) = dict_len d.
Proof.
  intros H. unfold dict_len.
  assert (E : List.length (dict_keys (dict_set k v d))
              = List.length (dict_keys d))
    by now rewrite dict_keys_set_present.
  unfold dict_keys in E. rewrite !length_map in E. now rewrite E.
Qed.

Lemma dict_len_set_le {V : Type} (k : Z) (v : V) (d : dict V) :
  dict_len d <= dict_len (dict_set k v d) <= dict_len d + 1.
Proof.
  destruct (in_dec Z.eq_dec k (dict_keys d)) as [Hin|Hin].
  - rewrite dict_len_set_present by exact Hin. lia.
  - rewrite dict_set_fresh by exact Hin. unfold dict_len.
    rewrite length_app. simpl. lia.
Qed.

(* ===================================================================== *)
(** ** Further properties of [agregar_tarea] *)
(* ===================================================================== *)

Lemma agregar_tarea_Ok_eq (ahora : datetime) (t d p : string)
  (f : datetime) (w : Mundo) (pr : PrioridadEnum) :
  dict_len (tareas (servicio w)) < MAX_TAREAS ->
  PrioridadEnum_of (PyStr.lower p) = Some pr ->
  PyStr.strip t <> EmptyString -> PyStr.len t <= 70 ->
  datetime_ltb f ahora = false ->
  let r := mkTarea (siguiente_id (servicio w)) t d pr PENDIENTE f in
  let s' := servicio_tras_agregar r (servicio w) in
  agregar_tarea ahora t d p f w
  = (Ok r,
     mkMundo s' (Contenido (datos_de s'))
       (traza w ++ [DatosLog "Tarea agregada" (siguiente_id (servicio w)) t;
                    Volcado (datos_de s'); AccionLog "Agregar tarea"])).
Proof.
  intros Hlen Hp Hs Hl Hf. apply Z.leb_gt in Hlen.
  unfold agregar_tarea, Timer. rewrite Hlen, Hp.
  rewrite (Tarea_init_Ok ahora _ t d pr PENDIENTE f Hs Hl Hf).
  cbn zeta.
  unfold log_action, guardar_tareas, con_servicio, log_data_operation,
    emitir, servicio_tras_agregar.
  cbn [servicio tareas siguiente_id tareas_json traza].
  rewrite <- !app_assoc. reflexivity.
Qed.

Lemma agregar_tarea_Ok_cond (ahora : datetime) (t d p : string)
  (f : datetime) (w : Mundo) (r : Tarea) :
  fst (agregar_tarea ahora t d p f w) = Ok r ->
  dict_len (tareas (servicio w)) < MAX_TAREAS
  /\ (exists pr : PrioridadEnum,
         PrioridadEnum_of (PyStr.lower p) = Some pr)
  /\ PyStr.strip t <> EmptyString /\ PyStr.len t <= 70
  /\ datetime_ltb f ahora = false.
Proof.
  unfold agregar_tarea, Timer.
  destruct (Z.leb_spec MAX_TAREAS (dict_len (tareas (servicio w))))
    as [Hlen|Hlen]; [discriminate|].
  destruct (PrioridadEnum_of (PyStr.lower p)) as [pr|] eqn:Hp;
    [|discriminate].
  destruct (Tarea_init _ _) as [r'|err] eqn:Ei; [|discriminate].
  intros _. apply Tarea_init_Ok_inv in Ei. simpl in Ei.
  destruct Ei as (_ & Ht & _ & _ & _ & Hfe & Hs & Hl & Hlt).
  inversion Ht. inversion Hfe. subst.
  split; [exact Hlen|]. split; [now exists pr|]. auto.
Qed.

(* ===================================================================== *)
(** ** Assignment of ids (C5) *)
(* ===================================================================== *)

Lemma ids_desde_S (c : Z) (n : nat) :
  ids_desde c (S n) = ids_desde c n ++ [c + Z.of_nat n].
Proof. unfold ids_desde. rewrite seq_S, map_app. reflexivity. Qed.

Lemma ids_desde_cons (c : Z) (n : nat) :
  ids_desde c (S n) = c :: ids_desde (c + 1) n.
Proof.
  unfold ids_desde. cbn [seq map]. f_equal; [simpl; lia|].
  rewrite <- seq_shift, map_map. apply map_ext. intros i. lia.
Qed.

Lemma length_ids_desde (c : Z) (n : nat) : List.length (ids_desde c n) = n.
Proof. unfold ids_desde. now rewrite length_map, length_seq. Qed.

Lemma In_ids_desde (k c : Z) (n : nat) :
  In k (ids_desde c n) <-> c <= k < c + Z.of_nat n.
Proof.
  unfold ids_desde. rewrite in_map_iff. split.
  - intros (m & Hm & Hin). apply in_seq in Hin. lia.
  - intros H. exists (Z.to_nat (k - c)). split; [lia|]. apply in_seq. lia.
Qed.

Lemma ids_desde_sorted (c : Z) (n : nat) :
  StronglySorted Z.lt (ids_desde c n).
Proof.
  induction n as [|n IH].
  - constructor.
  - rewrite ids_desde_S. apply StronglySorted_app.
    + exact IH.
    + repeat constructor.
    + intros a b Ha [Hb|[]]. apply In_ids_desde in Ha. lia.
Qed.

Lemma ids_desde_NoDup (c : Z) (n : nat) : NoDup (ids_desde c n).
Proof.
  unfold ids_desde. apply Finite.Injective_map_NoDup.
  - intros a b. lia.
  - apply seq_NoDup.
Qed.

Lemma entrada_valida_true (e : entrada) :
  entrada_valida e = true <->
  (exists pr : PrioridadEnum,
      PrioridadEnum_of (PyStr.lower (e_prioridad e)) = Some pr)
  /\ PyStr.strip (e_titulo e) <> EmptyString
  /\ PyStr.len (e_titulo e) <= 70
  /\ datetime_ltb (e_fecha_vencimiento e) (e_ahora e) = false.
Proof.
  unfold entrada_valida.
  rewrite !andb_true_iff, Z.leb_le, negb_true_iff.
  destruct (PrioridadEnum_of (PyStr.lower (e_prioridad e))) as [pr|];
    destruct (PyStr.strip (e_titulo e)) as [|c0 s0]; split.
  - intros (((_ & H) & _) & _). discriminate H.
  - intros (_ & H & _). congruence.
  - intros ((_ & Hl) & Hf). split; [now exists pr|].
    split; [discriminate | auto].
  - intros (_ & _ & Hl & Hf). auto.
  - intros (((H & _) & _) & _). discriminate H.
  - intros ([pr H] & _). discriminate H.
  - intros (((H & _) & _) & _). discriminate H.
  - intros ([pr H] & _). discriminate H.
Qed.

(** One call on a registry with keys [c..c+n-1] and counter [c+n]: below
    the ceiling a valid input is stored under the id [c+n]; any other
    call raises and leaves the service as it was. *)
Lemma agregar_tarea_paso (c : Z) (n : nat) (e : entrada) (w : Mundo) :
  secuencial c n (servicio w) ->
  let r := fst (agregar_tarea (e_ahora e) (e_titulo e) (e_descripcion e)
                  (e_prioridad e) (e_fecha_vencimiento e) w) in
  let w' := snd (agregar_tarea (e_ahora e) (e_titulo e) (e_descripcion e)
                   (e_prioridad e) (e_fecha_vencimiento e) w) in
  if entrada_valida e && (Z.of_nat n <? MAX_TAREAS)
  then exists t : Tarea,
         r = Ok t /\ id t = c + Z.of_nat n
         /\ secuencial c (S n) (servicio w')
  else es_Ok r = false /\ servicio w' = servicio w.
Proof.
  intros (Hk & Hid & Hs). cbn zeta.
  assert (Hlen : dict_len (tareas (servicio w)) = Z.of_nat n).
  { unfold dict_len. f_equal.
    rewrite <- (length_ids_desde c n), <- Hk. unfold dict_keys.
    now rewrite length_map. }
  destruct (entrada_valida e && (Z.of_nat n <? MAX_TAREAS)) eqn:Ev.
  - apply andb_true_iff in Ev. destruct Ev as [Ev Hn].
    apply entrada_valida_true in Ev.
    destruct Ev as ([pr Hp] & Ht & Hl & Hf). apply Z.ltb_lt in Hn.
    rewrite <- Hlen in Hn.
    pose proof (agregar_tarea_Ok_eq (e_ahora e) (e_titulo e)
                  (e_descripcion e) (e_prioridad e)
                  (e_fecha_vencimiento e) w pr Hn Hp Ht Hl Hf) as E.
    cbn zeta in E. rewrite E. cbn [fst snd servicio].
    eexists. split; [reflexivity|]. cbn [id]. split; [exact Hs|].
    assert (Hfresh : ~ In (siguiente_id (servicio w))
                          (dict_keys (tareas (servicio w)))).
    { rewrite Hk, In_ids_desde. lia. }
    unfold secuencial, servicio_tras_agregar.
    cbn [tareas siguiente_id].
    rewrite dict_set_fresh by exact Hfresh.
    split; [|split].
    + unfold dict_keys in *. rewrite map_app, Hk, ids_desde_S.
      cbn [map fst]. now rewrite Hs.
    + apply Forall_app. split; [exact Hid|].
      constructor; [reflexivity | constructor].
    + rewrite Hs. lia.
  - destruct (agregar_tarea (e_ahora e) (e_titulo e) (e_descripcion e)
                (e_prioridad e) (e_fecha_vencimiento e) w)
      as [[t|ex] w'] eqn:E.
    + exfalso.
      assert (E1 : fst (agregar_tarea (e_ahora e) (e_titulo e)
                          (e_descripcion e) (e_prioridad e)
                          (e_fecha_vencimiento e) w) = Ok t)
        by now rewrite E.
      apply agregar_tarea_Ok_cond in E1.
      destruct E1 as (Hn & Hp & Ht & Hl & Hf).
      assert (Hv : entrada_valida e = true)
        by (apply entrada_valida_true; auto).
      rewrite Hv in Ev. rewrite Hlen in Hn. apply Z.ltb_lt in Hn.
      rewrite Hn in Ev. discriminate Ev.
    + apply agregar_tarea_Err in E. cbn [fst snd es_Ok]. tauto.
Qed.

Lemma agregar_varias_paso (c : Z) (es : list entrada) :
  forall (n : nat) (w : Mundo),
    secuencial c n (servicio w) ->
    Z.of_nat n + Z.of_nat (List.length (filter entrada_valida es))
    <= MAX_TAREAS ->
    let rs := fst (agregar_varias es w) in
    let w' := snd (agregar_varias es w) in
    let m := List.length (exitos rs) in
    map es_Ok rs = map entrada_valida es
    /\ map id (exitos rs) = ids_desde (c + Z.of_nat n) m
    /\ secuencial c (n + m) (servicio w').
Proof.
  induction es as [|e es IH]; intros n w Hn Hcap; cbn zeta.
  - simpl. rewrite Nat.add_0_r. auto.
  - cbn [agregar_varias].
    pose proof (agregar_tarea_paso c n e w Hn) as H1. cbn zeta in H1.
    cbn [filter] in Hcap.
    destruct (agregar_tarea (e_ahora e) (e_titulo e) (e_descripcion e)
                (e_prioridad e) (e_fecha_vencimiento e) w) as [r w1].
    cbn [fst snd] in H1.
    destruct (entrada_valida e) eqn:Ev.
    + cbn [List.length] in Hcap.
      assert (Hlt : (Z.of_nat n <? MAX_TAREAS) = true)
        by (apply Z.ltb_lt; lia).
      rewrite Hlt in H1. cbn [andb] in H1.
      destruct H1 as (t & Hr & Ht & Hn1). subst r.
      specialize (IH (S n) w1 Hn1). cbn zeta in IH.
      destruct (agregar_varias es w1) as [rs w2]. cbn [fst snd] in *.
      destruct IH as (I1 & I2 & I3); [lia|].
      cbn [map es_Ok exitos List.length]. rewrite Ev.
      split; [now rewrite I1|]. split.
      * rewrite ids_desde_cons. cbn [map]. rewrite Ht, I2.
        f_equal. f_equal. lia.
      * now rewrite Nat.add_succ_r.
    + cbn [andb] in H1. destruct H1 as [Hr Hs].
      assert (Hn1 : secuencial c n (servicio w1)) by now rewrite Hs.
      specialize (IH n w1 Hn1 Hcap). cbn zeta in IH.
      destruct (agregar_varias es w1) as [rs w2]. cbn [fst snd] in *.
      destruct IH as (I1 & I2 & I3).
      destruct r as [t|ex]; [discriminate Hr|].
      cbn [map es_Ok exitos]. rewrite Ev.
      split; [now rewrite I1 | auto].
Qed.

(** C5, amended.  From a registry with an empty mapping and next-id
    counter [c], which is 1 for a service constructed with no snapshot
    file, a sequence of calls of [agregar_tarea] of which at most
    [MAX_TAREAS] have a valid input assigns the ids c, c+1, c+2, ... in
    order: a call succeeds exactly when its input is valid, the ids
    returned are strictly increasing and start at [c], the stored records
    carry exactly these ids, each once, each under its own key, and the
    counter ends at [c] plus the number of successes. *)
Theorem agregar_tarea_ids_from_counter :
  forall (c : Z) (a : archivo) (tr : list evento) (es : list entrada),
    Z.of_nat (List.length (filter entrada_valida es)) <= MAX_TAREAS ->
    let w0 := mkMundo (mkTareaService [] c) a tr in
    let rs := fst (agregar_varias es w0) in
    let w' := snd (agregar_varias es w0) in
    let n := List.length (exitos rs) in
    (forall reloj : nat -> datetime,
        TareaService_init reloj NoExiste tr
        = mkMundo (mkTareaService [] 1) NoExiste tr)
    /\ map es_Ok rs = map entrada_valida es
    /\ map id (exitos rs) = ids_desde c n
    /\ StronglySorted Z.lt (map id (exitos rs))
    /\ dict_keys (tareas (servicio w')) = ids_desde c n
    /\ map id (dict_values (tareas (servicio w'))) = ids_desde c n
    /\ NoDup (map id (dict_values (tareas (servicio w'))))
    /\ siguiente_id (servicio w') = c + Z.of_nat n.
Proof.
  intros c a tr es Hcap w0 rs w' n.
  assert (H0 : secuencial c 0 (servicio w0)).
  { unfold w0, secuencial. cbn. repeat split; [constructor | lia]. }
  pose proof (agregar_varias_paso c es 0 w0 H0) as H.
  cbn zeta in H. fold rs in H. fold w' in H. fold n in H.
  destruct H as (Hok & Hids & Hk & Hid & Hs); [simpl; lia|].
  cbn [Z.of_nat] in Hids. rewrite Z.add_0_r in Hids. cbn [Nat.add] in *.
  assert (Hv : map id (dict_values (tareas (servicio w'))) = ids_desde c n).
  { rewrite <- Hk. unfold dict_values, dict_keys. rewrite map_map.
    apply map_ext_in. intros kv Hin.
    rewrite Forall_forall in Hid. symmetry. now apply Hid. }
  split; [intros reloj; reflexivity|].
  split; [exact Hok|]. split; [exact Hids|].
  split; [rewrite Hids; apply ids_desde_sorted|].
  split; [exact Hk|]. split; [exact Hv|].
  split; [rewrite Hv; apply ids_desde_NoDup | exact Hs].
Qed.

Lemma agregar_tarea_ids_from_counter_witness :
  let w0 := mkMundo (mkTareaService [] 1) NoExiste [] in
  let rs := fst (agregar_varias ej_entradas w0) in
  let w' := snd (agregar_varias ej_entradas w0) in
  let n := List.length (exitos rs) in
  (forall reloj : nat -> datetime,
      TareaService_init reloj NoExiste []
      = mkMundo (mkTareaService [] 1) NoExiste [])
  /\ map es_Ok rs = map entrada_valida ej_entradas
  /\ map id (exitos rs) = ids_desde 1 n
  /\ StronglySorted Z.lt (map id (exitos rs))
  /\ dict_keys (tareas (servicio w')) = ids_desde 1 n
  /\ map id (dict_values (tareas (servicio w'))) = ids_desde 1 n
  /\ NoDup (map id (dict_values (tareas (servicio w'))))
  /\ siguiente_id (servicio w') = 1 + Z.of_nat n.
Proof.
  apply (agregar_tarea_ids_from_counter 1 NoExiste [] ej_entradas).
  apply Z.leb_le. vm_compute. reflexivity.
Defined.

(** C5 as stated fails: the sample registry restarted at [T+4h] is empty,
    its three records being past due, but its counter is 4; of the six
    sample calls the three with a valid input succeed and get the ids 4,
    5, 6, not 1, 2, 3.  From a first start the same calls get 1, 2, 3. *)
Lemma agregar_tarea_ids_counterexample :
  tareas (servicio ej_vaciado) = []
  /\ siguiente_id (servicio ej_vaciado) = 4
  /\ map (fun r => match r with Ok t => Some (id t) | Err _ => None end)
         (fst (agregar_varias ej_entradas ej_vaciado))
     = [Some 4; None; None; Some 5; None; Some 6]
  /\ map (fun r => match r with Ok t => Some (id t) | Err _ => None end)
         (fst (agregar_varias ej_entradas mundo_inicial))
     = [Some 1; None; None; Some 2; None; Some 3].
Proof. vm_compute. repeat split. Qed.

(* ===================================================================== *)
(** ** Success and failure of [agregar_tarea] *)
(* ===================================================================== *)

(** X6. A call of [agregar_tarea] below the ceiling, with a priority
    text that lowers to one of the three values, a title that is not
    blank and has at most 70 characters and a due date not earlier than
    the clock, returns the record made of the arguments, with the value
    of the counter as id and the status pendiente; the record is stored
    under that id, the other keys keep their records, the counter
    advances by one, and the effects start with the line of the data log
    and end with the line of the timer, what [guardar_tareas] does lying
    between the two. *)
Theorem agregar_tarea_success :
  forall (ahora : datetime) (t d p : string) (f : datetime) (w : Mundo)
         (pr : PrioridadEnum),
    dict_len (tareas (servicio w)) < MAX_TAREAS ->
    PrioridadEnum_of (PyStr.lower p) = Some pr ->
    PyStr.strip t <> EmptyString -> PyStr.len t <= 70 ->
    datetime_ltb f ahora = false ->
    let n := siguiente_id (servicio w) in
    let r := mkTarea n t d pr PENDIENTE f in
    let w' := snd (agregar_tarea ahora t d p f w) in
    fst (agregar_tarea ahora t d p f w) = Ok r
    /\ dict_get n (tareas (servicio w')) = Some r
    /\ (forall k : Z, k <> n ->
           dict_get k (tareas (servicio w'))
           = dict_get k (tareas (servicio w)))
    /\ siguiente_id (servicio w') = n + 1
    /\ exists mid : list evento,
         traza w'
         = traza w ++ DatosLog "Tarea agregada" n t
                      :: mid ++ [AccionLog "Agregar tarea"].
Proof.
  intros ahora t d p f w pr Hlen Hp Hs Hl Hf n r w'.
  pose proof (agregar_tarea_Ok_eq ahora t d p f w pr Hlen Hp Hs Hl Hf)
    as E. cbn zeta in E. subst w'. rewrite E.
  unfold servicio_tras_agregar. cbn [fst snd servicio tareas siguiente_id
                                     tareas_json traza].
  split; [reflexivity|].
  split; [apply dict_get_set_eq|].
  split; [intros k Hk; now apply dict_get_set_ne|].
  split; [reflexivity|].
  eexists [_]. reflexivity.
Qed.

Lemma agregar_tarea_success_witness :
  let n := siguiente_id (servicio ej_tres) in
  let r := mkTarea n "Llamar" "Llamar al banco" ALTA PENDIENTE
                   (ej_T_mas 5) in
  let w' := snd (agregar_tarea ej_T "Llamar" "Llamar al banco" "Alta"
                               (ej_T_mas 5) ej_tres) in
  fst (agregar_tarea ej_T "Llamar" "Llamar al banco" "Alta" (ej_T_mas 5)
                     ej_tres) = Ok r
  /\ dict_get n (tareas (servicio w')) = Some r
  /\ (forall k : Z, k <> n ->
         dict_get k (tareas (servicio w'))
         = dict_get k (tareas (servicio ej_tres)))
  /\ siguiente_id (servicio w') = n + 1
  /\ exists mid : list evento,
       traza w'
       = traza ej_tres ++ DatosLog "Tarea agregada" n "Llamar"
                          :: mid ++ [AccionLog "Agregar tarea"].
Proof.
  apply (agregar_tarea_success ej_T "Llamar" "Llamar al banco" "Alta"
           (ej_T_mas 5) ej_tres ALTA).
  - vm_compute. reflexivity.
  - reflexivity.
  - vm_compute. discriminate.
  - vm_compute. discriminate.
  - reflexivity.
Defined.

(** X8. [agregar_tarea] returns a record exactly when the registry is
    below the ceiling, the priority text lowered is one of the three
    values, the title is not blank and has at most 70 characters, and
    the due date is not earlier than the clock. *)
Theorem agregar_tarea_Ok_iff :
  forall (ahora : datetime) (t d p : string) (f : datetime) (w : Mundo),
    (exists r : Tarea, fst (agregar_tarea ahora t d p f w) = Ok r)
    <-> (dict_len (tareas (servicio w)) < MAX_TAREAS
         /\ (exists pr : PrioridadEnum,
                PrioridadEnum_of (PyStr.lower p) = Some pr)
         /\ PyStr.strip t <> EmptyString /\ PyStr.len t <= 70
         /\ datetime_ltb f ahora = false).
Proof.
  intros ahora t d p f w. split.
  - intros [r Hr]. eapply agregar_tarea_Ok_cond; eauto.
  - intros (Hlen & [pr Hp] & Hs & Hl & Hf).
    pose proof (agregar_tarea_Ok_eq ahora t d p f w pr Hlen Hp Hs Hl Hf)
      as E. cbn zeta in E. rewrite E. eexists. reflexivity.
Qed.

(** X7. When [agregar_tarea] raises, the message of the exception is the
    one written to the error log, and the timer still writes its line:
    the effects of the call are exactly these two lines; no data line is
    logged and the snapshot is not rewritten. *)
Theorem agregar_tarea_error_logged :
  forall (ahora : datetime) (t d p : string) (f : datetime) (w : Mundo)
         (m : mensaje),
    fst (agregar_tarea ahora t d p f w) = Err (ValueError m) ->
    traza (snd (agregar_tarea ahora t d p f w))
    = traza w ++ [ErrorLog m; AccionLog "Agregar tarea"].
Proof.
  intros ahora t d p f w m. unfold agregar_tarea, Timer.
  destruct (MAX_TAREAS <=? dict_len (tareas (servicio w)));
    [|destruct (PrioridadEnum_of (PyStr.lower p));
      [destruct (Tarea_init _ _); [discriminate|]|]];
    simpl; intros H; inversion H; subst;
    rewrite <- app_assoc; reflexivity.
Qed.

Lemma agregar_tarea_error_logged_witness :
  traza (snd (agregar_tarea ej_T "Cita" "" "urgent" (ej_T_mas 1) ej_tres))
  = traza ej_tres
    ++ [ErrorLog (ErrorAlAgregarTarea (CausaEnum "urgent"));
        AccionLog "Agregar tarea"].
Proof.
  apply (agregar_tarea_error_logged ej_T "Cita" "" "urgent" (ej_T_mas 1)
           ej_tres (ErrorAlAgregarTarea (CausaEnum "urgent"))).
  reflexivity.
Defined.

(** X11. A record returned by [agregar_tarea] is found by
    [buscar_tarea_por_id] under its id right after, and the lookup of
    any other id answers as it did before the creation. *)
Theorem buscar_after_agregar :
  forall (ahora : datetime) (t d p : string) (f : datetime) (w : Mundo)
         (r : Tarea),
    fst (agregar_tarea ahora t d p f w) = Ok r ->
    let w' := snd (agregar_tarea ahora t d p f w) in
    fst (buscar_tarea_por_id (id r) w') = Some r
    /\ (forall k : Z, k <> id r ->
           fst (buscar_tarea_por_id k w') = fst (buscar_tarea_por_id k w)).
Proof.
  intros ahora t d p f w r Hr w'.
  destruct (agregar_tarea_Ok_cond _ _ _ _ _ _ _ Hr)
    as (Hlen & [pr Hp] & Hs & Hl & Hf).
  pose proof (agregar_tarea_Ok_eq ahora t d p f w pr Hlen Hp Hs Hl Hf)
    as E. cbn zeta in E. subst w'. rewrite E in *.
  cbn [fst snd] in *. inversion Hr. subst r. clear Hr.
  unfold buscar_tarea_por_id, Timer, servicio_tras_agregar.
  cbn [fst id servicio tareas].
  split; [apply dict_get_set_eq|].
  intros k Hk. now apply dict_get_set_ne.
Qed.

Lemma buscar_after_agregar_witness :
  let w' := snd (agregar_tarea ej_T "Llamar" "Llamar al banco" "Alta"
                               (ej_T_mas 5) ej_tres) in
  let r := mkTarea 4 "Llamar" "Llamar al banco" ALTA PENDIENTE
                   (ej_T_mas 5) in
  fst (buscar_tarea_por_id (id r) w') = Some r
  /\ (forall k : Z, k <> id r ->
         fst (buscar_tarea_por_id k w')
         = fst (buscar_tarea_por_id k ej_tres)).
Proof.
  apply (buscar_after_agregar ej_T "Llamar" "Llamar al banco" "Alta"
           (ej_T_mas 5) ej_tres
           (mkTarea 4 "Llamar" "Llamar al banco" ALTA PENDIENTE
                    (ej_T_mas 5))).
  vm_compute. reflexivity.
Defined.

(* ===================================================================== *)
(** ** Further properties of [actualizar_estado_tarea] *)
(* ===================================================================== *)

Lemma actualizar_estado_tarea_Ok_eq (i : Z) (s : string) (w : Mundo)
  (t : Tarea) (e : EstadoEnum) :
  dict_get i (tareas (servicio w)) = Some t ->
  EstadoEnum_of (PyStr.lower s) = Some e ->
  let s' := mkTareaService (dict_set i (con_estado e t) (tareas (servicio w)))
                           (siguiente_id (servicio w)) in
  actualizar_estado_tarea i s w
  = (Ok (Some (con_estado e t)),
     mkMundo s' (Contenido (datos_de s'))
       (traza w ++ [DatosLog "Estado de tarea actualizado" i s;
                    Volcado (datos_de s');
                    AccionLog "Actualizar estado de tarea"])).
Proof.
  intros Hg He. unfold actualizar_estado_tarea, Timer.
  rewrite Hg, He. cbn zeta.
  unfold log_action, guardar_tareas, con_servicio, log_data_operation,
    emitir.
  cbn [servicio tareas siguiente_id tareas_json traza].
  rewrite <- !app_assoc. reflexivity.
Qed.

(** X9. For an id that is in the registry and a status text that is
    none of the three values once lowered, [actualizar_estado_tarea]
    raises the error that names the text as given; the service and the
    snapshot file are unchanged, and the effects are the line of the
    error log and the line of the timer. *)
Theorem actualizar_estado_tarea_invalid_status :
  forall (i : Z) (s : string) (w : Mundo) (t : Tarea),
    dict_get i (tareas (servicio w)) = Some t ->
    EstadoEnum_of (PyStr.lower s) = None ->
    fst (actualizar_estado_tarea i s w) = Err (ValueError (EstadoNoValido s))
    /\ servicio (snd (actualizar_estado_tarea i s w)) = servicio w
    /\ tareas_json (snd (actualizar_estado_tarea i s w)) = tareas_json w
    /\ traza (snd (actualizar_estado_tarea i s w))
       = traza w ++ [ErrorLog (EstadoNoValido s);
                     AccionLog "Actualizar estado de tarea"].
Proof.
  intros i s w t Hg He. unfold actualizar_estado_tarea, Timer.
  rewrite Hg, He. simpl. rewrite <- app_assoc. auto.
Qed.

Lemma actualizar_estado_tarea_invalid_status_witness :
  fst (actualizar_estado_tarea 2 "Hecha" ej_tres)
  = Err (ValueError (EstadoNoValido "Hecha"))
  /\ servicio (snd (actualizar_estado_tarea 2 "Hecha" ej_tres))
     = servicio ej_tres
  /\ tareas_json (snd (actualizar_estado_tarea 2 "Hecha" ej_tres))
     = tareas_json ej_tres
  /\ traza (snd (actualizar_estado_tarea 2 "Hecha" ej_tres))
     = traza ej_tres ++ [ErrorLog (EstadoNoValido "Hecha");
                         AccionLog "Actualizar estado de tarea"].
Proof.
  apply (actualizar_estado_tarea_invalid_status 2 "Hecha" ej_tres
           (mkTarea 2 "Copia" "Copia de seguridad" ALTA PENDIENTE
                    (ej_T_mas 2)));
    vm_compute; reflexivity.
Defined.

(** X10. Of two successive status updates of the same record, the
    second decides: the service ends as if only the second update had
    been made, and both ways return the same record. *)
Theorem actualizar_estado_tarea_twice :
  forall (i : Z) (s1 s2 : string) (w : Mundo) (t : Tarea)
         (e1 e2 : EstadoEnum),
    dict_get i (tareas (servicio w)) = Some t ->
    EstadoEnum_of (PyStr.lower s1) = Some e1 ->
    EstadoEnum_of (PyStr.lower s2) = Some e2 ->
    let w1 := snd (actualizar_estado_tarea i s1 w) in
    fst (actualizar_estado_tarea i s2 w1)
    = fst (actualizar_estado_tarea i s2 w)
    /\ servicio (snd (actualizar_estado_tarea i s2 w1))
       = servicio (snd (actualizar_estado_tarea i s2 w)).
Proof.
  intros i s1 s2 w t e1 e2 Hg H1 H2 w1. subst w1.
  pose proof (actualizar_estado_tarea_Ok_eq i s1 w t e1 Hg H1) as E1.
  pose proof (actualizar_estado_tarea_Ok_eq i s2 w t e2 Hg H2) as E2.
  cbn zeta in E1, E2. rewrite E1, E2. cbn [snd].
  match goal with
  | |- context [actualizar_estado_tarea i s2 ?w1] =>
      pose proof (actualizar_estado_tarea_Ok_eq i s2 w1 (con_estado e1 t) e2)
        as E3
  end.
  cbn [servicio tareas siguiente_id traza] in E3.
  rewrite dict_get_set_eq in E3. specialize (E3 eq_refl H2).
  cbn zeta in E3. rewrite E3. cbn [fst snd servicio].
  rewrite dict_set_set. unfold con_estado. cbn [id titulo descripcion
    prioridad fecha_vencimiento]. auto.
Qed.

Lemma actualizar_estado_tarea_twice_witness :
  let w1 := snd (actualizar_estado_tarea 2 "En Progreso" ej_tres) in
  fst (actualizar_estado_tarea 2 "completada" w1)
  = fst (actualizar_estado_tarea 2 "completada" ej_tres)
  /\ servicio (snd (actualizar_estado_tarea 2 "completada" w1))
     = servicio (snd (actualizar_estado_tarea 2 "completada" ej_tres)).
Proof.
  apply (actualizar_estado_tarea_twice 2 "En Progreso" "completada" ej_tres
           (mkTarea 2 "Copia" "Copia de seguridad" ALTA PENDIENTE
                    (ej_T_mas 2)) EN_PROGRESO COMPLETADA);
    vm_compute; reflexivity.
Defined.

(* ===================================================================== *)
(** ** Letter case of the priority and status texts *)
(* ===================================================================== *)




(* ===================================================================== *)
(** ** Ties in the listings *)
(* ===================================================================== *)

Lemma PrioridadEnum_eqb_spec (a b : PrioridadEnum) :
  PrioridadEnum_eqb a b = true <-> a = b.
Proof. destruct a, b; simpl; split; congruence. Qed.

Lemma datetime_eqb_spec (a b : datetime) :
  datetime_eqb a b = true <-> a = b.
Proof.
  unfold datetime_eqb. split.
  - destruct (datetime_compare a b) eqn:E; try discriminate.
    intros _. now apply datetime_compare_eq.
  - intros ->. unfold datetime_compare. now rewrite lex_compare_refl.
Qed.

(** X12. In the result of [listar_tareas_por_prioridad] the records of
    one and the same priority stand in the order in which the registry
    holds them, whether the listing is ascending or descending. *)
Theorem listar_tareas_por_prioridad_stable :
  forall (ascendente : bool) (w : Mundo) (p : PrioridadEnum),
    filter (fun t => PrioridadEnum_eqb (prioridad t) p)
           (fst (listar_tareas_por_prioridad ascendente w))
    = filter (fun t => PrioridadEnum_eqb (prioridad t) p)
             (dict_values (tareas (servicio w))).
Proof.
  intros ascendente w p. rewrite listar_tareas_por_prioridad_eq.
  apply sorted_stable. intros x y Hx Hy.
  apply PrioridadEnum_eqb_spec in Hx. apply PrioridadEnum_eqb_spec in Hy.
  rewrite Hx, Hy. apply Z.ltb_irrefl.
Qed.

(** X13. In the result of [listar_tareas_por_vencimiento] the records
    due at one and the same moment stand in the order in which the
    registry holds them. *)
Theorem listar_tareas_por_vencimiento_stable :
  forall (w : Mundo) (f : datetime),
    filter (fun t => datetime_eqb (fecha_vencimiento t) f)
           (fst (listar_tareas_por_vencimiento w))
    = filter (fun t => datetime_eqb (fecha_vencimiento t) f)
        (filter (fun t => negb (EstadoEnum_eqb (estado t) COMPLETADA))
                (dict_values (tareas (servicio w)))).
Proof.
  intros w f. rewrite listar_tareas_por_vencimiento_eq.
  apply sorted_stable. intros x y Hx Hy.
  apply datetime_eqb_spec in Hx. apply datetime_eqb_spec in Hy.
  rewrite Hx, Hy. apply datetime_ltb_irrefl.
Qed.

(* ===================================================================== *)
(** ** Sequences of calls *)
(* ===================================================================== *)

(** What one call can do to the service and to the snapshot file: leave
    both as they were, or store a record under one key and rewrite the
    file with the new state, the counter staying or advancing by one. *)
Lemma ejecutar_cambio (w : Mundo) (c : llamada) :
  (servicio (ejecutar w c) = servicio w
   /\ tareas_json (ejecutar w c) = tareas_json w)
  \/ (sincronizado (ejecutar w c)
      /\ exists (k : Z) (t : Tarea),
           tareas (servicio (ejecutar w c))
           = dict_set k t (tareas (servicio w))
           /\ ((siguiente_id (servicio (ejecutar w c))
                = siguiente_id (servicio w)
                /\ In k (dict_keys (tareas (servicio w))))
               \/ (siguiente_id (servicio (ejecutar w c))
                   = siguiente_id (servicio w) + 1
                   /\ k = siguiente_id (servicio w)
                   /\ dict_len (tareas (servicio w)) < MAX_TAREAS))).
Proof.
  destruct c as [e|i|a| |i s]; cbn [ejecutar];
    try (left; split; reflexivity).
  - unfold agregar_tarea, Timer.
    destruct (Z.leb_spec MAX_TAREAS (dict_len (tareas (servicio w))))
      as [Hlen|Hlen]; [left; split; reflexivity|].
    destruct (PrioridadEnum_of (PyStr.lower (e_prioridad e)));
      [|left; split; reflexivity].
    destruct (Tarea_init _ _) as [r|err]; [|left; split; reflexivity].
    right. split; [reflexivity|].
    exists (siguiente_id (servicio w)), r. cbn. auto.
  - unfold actualizar_estado_tarea, Timer.
    destruct (dict_get i (tareas (servicio w))) as [t|] eqn:Hg;
      [|left; split; reflexivity].
    destruct (EstadoEnum_of (PyStr.lower s)) as [e|];
      [|left; split; reflexivity].
    right. split; [reflexivity|].
    exists i, (con_estado e t). cbn. split; [reflexivity|].
    left. split; [reflexivity|]. eapply dict_get_Some_In; eauto.
Qed.

(** X16. No sequence of calls takes a registry of at most [MAX_TAREAS]
    records above [MAX_TAREAS]. *)
Theorem ejecutar_varias_capacity :
  forall (cs : list llamada) (w : Mundo),
    dict_len (tareas (servicio w)) <= MAX_TAREAS ->
    dict_len (tareas (servicio (ejecutar_varias cs w))) <= MAX_TAREAS.
Proof.
  unfold ejecutar_varias.
  induction cs as [|c cs IH]; intros w Hw; simpl; [exact Hw|].
  apply IH.
  destruct (ejecutar_cambio w c) as [[Hs _]|[_ (k & t & Ht & Hc)]].
  - now rewrite Hs.
  - rewrite Ht. destruct Hc as [[_ Hin]|(_ & _ & Hlen)].
    + now rewrite dict_len_set_present.
    + pose proof (dict_len_set_le k t (tareas (servicio w))). lia.
Qed.

Lemma ejecutar_varias_capacity_witness :
  dict_len
    (tareas (servicio
       (ejecutar_varias
          [LlAgregar (mkEntrada ej_T "Cita" "" "Baja" (ej_T_mas 4));
           LlActualizar 7 "completada";
           LlAgregar (mkEntrada ej_T "Otra" "" "alta" (ej_T_mas 4))]
          mundo_lleno)))
  <= MAX_TAREAS.
Proof.
  apply (ejecutar_varias_capacity _ mundo_lleno).
  apply Z.leb_le. vm_compute. reflexivity.
Defined.

(** X17. Calls never delete: after any sequence of calls every key of
    the registry is still a key, in the same relative order, and the
    next-id counter has not gone down. *)
Theorem ejecutar_varias_monotone :
  forall (cs : list llamada) (w : Mundo),
    let w' := ejecutar_varias cs w in
    (exists nuevas : list Z,
        dict_keys (tareas (servicio w'))
        = dict_keys (tareas (servicio w)) ++ nuevas)
    /\ siguiente_id (servicio w) <= siguiente_id (servicio w').
Proof.
  unfold ejecutar_varias.
  induction cs as [|c cs IH]; intros w; simpl.
  - split; [exists []; now rewrite app_nil_r | lia].
  - destruct (IH (ejecutar w c)) as [[n2 Hk] Hs]. cbn zeta in *.
    destruct (ejecutar_cambio w c) as [[Hsv _]|[_ (k & t & Ht & Hc)]].
    + rewrite Hsv in *. split; [now exists n2 | exact Hs].
    + rewrite Hk, Ht.
      destruct (in_dec Z.eq_dec k (dict_keys (tareas (servicio w))))
        as [Hin|Hin].
      * rewrite dict_keys_set_present by exact Hin.
        split; [now exists n2 | destruct Hc as [[E _]|[E _]]; lia].
      * rewrite dict_set_fresh by exact Hin. unfold dict_keys at 1.
        rewrite map_app. cbn [map fst]. rewrite <- app_assoc.
        split; [eexists; reflexivity |
                destruct Hc as [[E _]|[E _]]; lia].
Qed.

(* ===================================================================== *)
(** ** Further properties of [cargar_tareas] *)
(* ===================================================================== *)

Lemma prefijo_refl (a : list evento) : prefijo a a.
Proof. exists []. now rewrite app_nil_r. Qed.

Lemma prefijo_trans (a b c : list evento) :
  prefijo a b -> prefijo b c -> prefijo a c.
Proof.
  intros [x Hx] [y Hy]. exists (x ++ y). subst. now rewrite app_assoc.
Qed.

Lemma prefijo_emitir (e : evento) (w : Mundo) :
  prefijo (traza w) (traza (emitir e w)).
Proof. exists [e]. reflexivity. Qed.

(** What the loop of [cargar_tareas] leaves alone. *)
Lemma cargar_bucle_marco (reloj : nat -> datetime) (l : list tarea_dict) :
  forall (k : nat) (w : Mundo),
    let w' := snd (cargar_bucle reloj k l w) in
    tareas_json w' = tareas_json w
    /\ siguiente_id (servicio w') = siguiente_id (servicio w)
    /\ n_volcados (traza w') = n_volcados (traza w)
    /\ prefijo (traza w) (traza w')
    /\ incl (dict_keys (tareas (servicio w)))
            (dict_keys (tareas (servicio w'))).
Proof.
  induction l as [|td l IH]; intros k w; cbn zeta.
  - simpl. repeat split; [apply prefijo_refl | apply incl_refl].
  - cbn [cargar_bucle]. unfold cargar_una.
    destruct (convertir_fecha td) as [kw|c].
    + destruct (Tarea_init (reloj k) kw) as [t|err].
      * specialize (IH (S k) (guardar_en_dict t w)). cbn zeta in IH.
        destruct IH as (H1 & H2 & H3 & H4 & H5).
        repeat split; try assumption.
        intros x Hx. apply H5. simpl. apply In_dict_keys_set. now right.
      * specialize (IH (S k) (log_error (ErrorAlCargarTarea err) w)).
        cbn zeta in IH. destruct IH as (H1 & H2 & H3 & H4 & H5).
        repeat split; try assumption.
        -- rewrite H3. unfold log_error, emitir. simpl.
           rewrite n_volcados_app. simpl. lia.
        -- eapply prefijo_trans; [|exact H4]. apply prefijo_emitir.
    + simpl. repeat split; [apply prefijo_refl | apply incl_refl].
Qed.

(** X5. Whatever the snapshot file holds, [cargar_tareas] leaves the file
    as it is and writes no snapshot; it only adds to the trace; every
    key of the registry is still a key; and the counter becomes the
    [siguiente_id] of the file when the file has one that is not zero,
    and stays otherwise, whether or not the records load. *)
Theorem cargar_tareas_frame :
  forall (reloj : nat -> datetime) (w : Mundo),
    let w' := cargar_tareas reloj w in
    tareas_json w' = tareas_json w
    /\ n_volcados (traza w') = n_volcados (traza w)
    /\ prefijo (traza w) (traza w')
    /\ incl (dict_keys (tareas (servicio w)))
            (dict_keys (tareas (servicio w')))
    /\ siguiente_id (servicio w')
       = match tareas_json w with
         | Contenido d =>
             match d_siguiente_id d with
             | Some n => if n =? 0 then siguiente_id (servicio w) else n
             | None => siguiente_id (servicio w)
             end
         | _ => siguiente_id (servicio w)
         end.
Proof.
  intros reloj w. cbn zeta. unfold cargar_tareas.
  destruct (tareas_json w) as [| |d] eqn:Ej.
  - rewrite Ej. repeat split; [apply prefijo_refl | apply incl_refl].
  - unfold error_al_cargar, log_error, emitir. simpl.
    rewrite !n_volcados_app. simpl.
    repeat split; [exact Ej | lia | | apply incl_refl].
    eexists. rewrite <- app_assoc. reflexivity.
  - set (w1 := match d_siguiente_id d with
               | Some n =>
                   if n =? 0 then w
                   else con_servicio
                          (mkTareaService (tareas (servicio w)) n) w
               | None => w
               end).
    assert (H1 : tareas_json w1 = tareas_json w
                 /\ traza w1 = traza w
                 /\ tareas (servicio w1) = tareas (servicio w)
                 /\ siguiente_id (servicio w1)
                    = match d_siguiente_id d with
                      | Some n =>
                          if n =? 0 then siguiente_id (servicio w) else n
                      | None => siguiente_id (servicio w)
                      end).
    { unfold w1. destruct (d_siguiente_id d) as [n|]; [|auto].
      destruct (n =? 0); simpl; auto. }
    destruct H1 as (Hj & Htr & Ht & Hs).
    destruct (d_tareas d) as [[|td l]|].
    + rewrite Hj, Htr, Ht, Hs, Ej.
      repeat split; [apply prefijo_refl | apply incl_refl].
    + pose proof (cargar_bucle_marco reloj (td :: l) 0 w1) as Hb.
      cbn zeta in Hb.
      destruct (cargar_bucle reloj 0 (td :: l) w1) as [[c|] w2];
        cbn [snd] in Hb; destruct Hb as (B1 & B2 & B3 & B4 & B5);
        rewrite Hj in B1; rewrite Htr in B3, B4; rewrite Ht in B5;
        rewrite Hs in B2.
      * unfold error_al_cargar, log_error, emitir. simpl.
        rewrite !n_volcados_app. simpl.
        repeat split; try assumption; try lia; try congruence.
        eapply prefijo_trans; [exact B4|].
        eexists. rewrite <- app_assoc. reflexivity.
      * repeat split; try assumption; congruence.
    + rewrite Hj, Htr, Ht, Hs, Ej.
      repeat split; [apply prefijo_refl | apply incl_refl].
Qed.

Lemma dict_get_guardar_todas (k : Z) (ts : list Tarea) :
  forall d : dict Tarea,
    dict_get k (guardar_todas ts d)
    = match ultima_con_id k ts with
      | Some t => Some t
      | None => dict_get k d
      end.
Proof.
  induction ts as [|t ts IH]; intros d; [reflexivity|].
  unfold guardar_todas in *. cbn [fold_left ultima_con_id].
  rewrite IH. destruct (ultima_con_id k ts); [reflexivity|].
  destruct (Z.eqb_spec k (id t)) as [E|E].
  - subst. apply dict_get_set_eq.
  - now apply dict_get_set_ne.
Qed.

Lemma con_contador_marco (d : datos) (w : Mundo) :
  tareas (servicio (con_contador d w)) = tareas (servicio w)
  /\ traza (con_contador d w) = traza w.
Proof.
  unfold con_contador. destruct (d_siguiente_id d) as [n|]; [|auto].
  destruct (n =? 0); auto.
Qed.

Lemma fecha_canonica_legible (td : tarea_dict) :
  fecha_canonica td -> fecha_legible td.
Proof.
  intros H s Hs. destruct (H s Hs) as (d & Hok & ->).
  rewrite (fromisoformat_isoformat d Hok). discriminate.
Qed.

Lemma no_es_fecha_None (s : string) :
  no_es_fecha s -> fromisoformat s = None.
Proof.
  destruct s as [|c s]; intros H.
  - reflexivity.
  - unfold fromisoformat. cbn [read_int]. cbn in H. rewrite H. reflexivity.
Qed.

(** X3. When the due-date text of every record of the snapshot that has
    one is the [isoformat] text of a datetime in range, as written by
    [guardar_tareas], [cargar_tareas] goes through the whole array: under
    each id the registry ends with the last record of that id that
    passes validation, or with what it held when there is none; every
    record that passes validation has its id in the registry; and one
    error line is logged for each record that fails. *)
Theorem cargar_tareas_skips_invalid :
  forall (reloj : nat -> datetime) (w : Mundo) (d : datos)
         (l : list tarea_dict),
    tareas_json w = Contenido d -> d_tareas d = Some l ->
    Forall fecha_canonica l ->
    let w' := cargar_tareas reloj w in
    (forall k : Z,
        dict_get k (tareas (servicio w'))
        = match ultima_con_id k (validas reloj 0 l) with
          | Some t => Some t
          | None => dict_get k (tareas (servicio w))
          end)
    /\ (forall t : Tarea,
           In t (validas reloj 0 l) ->
           In (id t) (dict_keys (tareas (servicio w'))))
    /\ (n_errores (traza w') + List.length (validas reloj 0 l)
        = n_errores (traza w) + List.length l)%nat.
Proof.
  intros reloj w d l Hj Hl Hcan. cbn zeta.
  assert (Hleg : Forall fecha_legible l)
    by (eapply Forall_impl; [apply fecha_canonica_legible | exact Hcan]).
  unfold cargar_tareas. rewrite Hj, Hl. fold (con_contador d w).
  destruct (con_contador_marco d w) as [Ht Htr].
  assert (Hw : tareas (servicio
                 (match l with
                  | [] => con_contador d w
                  | _ :: _ =>
                      match cargar_bucle reloj 0 l (con_contador d w) with
                      | (Some c, w2) => error_al_cargar c w2
                      | (None, w2) => w2
                      end
                  end))
               = guardar_todas (validas reloj 0 l) (tareas (servicio w))
               /\ (n_errores
                     (traza
                        (match l with
                         | [] => con_contador d w
                         | _ :: _ =>
                             match cargar_bucle reloj 0 l (con_contador d w)
                             with
                             | (Some c, w2) => error_al_cargar c w2
                             | (None, w2) => w2
                             end
                         end))
                   + List.length (validas reloj 0 l)
                   = n_errores (traza w) + List.length l)%nat).
  { destruct (cargar_bucle_validas reloj l 0 (con_contador d w) Hleg)
      as (B1 & B2 & _ & B4).
    destruct l as [|td l'].
    - simpl. rewrite Ht, Htr. split; [reflexivity | lia].
    - destruct (cargar_bucle reloj 0 (td :: l') (con_contador d w))
        as [[c|] w2]; [discriminate B1|].
      cbn [snd] in B2, B4. rewrite Ht in B2. rewrite Htr in B4.
      split; [exact B2 | exact B4]. }
  destruct Hw as [Hw1 Hw2].
  split; [|split].
  - intros k. rewrite Hw1. apply dict_get_guardar_todas.
  - intros t Hin. rewrite Hw1.
    assert (Hu : ultima_con_id (id t) (validas reloj 0 l) <> None).
    { clear - Hin. induction (validas reloj 0 l) as [|a ts IH];
        [contradiction|].
      cbn [ultima_con_id]. destruct Hin as [E|Hin].
      - subst a. destruct (ultima_con_id (id t) ts); [discriminate|].
        rewrite Z.eqb_refl. discriminate.
      - specialize (IH Hin).
        destruct (ultima_con_id (id t) ts); [discriminate | congruence]. }
    pose proof (dict_get_guardar_todas (id t) (validas reloj 0 l)
                  (tareas (servicio w))) as Hg.
    destruct (ultima_con_id (id t) (validas reloj 0 l)) as [t'|];
      [|congruence].
    eapply dict_get_Some_In. exact Hg.
  - exact Hw2.
Qed.

Ltac fechas_canonicas :=
  repeat (constructor;
          [intros s H; inversion H; subst;
           first [ exists (mk_datetime 2025 5 15 18 0 0 0);
                   split; reflexivity
                 | exists (mk_datetime 2025 5 16 9 30 0 0);
                   split; reflexivity ]|]);
  try constructor.

Lemma cargar_tareas_skips_invalid_witness :
  let reloj := fun _ : nat => ej_T in
  let w := mkMundo (mkTareaService [] 1) ej_archivo_repetido [] in
  let l := [ej_td 1; ej_td_titulo 7; ej_td 2; ej_td_otra 1] in
  let w' := cargar_tareas reloj w in
  (forall k : Z,
      dict_get k (tareas (servicio w'))
      = match ultima_con_id k (validas reloj 0 l) with
        | Some t => Some t
        | None => dict_get k (tareas (servicio w))
        end)
  /\ (forall t : Tarea,
         In t (validas reloj 0 l) ->
         In (id t) (dict_keys (tareas (servicio w'))))
  /\ (n_errores (traza w') + List.length (validas reloj 0 l)
      = n_errores (traza w) + List.length l)%nat.
Proof.
  apply (cargar_tareas_skips_invalid (fun _ => ej_T)
           (mkMundo (mkTareaService [] 1) ej_archivo_repetido [])
           (mkDatos (Some 3)
              (Some [ej_td 1; ej_td_titulo 7; ej_td 2; ej_td_otra 1]))
           [ej_td 1; ej_td_titulo 7; ej_td 2; ej_td_otra 1]).
  - reflexivity.
  - reflexivity.
  - fechas_canonicas.
Defined.

(** In the sample file with two records of id 1, the second one is the
    one kept, at the place of the first. *)
Example cargar_tareas_repetido_ejemplo :
  map (fun kv => (fst kv, titulo (snd kv)))
      (tareas (servicio (TareaService_init (fun _ => ej_T)
                           ej_archivo_repetido [])))
  = [(1, "Otra"); (2, "Tarea")].
Proof. vm_compute. reflexivity. Qed.

Lemma cargar_bucle_aborta (reloj : nat -> datetime) (l1 : list tarea_dict) :
  forall (k : nat) (w : Mundo) (td : tarea_dict) (l2 : list tarea_dict)
         (s : string),
    Forall fecha_legible l1 ->
    c_fecha_vencimiento td = Some s -> fromisoformat s = None ->
    cargar_bucle reloj k (l1 ++ td :: l2) w
    = (Some (CausaIsoformat s), snd (cargar_bucle reloj k l1 w)).
Proof.
  induction l1 as [|a l1 IH]; intros k w td l2 s Hl Hs Hf.
  - simpl app. rewrite (cargar_bucle_fecha_ilegible _ _ _ _ s); auto.
  - inversion Hl as [|? ? Ha Hl1]. subst.
    cbn [app cargar_bucle].
    destruct (cargar_una (reloj k) a w) as [[c|] w1] eqn:E.
    + exfalso. unfold cargar_una, convertir_fecha in E.
      unfold fecha_legible in Ha.
      destruct (c_fecha_vencimiento a) as [sa|].
      * specialize (Ha sa eq_refl).
        destruct (fromisoformat sa); [|congruence].
        destruct (Tarea_init _ _); discriminate E.
      * destruct (Tarea_init _ _); discriminate E.
    + now apply IH.
Qed.

(** X4. A record whose due-date text is empty or does not start with a
    decimal digit stops [cargar_tareas] there: the registry holds what
    the records before it gave (those that pass validation, the earlier
    due-date texts all being [isoformat] texts of datetimes in range),
    the records after it are not loaded whatever they are, and the load
    ends by logging and printing the error of the date. *)
Theorem cargar_tareas_stops_at_bad_date :
  forall (reloj : nat -> datetime) (w : Mundo) (d : datos)
         (l1 l2 : list tarea_dict) (td : tarea_dict) (s : string),
    tareas_json w = Contenido d ->
    d_tareas d = Some (l1 ++ td :: l2) ->
    Forall fecha_canonica l1 ->
    c_fecha_vencimiento td = Some s -> no_es_fecha s ->
    let w' := cargar_tareas reloj w in
    tareas (servicio w')
    = guardar_todas (validas reloj 0 l1) (tareas (servicio w))
    /\ exists tr : list evento,
         prefijo (traza w) tr
         /\ traza w'
            = tr ++ [ErrorLog (ErrorAlCargarTareas (CausaIsoformat s));
                     Impreso (ErrorAlCargarTareas (CausaIsoformat s))].
Proof.
  intros reloj w d l1 l2 td s Hj Hl Hcan Hs Hno. cbn zeta.
  assert (Hleg : Forall fecha_legible l1)
    by (eapply Forall_impl; [apply fecha_canonica_legible | exact Hcan]).
  pose proof (no_es_fecha_None s Hno) as Hf.
  unfold cargar_tareas. rewrite Hj, Hl. fold (con_contador d w).
  destruct (con_contador_marco d w) as [Ht Htr].
  destruct (l1 ++ td :: l2) as [|x xs] eqn:El;
    [destruct l1; discriminate El|].
  rewrite <- El.
  rewrite (cargar_bucle_aborta reloj l1 0 (con_contador d w) td l2 s)
    by assumption.
  destruct (cargar_bucle_validas reloj l1 0 (con_contador d w) Hleg)
    as (_ & B2 & _).
  pose proof (cargar_bucle_marco reloj l1 0 (con_contador d w)) as Hm.
  cbn zeta in Hm. destruct Hm as (_ & _ & _ & Hp & _).
  unfold error_al_cargar, log_error, emitir.
  cbn [servicio traza]. rewrite B2, Ht. split; [reflexivity|].
  exists (traza (snd (cargar_bucle reloj 0 l1 (con_contador d w)))).
  rewrite Htr in Hp. split; [exact Hp|].
  rewrite <- app_assoc. reflexivity.
Qed.

Lemma cargar_tareas_stops_at_bad_date_witness :
  let reloj := fun _ : nat => ej_T in
  let w := mkMundo (mkTareaService [] 1) ej_archivo_fecha [] in
  let w' := cargar_tareas reloj w in
  tareas (servicio w')
  = guardar_todas (validas reloj 0 [ej_td 1]) (tareas (servicio w))
  /\ exists tr : list evento,
       prefijo (traza w) tr
       /\ traza w'
          = tr ++ [ErrorLog (ErrorAlCargarTareas (CausaIsoformat "pronto"));
                   Impreso (ErrorAlCargarTareas (CausaIsoformat "pronto"))].
Proof.
  apply (cargar_tareas_stops_at_bad_date (fun _ => ej_T)
           (mkMundo (mkTareaService [] 1) ej_archivo_fecha [])
           (mkDatos (Some 6)
              (Some [ej_td 1; ej_td_fecha 2; ej_td 3; ej_td 4; ej_td 5]))
           [ej_td 1] [ej_td 3; ej_td 4; ej_td 5] (ej_td_fecha 2) "pronto").
  - reflexivity.
  - reflexivity.
  - fechas_canonicas.
  - reflexivity.
  - reflexivity.
Defined.

(* ===================================================================== *)
(** ** Ids across restarts *)
(* ===================================================================== *)

Lemma cargar_tareas_archivo (reloj : nat -> datetime) (w : Mundo) :
  tareas_json (cargar_tareas reloj w) = tareas_json w.
Proof.
  unfold cargar_tareas. destruct (tareas_json w) as [| |d] eqn:Ej;
    [exact Ej | exact Ej |].
  fold (con_contador d w).
  assert (Hc : tareas_json (con_contador d w) = Contenido d).
  { unfold con_contador. destruct (d_siguiente_id d) as [n|]; [|exact Ej].
    destruct (n =? 0); exact Ej. }
  destruct (d_tareas d) as [[|td l]|]; try exact Hc.
  pose proof (cargar_bucle_marco reloj (td :: l) 0 (con_contador d w)) as Hb.
  cbn zeta in Hb. destruct Hb as (B1 & _).
  destruct (cargar_bucle reloj 0 (td :: l) (con_contador d w))
    as [[c|] w2]; cbn [snd] in B1; simpl; congruence.
Qed.

Lemma inv_de_cero_ejecutar (w : Mundo) (c : llamada) :
  inv_de_cero w -> registro_ok (tareas (servicio (ejecutar w c))) ->
  inv_de_cero (ejecutar w c).
Proof.
  intros (Hok & [H1 Hb] & Ha) Hok'.
  destruct (ejecutar_cambio w c) as [[Hs Hj]|[Hsync (k & t & Ht & Hc)]].
  - split; [exact Hok'|]. rewrite Hs. split; [now split|].
    unfold archivo_de_cero. rewrite Hj, Hs. exact Ha.
  - assert (Hb' : bajo_contador (servicio (ejecutar w c))).
    { unfold bajo_contador. rewrite Ht.
      destruct Hc as [[E Hin]|(E & Ek & _)]; rewrite E.
      - split; [exact H1|]. now rewrite dict_keys_set_present.
      - split; [lia|]. apply Forall_forall. intros x Hx.
        apply In_dict_keys_set in Hx. rewrite Forall_forall in Hb.
        destruct Hx as [Hx|Hx]; [lia | specialize (Hb x Hx); lia]. }
    split; [exact Hok'|]. split; [exact Hb'|].
    right. exists (servicio (ejecutar w c)). auto.
Qed.

Lemma inv_de_cero_reinicio (w : Mundo) (reloj : nat -> datetime) :
  inv_de_cero w ->
  inv_de_cero (TareaService_init reloj (tareas_json w) (traza w)).
Proof.
  intros (_ & _ & Ha).
  assert (Hok' : registro_ok
                   (tareas (servicio (TareaService_init reloj (tareas_json w)
                                        (traza w))))).
  { apply cargar_tareas_registro_ok. simpl. split; constructor. }
  assert (Hj : tareas_json (TareaService_init reloj (tareas_json w) (traza w))
               = tareas_json w).
  { unfold TareaService_init. now rewrite cargar_tareas_archivo. }
  destruct Ha as [[Hne _]|(s0 & Hc & Hok0 & [H1 Hb0] & Hs0)].
  - rewrite Hne in *. rewrite TareaService_init_NoExiste in *.
    split; [exact Hok'|]. split.
    + split; [simpl; lia | constructor].
    + left. auto.
  - rewrite Hc in *.
    destruct (recargar_eq reloj (traza w) (mkMundo s0 NoExiste []) Hok0)
      as (Rt & Rs & _).
    unfold recargar in Rt, Rs. cbn [guardar_tareas tareas_json servicio]
      in Rt, Rs.
    assert (E0 : (siguiente_id s0 =? 0) = false) by (apply Z.eqb_neq; lia).
    rewrite E0 in Rs.
    split; [exact Hok'|]. split.
    + split; [rewrite Rs; exact H1|].
      rewrite Rt, Rs. unfold dict_keys. rewrite map_map. cbn [fst].
      apply Forall_forall. intros x Hx. apply in_map_iff in Hx.
      destruct Hx as (t & Hid & Hin). apply vigentes_In in Hin.
      rewrite Forall_forall in Hb0. apply Hb0.
      destruct (registro_ok_values _ Hok0) as (_ & _ & Hd).
      rewrite Hd. unfold dict_keys. rewrite map_map. cbn [fst].
      apply in_map_iff. now exists t.
    + right. exists s0. rewrite Hj.
      split; [reflexivity|]. split; [exact Hok0|].
      split; [split; assumption | now rewrite Rs].
Qed.

Lemma desde_cero_inv (w : Mundo) : desde_cero w -> inv_de_cero w.
Proof.
  intros H. induction H.
  - rewrite TareaService_init_NoExiste. split; [split; constructor|].
    split; [split; [simpl; lia | constructor] | left; auto].
  - change (snd (agregar_tarea ahora t d p f w))
      with (ejecutar w (LlAgregar (mkEntrada ahora t d p f))).
    apply inv_de_cero_ejecutar; [exact IHdesde_cero|].
    cbn [ejecutar e_ahora e_titulo e_descripcion e_prioridad
         e_fecha_vencimiento].
    apply agregar_tarea_registro_ok; [apply IHdesde_cero | assumption].
  - change (snd (actualizar_estado_tarea i s w))
      with (ejecutar w (LlActualizar i s)).
    apply inv_de_cero_ejecutar; [exact IHdesde_cero|].
    cbn [ejecutar]. apply actualizar_estado_tarea_registro_ok.
    apply IHdesde_cero.
  - change (snd (buscar_tarea_por_id i w)) with (ejecutar w (LlBuscar i)).
    apply inv_de_cero_ejecutar; [exact IHdesde_cero | apply IHdesde_cero].
  - change (snd (listar_tareas_por_prioridad ascendente w))
      with (ejecutar w (LlListarPrioridad ascendente)).
    apply inv_de_cero_ejecutar; [exact IHdesde_cero | apply IHdesde_cero].
  - change (snd (listar_tareas_por_vencimiento w))
      with (ejecutar w LlListarVencimiento).
    apply inv_de_cero_ejecutar; [exact IHdesde_cero | apply IHdesde_cero].
  - now apply inv_de_cero_reinicio.
Qed.

(** X15. In every world reached from a first start with no snapshot
    file, through calls and restarts, the counter is at least 1 and above
    every id of the registry, also after a restart has dropped records:
    no record stands under the id that comes next, and a record returned
    by [agregar_tarea] carries an id that the registry did not hold. *)
Theorem ids_never_reused :
  forall w : Mundo,
    desde_cero w ->
    1 <= siguiente_id (servicio w)
    /\ (forall k : Z,
           In k (dict_keys (tareas (servicio w))) ->
           k < siguiente_id (servicio w))
    /\ dict_get (siguiente_id (servicio w)) (tareas (servicio w)) = None
    /\ (forall (ahora : datetime) (t d p : string) (f : datetime)
               (r : Tarea),
           fst (agregar_tarea ahora t d p f w) = Ok r ->
           ~ In (id r) (dict_keys (tareas (servicio w)))
           /\ dict_len (tareas (servicio (snd (agregar_tarea ahora t d p f
                                                              w))))
              = dict_len (tareas (servicio w)) + 1).
Proof.
  intros w H. apply desde_cero_inv in H.
  destruct H as (_ & [H1 Hb] & _). rewrite Forall_forall in Hb.
  assert (Hfresh : ~ In (siguiente_id (servicio w))
                        (dict_keys (tareas (servicio w)))).
  { intros Hin. specialize (Hb _ Hin). lia. }
  split; [exact H1|]. split; [exact Hb|].
  split; [now apply dict_get_None_iff|].
  intros ahora t d p f r Hr.
  destruct (agregar_tarea_Ok_cond _ _ _ _ _ _ _ Hr)
    as (Hlen & [pr Hp] & Hs & Hl & Hf).
  pose proof (agregar_tarea_Ok_eq ahora t d p f w pr Hlen Hp Hs Hl Hf)
    as E. cbn zeta in E. rewrite E in *. cbn [fst snd] in *.
  inversion Hr. subst r. cbn [id]. split; [exact Hfresh|].
  unfold servicio_tras_agregar. cbn [servicio tareas].
  rewrite dict_set_fresh by exact Hfresh. unfold dict_len.
  rewrite length_app. simpl. lia.
Qed.

Lemma ids_never_reused_witness :
  1 <= siguiente_id (servicio ej_reiniciado)
  /\ (forall k : Z,
         In k (dict_keys (tareas (servicio ej_reiniciado))) ->
         k < siguiente_id (servicio ej_reiniciado))
  /\ dict_get (siguiente_id (servicio ej_reiniciado))
              (tareas (servicio ej_reiniciado)) = None
  /\ (forall (ahora : datetime) (t d p : string) (f : datetime)
             (r : Tarea),
         fst (agregar_tarea ahora t d p f ej_reiniciado) = Ok r ->
         ~ In (id r) (dict_keys (tareas (servicio ej_reiniciado)))
         /\ dict_len (tareas (servicio (snd (agregar_tarea ahora t d p f
                                                            ej_reiniciado))))
            = dict_len (tareas (servicio ej_reiniciado)) + 1).
Proof.
  apply (ids_never_reused ej_reiniciado).
  unfold ej_reiniciado. apply dc_reinicio.
  change ej_tres
    with (snd (agregar_tarea ej_T "Correo" "Responder al cliente" "Media"
                 (ej_T_mas 3)
            (snd (agregar_tarea ej_T "Copia" "Copia de seguridad" "ALTA"
                    (ej_T_mas 2)
               (snd (agregar_tarea ej_T "Informe" "Informe trimestral"
                       "baja" (ej_T_mas 1) mundo_inicial)))))).
  repeat (apply dc_agregar; [|reflexivity]).
  apply dc_inicio.
Defined.

(** After the restart at [T+1h30] the sample registry holds the ids 2
    and 3 and the counter is still 4. *)
Example ids_never_reused_ejemplo :
  dict_keys (tareas (servicio ej_reiniciado)) = [2; 3]
  /\ siguiente_id (servicio ej_reiniciado) = 4.
Proof. vm_compute. split; reflexivity. Qed.

Lemma alcanzable_registro_ok_witness :
  registro_ok
    (tareas (servicio
       (snd (actualizar_estado_tarea 1 "pendiente"
               (TareaService_init (fun _ => ej_T) ej_archivo_repetido []))))).
Proof.
  apply (alcanzable_registro_ok
           (snd (actualizar_estado_tarea 1 "pendiente"
                   (TareaService_init (fun _ => ej_T) ej_archivo_repetido
                      [])))).
  apply alc_actualizar. apply alc_init.
Defined.

(* ===================================================================== *)
(** ** The menu and the service *)
(* ===================================================================== *)

Lemma opcion_1_3 (o : Z) : 1 <= o <= 3 -> o = 1 \/ o = 2 \/ o = 3.
Proof. lia. Qed.

(** X19. Through the menu, with a priority option in 1..3, a creation
    never fails on the priority: the call either returns a record with
    the priority of the option (1 alta, 2 media, 3 baja) or raises the
    capacity error or a validation error of the record; the timer of
    the menu writes its line last in both cases. *)
Theorem SistemaTareas_agregar_tarea_outcomes :
  forall (ahora : datetime) (t d : string) (o : Z) (f : datetime)
         (w : Mundo),
    1 <= o <= 3 ->
    exists (pr : PrioridadEnum) (r : res excepcion Tarea) (w' : Mundo),
      py_index [ALTA; MEDIA; BAJA] (o - 1) = Some pr
      /\ SistemaTareas_agregar_tarea ahora t d o f w = Some (r, w')
      /\ ((exists tarea : Tarea, r = Ok tarea /\ prioridad tarea = pr)
          \/ r = Err (ValueError LimiteAlcanzado)
          \/ (exists e : ValidationError,
                 r = Err (ValueError (ErrorDeValidacion e))))
      /\ exists tr : list evento,
           traza w' = tr ++ [AccionLog "Agregar tarea";
                             AccionLog "Agregar tarea (interfaz)"].
Proof.
  intros ahora t d o f w Ho.
  assert (Hc : exists (pr : PrioridadEnum) (p : string),
             py_index [ALTA; MEDIA; BAJA] (o - 1) = Some pr
             /\ py_index prioridades (o - 1) = Some p
             /\ PrioridadEnum_of (PyStr.lower p) = Some pr).
  { destruct (opcion_1_3 o Ho) as [E|[E|E]]; subst o.
    - exists ALTA, "alta". repeat split.
    - exists MEDIA, "media". repeat split.
    - exists BAJA, "baja". repeat split. }
  destruct Hc as (pr & p & H1 & H2 & H3).
  exists pr. unfold SistemaTareas_agregar_tarea. rewrite H2.
  unfold Timer at 1.
  destruct (agregar_tarea ahora t d p f w) as [r w1] eqn:E.
  exists r, (log_action "Agregar tarea (interfaz)" w1).
  split; [exact H1|]. split; [reflexivity|].
  revert E. unfold agregar_tarea, Timer. rewrite H3.
  destruct (MAX_TAREAS <=? dict_len (tareas (servicio w))).
  - intros E. inversion E. subst. split; [auto|].
    eexists. unfold log_action, emitir. cbn [traza].
    rewrite <- app_assoc. reflexivity.
  - destruct (Tarea_init _ _) as [tarea|err] eqn:Ei;
      intros E; inversion E; subst.
    + split.
      * left. exists tarea. split; [reflexivity|].
        apply Tarea_init_Ok_inv in Ei. cbn [c_prioridad] in Ei.
        destruct Ei as (_ & _ & _ & Hp & _). inversion Hp as [Hp'].
        destruct pr, (prioridad tarea); try discriminate Hp'; reflexivity.
      * eexists. unfold log_action, emitir. cbn [traza].
        rewrite <- app_assoc. reflexivity.
    + split; [right; right; now exists err|].
      eexists. unfold log_action, emitir. cbn [traza].
      rewrite <- app_assoc. reflexivity.
Qed.

Lemma SistemaTareas_agregar_tarea_outcomes_witness :
  exists (pr : PrioridadEnum) (r : res excepcion Tarea) (w' : Mundo),
    py_index [ALTA; MEDIA; BAJA] (2 - 1) = Some pr
    /\ SistemaTareas_agregar_tarea ej_T "Cita" "" 2 (ej_T_mas 4) ej_tres
       = Some (r, w')
    /\ ((exists tarea : Tarea, r = Ok tarea /\ prioridad tarea = pr)
        \/ r = Err (ValueError LimiteAlcanzado)
        \/ (exists e : ValidationError,
               r = Err (ValueError (ErrorDeValidacion e))))
    /\ exists tr : list evento,
         traza w' = tr ++ [AccionLog "Agregar tarea";
                           AccionLog "Agregar tarea (interfaz)"].
Proof.
  apply (SistemaTareas_agregar_tarea_outcomes ej_T "Cita" "" 2 (ej_T_mas 4)
           ej_tres).
  lia.
Defined.

(** X20. Through the menu, with a status option in 1..3, a status update
    never raises: when the id is not in the registry nothing but the
    lookup is done, and when it is, the record gets the status of the
    option (1 pendiente, 2 en progreso, 3 completada) and is returned. *)
Theorem SistemaTareas_actualizar_estado_tarea_never_raises :
  forall (i o : Z) (w : Mundo),
    1 <= o <= 3 ->
    exists (e : EstadoEnum) (r : option Tarea) (w' : Mundo),
      py_index [PENDIENTE; EN_PROGRESO; COMPLETADA] (o - 1) = Some e
      /\ SistemaTareas_actualizar_estado_tarea i o w = Some (Ok r, w')
      /\ match dict_get i (tareas (servicio w)) with
         | None =>
             r = None /\ w' = log_action "Buscar tarea por ID" w
         | Some t =>
             r = Some (con_estado e t)
             /\ dict_get i (tareas (servicio w')) = Some (con_estado e t)
         end.
Proof.
  intros i o w Ho.
  assert (Hc : exists (e : EstadoEnum) (s : string),
             py_index [PENDIENTE; EN_PROGRESO; COMPLETADA] (o - 1) = Some e
             /\ py_index estados (o - 1) = Some s
             /\ EstadoEnum_of (PyStr.lower s) = Some e).
  { destruct (opcion_1_3 o Ho) as [E|[E|E]]; subst o.
    - exists PENDIENTE, "pendiente". repeat split.
    - exists EN_PROGRESO, "en progreso". repeat split.
    - exists COMPLETADA, "completada". repeat split. }
  destruct Hc as (e & s & H1 & H2 & H3).
  exists e. unfold SistemaTareas_actualizar_estado_tarea.
  unfold buscar_tarea_por_id at 1. unfold Timer at 1.
  destruct (dict_get i (tareas (servicio w))) as [t|] eqn:Hg.
  - rewrite H2. unfold Timer at 1.
    assert (Hg' : dict_get i
                    (tareas (servicio (log_action "Buscar tarea por ID" w)))
                  = Some t) by exact Hg.
    pose proof (actualizar_estado_tarea_Ok_eq i s
                  (log_action "Buscar tarea por ID" w) t e Hg' H3) as E.
    cbn zeta in E. rewrite E.
    eexists. eexists. split; [exact H1|]. split; [reflexivity|].
    split; [reflexivity|]. apply dict_get_set_eq.
  - eexists. eexists. split; [exact H1|]. split; [reflexivity|]. auto.
Qed.

Lemma SistemaTareas_actualizar_estado_tarea_never_raises_witness :
  exists (e : EstadoEnum) (r : option Tarea) (w' : Mundo),
    py_index [PENDIENTE; EN_PROGRESO; COMPLETADA] (3 - 1) = Some e
    /\ SistemaTareas_actualizar_estado_tarea 2 3 ej_tres = Some (Ok r, w')
    /\ match dict_get 2 (tareas (servicio ej_tres)) with
       | None =>
           r = None /\ w' = log_action "Buscar tarea por ID" ej_tres
       | Some t =>
           r = Some (con_estado e t)
           /\ dict_get 2 (tareas (servicio w')) = Some (con_estado e t)
       end.
Proof.
  apply (SistemaTareas_actualizar_estado_tarea_never_raises 2 3 ej_tres).
  lia.
Defined.

(* ===================================================================== *)
(** ** Saving and loading in general *)
(* ===================================================================== *)

(** X21. For a registry that satisfies the invariant of the service,
    saving it and constructing a new service from the snapshot gives the
    records that are not past due when they are validated, in the order
    of the registry and each under its id; one error line is logged for
    each of the other records; and the counter comes back, a counter of
    zero apart, which the load takes for absent and leaves at 1. *)
Theorem guardar_cargar_general :
  forall (reloj : nat -> datetime) (tr : list evento) (w : Mundo),
    registro_ok (tareas (servicio w)) ->
    let w' := recargar reloj tr w in
    let ts := dict_values (tareas (servicio w)) in
    dict_values (tareas (servicio w')) = vigentes reloj 0 ts
    /\ dict_keys (tareas (servicio w')) = map id (vigentes reloj 0 ts)
    /\ (n_errores (traza w')
        = n_errores tr + List.length (vencidas reloj 0 ts))%nat
    /\ (List.length (vigentes reloj 0 ts)
        + List.length (vencidas reloj 0 ts) = List.length ts)%nat
    /\ siguiente_id (servicio w')
       = (if siguiente_id (servicio w) =? 0 then 1
          else siguiente_id (servicio w)).
Proof.
  intros reloj tr w Hok w' ts.
  destruct (recargar_eq reloj tr w Hok) as (Rt & Rs & Rtr).
  fold w' in Rt, Rs, Rtr. fold ts in Rt, Rtr.
  split; [|split; [|split; [|split]]].
  - rewrite Rt. unfold dict_values. rewrite map_map. apply map_id.
  - rewrite Rt. unfold dict_keys. now rewrite map_map.
  - rewrite Rtr. unfold n_errores. rewrite errores_log_app, length_app.
    f_equal. clear. induction (vencidas reloj 0 ts) as [|a l IH];
      simpl; congruence.
  - clear. generalize 0%nat. induction ts as [|a l IH]; intros k;
      [reflexivity|].
    simpl. destruct (datetime_ltb (fecha_vencimiento a) (reloj k));
      simpl; rewrite <- (IH (S k)); lia.
  - exact Rs.
Qed.

Lemma guardar_cargar_general_witness :
  let reloj := fun _ : nat => ej_tarde in
  let w' := recargar reloj [] ej_tres in
  let ts := dict_values (tareas (servicio ej_tres)) in
  dict_values (tareas (servicio w')) = vigentes reloj 0 ts
  /\ dict_keys (tareas (servicio w')) = map id (vigentes reloj 0 ts)
  /\ (n_errores (traza w')
      = n_errores [] + List.length (vencidas reloj 0 ts))%nat
  /\ (List.length (vigentes reloj 0 ts)
      + List.length (vencidas reloj 0 ts) = List.length ts)%nat
  /\ siguiente_id (servicio w')
     = (if siguiente_id (servicio ej_tres) =? 0 then 1
        else siguiente_id (servicio ej_tres)).
Proof.
  apply (guardar_cargar_general (fun _ => ej_tarde) [] ej_tres).
  registro_ok_concreto.
Defined.
